(** * GovEsb: the signed-envelope client of fast_api_builder/govesb/govesb.py

    A shallow embedding of the [GovEsb] class: the compact JSON serialisation
    that is signed ([trim_payload]), the signing and verification wrappers,
    the envelope builder, the token refresh, the outbound [consume] flow and
    the inbound [aconsume] acknowledgment, with Python's exceptions written
    as an error monad and the mutable singleton as explicit state. *)

From Stdlib Require Import List String Ascii ZArith NArith Lia Bool Arith.
From Stdlib Require Import DecimalString.
From Stdlib Require Import PrimFloat SpecFloat FloatOps.
Import ListNotations.
Local Open Scope string_scope.
Local Open Scope Z_scope.

Set Implicit Arguments.
Set Warnings "-register-all".

(* ------------------------------------------------------------------ *)
(** ** Python values and exceptions *)

(** Python [bytes]: a list of octets. *)
Definition bytes := list ascii.

(** Python [str], restricted to code points below 256: each [ascii] of the
    string is one code point. *)
Definition str := string.

(** The exception classes the module can meet.  All of them derive from
    [Exception] except [CancelledError], which derives from [BaseException]
    only and therefore passes through [except Exception]. *)
Inductive exn : Type :=
| AttributeError (what : string)
| TypeError (what : string)
| ValueError (what : string)
| KeyError (key : string)
| BinasciiError (what : string)
| UnicodeDecodeError
| InvalidSignature
| UnboundLocalError (var : string)
| OverflowError (what : string)
| TransportError
| HTTPStatusError (status : Z)
| JSONDecodeError
| ValidationError
| PlainException (msg : string)
| CancelledError.

Definition is_Exception (e : exn) : bool :=
  match e with
  | CancelledError => false
  | _ => true
  end.

(** The outcome of evaluating a Python expression. *)
Inductive result (A : Type) : Type :=
| Return (a : A)
| Raise (e : exn).
Arguments Return {A} a.
Arguments Raise {A} e.

Definition rbind {A B} (r : result A) (k : A -> result B) : result B :=
  match r with
  | Return a => k a
  | Raise e => Raise e
  end.

Declare Scope result_scope.
Delimit Scope result_scope with result.
Notation "x <-! r ;; k" := (rbind r (fun x => k))
  (at level 61, r at next level, right associativity) : result_scope.

(** What [json.loads] can produce (floats apart), which is also what the
    payloads handed to the envelope builder are made of.  A [dict] keeps its
    insertion order, so it is an association list. *)
Inductive json : Type :=
| JNull
| JBool (b : bool)
| JInt (n : Z)
| JStr (s : str)
| JList (items : list json)
| JDict (fields : list (str * json)).

(** Python truthiness, as [if x:] tests it. *)
Definition truthy (v : json) : bool :=
  match v with
  | JNull => false
  | JBool b => b
  | JInt n => negb (n =? 0)
  | JStr s => negb (String.eqb s "")
  | JList l => match l with [] => false | _ => true end
  | JDict l => match l with [] => false | _ => true end
  end.

(** [x is not None]. *)
Definition is_not_None (v : json) : bool :=
  match v with
  | JNull => false
  | _ => true
  end.

(** [d.get(key, default)] on an insertion-ordered dict. *)
Fixpoint dict_lookup (key : str) (d : list (str * json)) : option json :=
  match d with
  | [] => None
  | (k, v) :: rest => if String.eqb k key then Some v else dict_lookup key rest
  end.

(** [d[key] = v]: an existing key keeps its position, a new key goes last. *)
Fixpoint dict_set (key : str) (v : json) (d : list (str * json)) : list (str * json) :=
  match d with
  | [] => [(key, v)]
  | (k, v0) :: rest =>
      if String.eqb k key then (k, v) :: rest else (k, v0) :: dict_set key v rest
  end.

Definition dict_keys (d : list (str * json)) : list str := map fst d.

(** [obj.get(key, default)]: only a dict has the method. *)
Definition py_get (obj : json) (key : str) (default : json) : result json :=
  match obj with
  | JDict d => Return (match dict_lookup key d with Some v => v | None => default end)
  | _ => Raise (AttributeError "get")
  end.

(** [obj[key]]. *)
Definition py_getitem (obj : json) (key : str) : result json :=
  match obj with
  | JDict d => match dict_lookup key d with
               | Some v => Return v
               | None => Raise (KeyError key)
               end
  | _ => Raise (TypeError "subscript")
  end.

(* ------------------------------------------------------------------ *)
(** ** The canonical serialisation: [json.dumps(payload, separators=(',', ':'))] *)

Definition hex_digit (n : N) : ascii :=
  (if n <? 10 then ascii_of_N (48 + n) else ascii_of_N (87 + n))%N.

(** ['\\u{0:04x}'.format(n)] for a code point below 256. *)
Definition escape_u (c : ascii) : string :=
  let n := N_of_ascii c in
  "\u00" ++ String (hex_digit (n / 16)) (String (hex_digit (n mod 16)) "").

(** One character under [ESCAPE_ASCII]: the backslash and the double quote,
    the short escapes of [ESCAPE_DCT], and [\uXXXX] for everything outside
    the range from space to tilde. *)
Definition escape_char (c : ascii) : string :=
  let n := N_of_ascii c in
  (if n =? 92 then "\\"
   else if n =? 34 then String "\" (String (ascii_of_N 34) "")
   else if n =? 8 then "\b"
   else if n =? 12 then "\f"
   else if n =? 10 then "\n"
   else if n =? 13 then "\r"
   else if n =? 9 then "\t"
   else if (n <? 32) || (126 <? n) then escape_u c
   else String c "")%N.

Fixpoint escape_chars (s : str) : string :=
  match s with
  | EmptyString => ""
  | String c rest => escape_char c ++ escape_chars rest
  end.

Definition dquote : string := String (ascii_of_N 34) "".

(** A text between double quotes. *)
Definition quoted (s : string) : string := dquote ++ s ++ dquote.

(** [encode_basestring_ascii]. *)
Definition encode_basestring_ascii (s : str) : string :=
  quoted (escape_chars s).

(** [int.__repr__]. *)
Definition repr_int (n : Z) : string := NilZero.string_of_int (Z.to_int n).

(** [sep.join(parts)]. *)
Fixpoint join (sep : string) (parts : list string) : string :=
  match parts with
  | [] => ""
  | [p] => p
  | p :: rest => p ++ sep ++ join sep rest
  end.

(** [json.dumps(v, separators=(',', ':'))] with the default
    [ensure_ascii=True]: no whitespace is inserted, items are separated by a
    comma, a key from its value by a colon, and a dict is written in its
    insertion order. *)
Fixpoint dumps (v : json) : string :=
  match v with
  | JNull => "null"
  | JBool true => "true"
  | JBool false => "false"
  | JInt n => repr_int n
  | JStr s => encode_basestring_ascii s
  | JList items => "[" ++ join "," (map dumps items) ++ "]"
  | JDict fields =>
      "{" ++ join "," (map (fun kv => encode_basestring_ascii (fst kv) ++ ":" ++ dumps (snd kv))
                           fields) ++ "}"
  end.

(** [GovEsb.trim_payload]. *)
Definition trim_payload (payload : json) : string := dumps payload.

(** [s.encode("utf-8")] for code points below 256: one octet below 128, two
    octets from 128 on. *)
Definition utf8_encode_char (c : ascii) : bytes :=
  let n := N_of_ascii c in
  (if n <? 128 then [c]
   else [ascii_of_N (192 + n / 64); ascii_of_N (128 + n mod 64)])%N.

Fixpoint utf8_encode (s : str) : bytes :=
  match s with
  | EmptyString => []
  | String c rest => (utf8_encode_char c ++ utf8_encode rest)%list
  end.

(** [b.decode("utf-8")]: octets below 128 stand for themselves; a two-octet
    sequence for a code point from 128 to 255 is read back; anything else is
    outside the modelled code points and is reported as a decoding error. *)
Fixpoint utf8_decode (b : bytes) : result str :=
  match b with
  | [] => Return ""
  | c :: rest =>
      let n := N_of_ascii c in
      if (n <? 128)%N then
        (s <-! utf8_decode rest ;; Return (String c s))%result
      else
        match rest with
        | d :: rest' =>
            let m := N_of_ascii d in
            if ((194 <=? n) && (n <=? 195) && (128 <=? m) && (m <? 192))%N then
              (s <-! utf8_decode rest' ;;
               Return (String (ascii_of_N ((n - 192) * 64 + (m - 128))) s))%result
            else Raise UnicodeDecodeError
        | [] => Raise UnicodeDecodeError
        end
  end.

(* ------------------------------------------------------------------ *)
(** ** The standard library's [base64] module

    [b64encode] and [b64decode] belong to Python, not to the repository; they
    are written here after RFC 4648 and the decoder of [binascii.a2b_base64]
    in its default, non-strict mode, which is what [b64decode(s)] calls. *)

Definition b64_alphabet : string :=
  "ABCDEFGHIJKLMNOPQRSTUVWXYZabcdefghijklmnopqrstuvwxyz0123456789+/".

Definition b64_pad : ascii := ascii_of_N 61.

(** The character of a six-bit value. *)
Definition b2a (n : N) : ascii :=
  match String.get (N.to_nat n) b64_alphabet with
  | Some c => c
  | None => b64_pad
  end.

(** The six-bit value of a character of the alphabet. *)
Definition a2b (c : ascii) : option N :=
  let n := N_of_ascii c in
  (if (65 <=? n) && (n <=? 90) then Some (n - 65)
   else if (97 <=? n) && (n <=? 122) then Some (n - 71)
   else if (48 <=? n) && (n <=? 57) then Some (n + 4)
   else if n =? 43 then Some 62
   else if n =? 47 then Some 63
   else None)%N.

(** [base64.b64encode]: three octets become four characters; a rest of one or
    two octets is padded with [=]. *)
Fixpoint b64encode (b : bytes) : bytes :=
  match b with
  | [] => []
  | [x] =>
      let n := N_of_ascii x in
      [b2a (n / 4); b2a ((n mod 4) * 16); b64_pad; b64_pad]%N
  | [x; y] =>
      let n := N_of_ascii x in
      let m := N_of_ascii y in
      [b2a (n / 4); b2a ((n mod 4) * 16 + m / 16); b2a ((m mod 16) * 4); b64_pad]%N
  | x :: y :: z :: rest =>
      let n := N_of_ascii x in
      let m := N_of_ascii y in
      let k := N_of_ascii z in
      (b2a (n / 4) :: b2a ((n mod 4) * 16 + m / 16)
         :: b2a ((m mod 16) * 4 + k / 64) :: b2a (k mod 64) :: b64encode rest)%N
  end.

Definition emit (c : ascii) (r : result bytes) : result bytes :=
  (out <-! r ;; Return (c :: out))%result.

(** The decoding loop of [a2b_base64] with [strict_mode] off.  [quad_pos] is
    the position inside the current group of four characters, [leftchar] the
    bits not yet written, [pads] the padding characters seen since the last
    data character.  Characters outside the alphabet are skipped; a padding
    sequence that completes a group ends the input; a group left open at the
    end of the input is an error. *)
Fixpoint a2b_loop (s : list ascii) (quad_pos leftchar pads : N) : result bytes :=
  match s with
  | [] =>
      (if quad_pos =? 0 then Return []
       else if quad_pos =? 1 then
         Raise (BinasciiError "Invalid base64-encoded string: number of data characters cannot be 1 more than a multiple of 4")
       else Raise (BinasciiError "Incorrect padding"))%N
  | c :: rest =>
      if Ascii.eqb c b64_pad then
        (if 2 <=? quad_pos then
           if 4 <=? quad_pos + (pads + 1) then Return []
           else a2b_loop rest quad_pos leftchar (pads + 1)
         else a2b_loop rest quad_pos leftchar pads)%N
      else
        match a2b c with
        | None => a2b_loop rest quad_pos leftchar pads
        | Some this_ch =>
            (if quad_pos =? 0 then a2b_loop rest 1 this_ch 0
             else if quad_pos =? 1 then
               emit (ascii_of_N (leftchar * 4 + this_ch / 16))
                    (a2b_loop rest 2 (this_ch mod 16) 0)
             else if quad_pos =? 2 then
               emit (ascii_of_N (leftchar * 16 + this_ch / 4))
                    (a2b_loop rest 3 (this_ch mod 4) 0)
             else
               emit (ascii_of_N (leftchar * 64 + this_ch))
                    (a2b_loop rest 0 0 0))%N
        end
  end.

Definition a2b_base64 (s : bytes) : result bytes := a2b_loop s 0 0 0.

Definition is_ascii_char (c : ascii) : bool := (N_of_ascii c <? 128)%N.

(** [s.encode('ascii')]. *)
Fixpoint all_ascii (s : str) : bool :=
  match s with
  | EmptyString => true
  | String c rest => is_ascii_char c && all_ascii rest
  end.

(** [base64.b64decode(s)].  Its argument is whatever the caller holds: a
    string is first encoded as ASCII ([ValueError] otherwise), and a value
    that is neither a string nor bytes-like is a [TypeError]. *)
Definition b64decode (s : json) : result bytes :=
  match s with
  | JStr t =>
      if all_ascii t then a2b_base64 (list_ascii_of_string t)
      else Raise (ValueError "string argument should contain only ASCII characters")
  | _ => Raise (TypeError "argument should be a bytes-like object or ASCII string")
  end.

(* ------------------------------------------------------------------ *)
(** ** Keys and the [GovEsb] object *)

(** A Python [float] is an IEEE 754 binary64 number: the kernel's [float],
    with its addition, subtraction and comparison.  [float(n)] for an [int]
    rounds to the nearest double, ties to even, and is [infinity] here exactly
    when Python raises [OverflowError] (the rounded value does not fit). *)
Definition float_of_int (n : Z) : float :=
  SF2Prim (binary_normalize prec emax n 0 false).

(** An EC private key of the [cryptography] package, seen through the one
    method the class calls.  ECDSA draws a fresh nonce per signature; the
    first argument of [sk_sign] is that draw. *)
Record EllipticCurvePrivateKey : Type := {
  sk_sign : N -> bytes -> bytes
}.

(** An EC public key: [pk_verify signature data] is [true] when
    [public_key.verify] returns and [false] when it raises
    [InvalidSignature]. *)
Record EllipticCurvePublicKey : Type := {
  pk_verify : bytes -> bytes -> bool
}.

(** A matching key pair: whatever the private key signs, the public key
    accepts. *)
Definition matching_pair (sk : EllipticCurvePrivateKey) (pk : EllipticCurvePublicKey) : Prop :=
  forall nonce data, pk_verify pk (sk_sign sk nonce data) data = true.

(** The attributes [__init__] declares.  [None] is [None] for the
    configuration and the keys; [access_token] holds whatever the token
    endpoint's JSON carried, [JNull] standing for [None]. *)
Record GovEsb : Type := {
  client_id : option str;
  client_secret : option str;
  grant_type : option str;
  private_key : option EllipticCurvePrivateKey;
  public_key : option EllipticCurvePublicKey;
  engine_url : option str;
  token_url : option str;
  timeout : option Z;
  access_token : json;
  token_expiry : option float;
  initialized : bool
}.

(** The object as [__init__] leaves it. *)
Definition GovEsb__init__ : GovEsb := {|
  client_id := None; client_secret := None; grant_type := None;
  private_key := None; public_key := None;
  engine_url := None; token_url := None; timeout := None;
  access_token := JNull; token_expiry := None;
  initialized := false
|}.

Definition set_access_token (v : json) (self : GovEsb) : GovEsb := {|
  client_id := client_id self; client_secret := client_secret self;
  grant_type := grant_type self;
  private_key := private_key self; public_key := public_key self;
  engine_url := engine_url self; token_url := token_url self;
  timeout := timeout self;
  access_token := v; token_expiry := token_expiry self;
  initialized := initialized self
|}.

Definition set_token_expiry (t : float) (self : GovEsb) : GovEsb := {|
  client_id := client_id self; client_secret := client_secret self;
  grant_type := grant_type self;
  private_key := private_key self; public_key := public_key self;
  engine_url := engine_url self; token_url := token_url self;
  timeout := timeout self;
  access_token := access_token self; token_expiry := Some t;
  initialized := initialized self
|}.

(** [try: body except E: handler], for the exceptions [catches] selects. *)
Definition try_except {A} (body : result A) (catches : exn -> bool)
    (handler : exn -> result A) : result A :=
  match body with
  | Return a => Return a
  | Raise e => if catches e then handler e else Raise e
  end.

Definition is_InvalidSignature (e : exn) : bool :=
  match e with
  | InvalidSignature => true
  | _ => false
  end.

Local Open Scope result_scope.

(** [GovEsb.sign_payload]: ECDSA over the canonical bytes, base64, as text. *)
Definition sign_payload (self : GovEsb) (nonce : N) (payload : json) : result str :=
  match private_key self with
  | None => Raise (AttributeError "sign")
  | Some sk =>
      let signature := sk_sign sk nonce (utf8_encode (trim_payload payload)) in
      utf8_decode (b64encode signature)
  end.

(** [GovEsb.verify_signature]: only [InvalidSignature] is caught. *)
Definition verify_signature (self : GovEsb) (signature payload : json) : result bool :=
  try_except
    (match public_key self with
     | None => Raise (AttributeError "verify")
     | Some pk =>
         sig <-! b64decode signature ;;
         if pk_verify pk sig (utf8_encode (trim_payload payload))
         then Return true
         else Raise InvalidSignature
     end)
    is_InvalidSignature
    (fun _ => Return false).

(** The local [data] of [build_esb_payload] when the signature is computed:
    [esbBody] first, then each optional field behind its own test. *)
Definition build_esb_data (payload api_code success message errors validation_errors : json)
    : list (str * json) :=
  let data := [("esbBody", payload)] in
  let data := if truthy api_code then dict_set "apiCode" api_code data else data in
  let data := if is_not_None success then dict_set "success" success data else data in
  let data := if truthy message then dict_set "message" message data else data in
  let data := if truthy errors then dict_set "errors" errors data else data in
  let data := if truthy validation_errors
              then dict_set "validationErrors" validation_errors data else data in
  data.

(** One optional field of the data, when its test passes. *)
Definition field_if (test : bool) (key : str) (v : json) : list (str * json) :=
  if test then [(key, v)] else [].

(** One field of a dict, when it is there. *)
Definition field_of (key : str) (v : option json) : list (str * json) :=
  match v with
  | Some x => [(key, x)]
  | None => []
  end.

(** [GovEsb.build_esb_payload].  An argument left out is its default,
    [None]. *)
Definition build_esb_payload (self : GovEsb) (nonce : N)
    (payload api_code success message errors validation_errors : json) : result json :=
  let data := build_esb_data payload api_code success message errors validation_errors in
  signature <-! sign_payload self nonce (JDict data) ;;
  Return (JDict [("data", JDict data); ("signature", JStr signature)]).

(** A key pair for examples: the signature is the nonce's low octet followed
    by the data reversed, and verification undoes that. *)
Definition toy_private_key : EllipticCurvePrivateKey :=
  {| sk_sign := fun nonce data => ascii_of_N nonce :: rev data |}.

Fixpoint bytes_eqb (a b : bytes) : bool :=
  match a, b with
  | [], [] => true
  | x :: a', y :: b' => Ascii.eqb x y && bytes_eqb a' b'
  | _, _ => false
  end.

Definition toy_public_key : EllipticCurvePublicKey :=
  {| pk_verify := fun signature data =>
       match signature with
       | _ :: body => bytes_eqb body (rev data)
       | [] => false
       end |}.

Definition toy_esb : GovEsb := {|
  client_id := Some "client"; client_secret := Some "secret";
  grant_type := Some "client_credentials";
  private_key := Some toy_private_key; public_key := Some toy_public_key;
  engine_url := Some "https://esb.example"; token_url := Some "https://esb.example/token";
  timeout := Some 180;
  access_token := JStr "T"; token_expiry := Some 1000%float;
  initialized := true
|}.

(* ------------------------------------------------------------------ *)
(** ** The world outside the class: network, clock, randomness, audit sink *)

(** The two [Authorization] headers the class builds:
    ["Basic " + b64encode(client_id:client_secret)] and
    [f"Bearer {self.access_token}"], kept with their arguments. *)
Inductive Authorization : Type :=
| Basic (id secret : option str)
| Bearer (token : json).

Inductive RequestBody : Type :=
| FormBody (client_id client_secret grant_type : option str)
| JsonBody (envelope : json).

Record HttpRequest : Type := {
  url : str;
  authorization : Authorization;
  body : RequestBody;
  req_timeout : option Z
}.

(** An [httpx.Response]: [json_body] is what [response.json()] returns, [None]
    when the content is not JSON. *)
Record Response : Type := {
  status_code : Z;
  content : bytes;
  json_body : option json
}.

(** What [await client.post(...)] comes back with. *)
Inductive HttpOutcome : Type :=
| PostReturns (r : Response)
| PostRaises (e : exn).

(** [GovEsvData] of schemas.py. *)
Record GovEsvData : Type := {
  success : bool;
  requestId : option N;
  esbBody : json;
  message : option str;
  errors : list Z;
  validationErrors : list str
}.

(** The argument of a [log_exception] call. *)
Inductive LogRecord : Type :=
| FailedToConsume (e : exn) (response : Response)
| FailedToGetToken (e : exn).

(** Everything the class does that can be seen from outside, in order. *)
Inductive Event : Type :=
| EvPost (req : HttpRequest)
| EvLogException (r : LogRecord)
| EvLogWarning (text : string)
| EvLogGovesbCalls (api_code request response : json)
| EvProcessFeedback (arg : json).

(** The answers of the environment, each indexed by how many were asked for
    before: the network's, the random source's ([ECDSA] nonces, [uuid4]) and
    the clock's, and pydantic's validation of a response body into the [data]
    of a [GovEsvResponse]. *)
Record Env : Type := {
  http_answer : nat -> HttpOutcome;
  entropy : nat -> N;
  clock : nat -> float;
  pydantic_GovEsvResponse : json -> result GovEsvData
}.

(** The mutable state: the singleton [GovEsb._instance], the number of
    answers consumed from each source, and the trace of effects. *)
Record World : Type := {
  _instance : option GovEsb;
  n_posts : nat;
  n_draws : nat;
  n_reads : nat;
  trace : list Event
}.

(** Modelled from the spec: the audit sink of
    [fast_api_builder.utils.error_logging] ([log_exception], [log_warning],
    [log_govesb_calls]) is not among the sources; per the spec it is a sink
    that receives its arguments and whose outcome never aborts the flow, so
    a call appends one event to the trace. *)
Definition log_event (ev : Event) (w : World) : World := {|
  _instance := _instance w;
  n_posts := n_posts w; n_draws := n_draws w; n_reads := n_reads w;
  trace := trace w ++ [ev]
|}.

(** A computation of the class: it runs in a world and leaves a world, with a
    value or an exception.  What was written before an exception stays
    written. *)
Definition M (A : Type) : Type := World -> World * result A.

Definition ret {A} (a : A) : M A := fun w => (w, Return a).
Definition raise {A} (e : exn) : M A := fun w => (w, Raise e).
Definition bind {A B} (m : M A) (k : A -> M B) : M B :=
  fun w =>
    match m w with
    | (w', Return a) => k a w'
    | (w', Raise e) => (w', Raise e)
    end.
Definition lift {A} (r : result A) : M A := fun w => (w, r).

Declare Scope monad_scope.
Delimit Scope monad_scope with monad.
Notation "x <- m ;; k" := (bind m (fun x => k))
  (at level 61, m at next level, right associativity) : monad_scope.
Notation "m ;;; k" := (bind m (fun _ => k))
  (at level 61, right associativity) : monad_scope.
Local Open Scope monad_scope.

Definition log (ev : Event) : M unit := fun w => (log_event ev w, Return tt).

(** [try: x = first; rest  except Exception as e: handler].  The handler sees
    the local [x] only if the assignment was reached: [None] is the unbound
    local.  An exception outside [Exception] is not caught. *)
Definition try_binding {L A} (first : M L) (rest : L -> M A)
    (handler : option L -> exn -> M A) : M A :=
  fun w =>
    match first w with
    | (w1, Raise e) => if is_Exception e then handler None e w1 else (w1, Raise e)
    | (w1, Return x) =>
        match rest x w1 with
        | (w2, Raise e) => if is_Exception e then handler (Some x) e w2 else (w2, Raise e)
        | (w2, Return a) => (w2, Return a)
        end
    end.

(** [try: body except Exception as e: handler]. *)
Definition try_Exception {A} (body : M A) (handler : exn -> M A) : M A :=
  fun w =>
    match body w with
    | (w1, Raise e) => if is_Exception e then handler e w1 else (w1, Raise e)
    | (w1, Return a) => (w1, Return a)
    end.

Section Environment.

Variable env : Env.

(** A draw from the random source. *)
Definition draw : M N := fun w =>
  ({| _instance := _instance w;
      n_posts := n_posts w; n_draws := S (n_draws w); n_reads := n_reads w;
      trace := trace w |},
   Return (entropy env (n_draws w))).

(** The world after one draw. *)
Definition drawn (w : World) : World := fst (draw w).

(** [time.time()]. *)
Definition time_time : M float := fun w =>
  ({| _instance := _instance w;
      n_posts := n_posts w; n_draws := n_draws w; n_reads := S (n_reads w);
      trace := trace w |},
   Return (clock env (n_reads w))).

(** The request is built and handed to the client's transport ([EvPost]);
    this is where an [await] hands control back to the event loop.  What
    becomes of it (a response, no connection, a timeout, a URL that the
    transport cannot serve) is the environment's answer, [http_answer]. *)
Definition send (req : HttpRequest) : M unit := log (EvPost req).

(** The network's answer arrives. *)
Definition receive : M Response := fun w =>
  ({| _instance := _instance w;
      n_posts := S (n_posts w); n_draws := n_draws w; n_reads := n_reads w;
      trace := trace w |},
   match http_answer env (n_posts w) with
   | PostReturns r => Return r
   | PostRaises e => Raise e
   end).

(** The world after an exchange with the network: the request is in the
    trace and one answer is consumed. *)
Definition exchanged (req : HttpRequest) (w : World) : World :=
  fst (receive (fst (send req w))).

(** [await client.post(url=..., ...)] inside [async with httpx.AsyncClient()].
    A [url] of [None] is refused by httpx while it builds the request, so
    nothing is handed on.  The text of a [url] is not looked at here: the
    request is built for it, and [http_answer] says how the post ends. *)
Definition client_post (target : option str) (auth : Authorization) (b : RequestBody)
    (t : option Z) : M Response :=
  match target with
  | None => raise (TypeError "Invalid type for url")
  | Some u =>
      send {| url := u; authorization := auth; body := b; req_timeout := t |} ;;;
      receive
  end.

(** [response.raise_for_status()]. *)
Definition raise_for_status (r : Response) : M unit :=
  if (200 <=? status_code r) && (status_code r <=? 299) then ret tt
  else raise (HTTPStatusError (status_code r)).

(** [response.json()]. *)
Definition response_json (r : Response) : M json :=
  match json_body r with
  | Some j => ret j
  | None => raise JSONDecodeError
  end.

(** [f"{x}"] for a configuration attribute. *)
Definition fmt (x : option str) : str :=
  match x with
  | Some s => s
  | None => "None"
  end.

End Environment.

(* ------------------------------------------------------------------ *)
(** ** The methods that talk to the world *)

Section Methods.

Variable env : Env.

(** [cls._instance], for a method running on it. *)
Definition self_ : M GovEsb := fun w =>
  match _instance w with
  | Some self => (w, Return self)
  | None => (w, Raise (AttributeError "_instance"))
  end.

(** [self.attr = v]. *)
Definition setattr (f : GovEsb -> GovEsb) : M unit := fun w =>
  ({| _instance := option_map f (_instance w);
      n_posts := n_posts w; n_draws := n_draws w; n_reads := n_reads w;
      trace := trace w |},
   Return tt).

(** [a + b] with a [float] on the left, the clock reading.  An [int] is
    converted first, which raises [OverflowError] when it is too large for a
    double, and a [bool] is the [int] 1 or 0; the sum is the IEEE sum, rounded
    as doubles are.  Anything else among the values of [json] is a
    [TypeError]. *)
Definition py_add (a : float) (b : json) : result float :=
  match b with
  | JInt n =>
      if is_infinity (float_of_int n)
      then Raise (OverflowError "int too large to convert to float")
      else Return (a + float_of_int n)%float
  | JBool true => Return (a + 1)%float
  | JBool false => Return (a + 0)%float
  | _ => Raise (TypeError "unsupported operand type(s) for +")
  end.

(** The [except Exception] branch of [request_esb_token]. *)
Definition request_esb_token_except (e : exn) : M bool :=
  log (EvLogException (FailedToGetToken e)) ;;;
  ret false.

(** [request_esb_token] from the response on: the two attributes are written
    one after the other, each as soon as its value is known. *)
Definition request_esb_token_rest (response : Response) : M bool :=
  raise_for_status response ;;;
  data <- response_json response ;;
  token <- lift (py_getitem data "access_token") ;;
  setattr (set_access_token token) ;;;
  now <- time_time env ;;
  expires_in <- lift (py_getitem data "expires_in") ;;
  until <- lift (py_add now expires_in) ;;
  setattr (set_token_expiry (until - 60)%float) ;;;
  ret true.

(** The request to the token endpoint.  [auth_basic_body] is filled by
    [init] from the same three attributes, so the form body is given by
    them. *)
Definition token_request (self : GovEsb) (u : str) : HttpRequest := {|
  url := u;
  authorization := Basic (client_id self) (client_secret self);
  body := FormBody (client_id self) (client_secret self) (grant_type self);
  req_timeout := timeout self
|}.

(** [GovEsb.request_esb_token]. *)
Definition request_esb_token : M bool :=
  try_Exception
    (self <- self_ ;;
     response <- client_post env (token_url self)
                   (Basic (client_id self) (client_secret self))
                   (FormBody (client_id self) (client_secret self) (grant_type self))
                   (timeout self) ;;
     request_esb_token_rest response)
    request_esb_token_except.

(** Truthiness of a configuration attribute. *)
Definition truthy_attr (x : option str) : bool :=
  match x with
  | Some s => negb (String.eqb s "")
  | None => false
  end.

Definition not_initialized : exn := PlainException "GovEsb service is not initialized.".
Definition token_expired : exn := PlainException "GovEsb token expired. Retry to update".

(** [time.time() >= cls._instance.token_expiry]. *)
Definition expiry_reached : M bool :=
  now <- time_time env ;;
  self <- self_ ;;
  match token_expiry self with
  | Some t => ret (t <=? now)%float
  | None => raise (TypeError "'>=' not supported between instances of 'float' and 'NoneType'")
  end.

(** [GovEsb.get_instance], run without interruption. *)
Definition get_instance : M GovEsb :=
  (fun w =>
     match _instance w with
     | Some self =>
         if initialized self then ret tt w
         else if truthy_attr (client_id self) && truthy_attr (client_secret self)
                 && truthy_attr (grant_type self) && truthy_attr (token_url self)
         then (log (EvLogWarning "GovESB service not initialized. Retrying initialization ...") ;;;
               ok <- request_esb_token ;;
               if ok then ret tt else raise not_initialized) w
         else raise not_initialized w
     | None => raise not_initialized w
     end) ;;;
  expired <- expiry_reached ;;
  (if expired then
     ok <- request_esb_token ;;
     if ok then ret tt else raise token_expired
   else ret tt) ;;;
  self_.

(** A call of [build_esb_payload]: the nonce of the signature comes from the
    random source.  (It is drawn up front; when signing fails for want of a
    key the draw is lost, which nothing can observe.) *)
Definition signed_envelope (self : GovEsb)
    (payload api_code success_ message_ errors_ validation_errors : json) : M json :=
  nonce <- draw env ;;
  lift (build_esb_payload self nonce payload api_code success_ message_ errors_
          validation_errors).

(** The request [consume] makes. *)
Definition bus_request (self : GovEsb) (envelope : json) : HttpRequest := {|
  url := fmt (engine_url self) ++ "/request";
  authorization := Bearer (access_token self);
  body := JsonBody envelope;
  req_timeout := timeout self
|}.

(** The [except Exception] branch of [consume].  Its log text reads the local
    [response] before anything else happens. *)
Definition consume_except (api_code : str) (response : option Response) (e : exn)
    : M GovEsvData :=
  match response with
  | None => raise (UnboundLocalError "response")
  | Some r =>
      log (EvLogException (FailedToConsume e r)) ;;;
      request_id <- draw env ;;
      ret {| success := false;
             requestId := Some request_id;
             message := Some ("Failed to consume from apiCode: " ++ api_code);
             esbBody := JDict [];
             errors := [];
             validationErrors := [] |}
  end.

(** The awaited call of [consume], lines 247-258: the envelope is built and
    posted to the bus with whatever [access_token] the object holds.  The
    URL is an f-string, so an [engine_url] of [None] gives the text
    [None/request]; a post to such a text cannot bring a response
    ([PostReturns]), only an exception of the client's. *)
Definition consume_post (self : GovEsb) (payload : json) (api_code : str) : M Response :=
  envelope <- signed_envelope self payload (JStr api_code) JNull JNull JNull JNull ;;
  client_post env (Some (fmt (engine_url self) ++ "/request"))
    (Bearer (access_token self)) (JsonBody envelope) (timeout self).

(** The rest of the [try] block, lines 260-273, once [response] is bound. *)
Definition consume_check (self : GovEsb) (payload : json) (api_code : str)
    (response : Response) : M GovEsvData :=
  raise_for_status response ;;;
  json <- response_json response ;;
  request <- signed_envelope self payload (JStr api_code) JNull JNull JNull JNull ;;
  log (EvLogGovesbCalls (JStr api_code) request json) ;;;
  signature <- lift (py_getitem json "signature") ;;
  data <- lift (py_getitem json "data") ;;
  ok <- lift (verify_signature self signature data) ;;
  if ok then lift (pydantic_GovEsvResponse env json)
  else raise (PlainException "Signature verification failed!").

(** [GovEsb.consume]: the [try] block binds [response] and goes on; the
    handler is the one above. *)
Definition consume (self : GovEsb) (payload : json) (api_code : str) : M GovEsvData :=
  try_binding
    (consume_post self payload api_code)
    (consume_check self payload api_code)
    (consume_except api_code).

(** [GovEsb.aconsume].  [process_feedback] is the caller's coroutine; each
    call of it is recorded with its argument. *)
Definition aconsume (self : GovEsb) (req_body : json)
    (process_feedback : json -> M (json * json * json)) : M json :=
  data <- lift (py_get req_body "data" (JDict [])) ;;
  signature <- lift (py_get req_body "signature" JNull) ;;
  ok <- lift (verify_signature self signature data) ;;
  outcome <- (if ok then
                arg <- lift (py_get data "esbBody" (JDict [])) ;;
                log (EvProcessFeedback arg) ;;;
                process_feedback arg
              else ret (JBool false, JStr "Signature verification failed!", JDict [])) ;;
  let '(success_, message_, esbBody_) := outcome in
  esb_payload <- signed_envelope self esbBody_ JNull success_ message_ JNull JNull ;;
  log (EvLogGovesbCalls JNull esb_payload data) ;;;
  ret esb_payload.

End Methods.

(* ------------------------------------------------------------------ *)
(** ** Concurrent callers of [get_instance]

    [get_instance] is a coroutine: it runs until an [await] that waits for
    the network, where the event loop may run another caller.  Between the
    expiry test and the two writes of [request_esb_token] there is one such
    point, [await client.post(...)]: the request has gone out and its answer
    has not come in.  A caller is therefore a small machine with one state
    per place where it can wait there. *)

Section Coroutines.

Variable env : Env.

(** [request_esb_token] up to its suspension: [None] when the request went out
    and the caller now waits, [Some b] when it returned [b] without waiting. *)
Definition request_esb_token_start : M (option bool) :=
  try_Exception
    (self <- self_ ;;
     match token_url self with
     | None => raise (TypeError "Invalid type for url")
     | Some u => send (token_request self u) ;;; ret None
     end)
    (fun e => b <- request_esb_token_except e ;; ret (Some b)).

(** [request_esb_token] from the arrival of the answer. *)
Definition request_esb_token_resume : M bool :=
  try_Exception
    (response <- receive env ;;
     request_esb_token_rest env response)
    request_esb_token_except.

Inductive Task : Type :=
| Fresh
| AwaitInit
| AwaitRefresh
| Done (r : result GovEsb).

Definition finish (m : M GovEsb) : World -> World * Task := fun w =>
  let (w', r) := m w in (w', Done r).

(** From the expiry test to the end, or to the suspension inside the
    refresh. *)
Definition expiry_phase : World -> World * Task := fun w =>
  match expiry_reached env w with
  | (w1, Raise e) => (w1, Done (Raise e))
  | (w1, Return false) => finish self_ w1
  | (w1, Return true) =>
      match request_esb_token_start w1 with
      | (w2, Raise e) => (w2, Done (Raise e))
      | (w2, Return None) => (w2, AwaitRefresh)
      | (w2, Return (Some true)) => finish self_ w2
      | (w2, Return (Some false)) => (w2, Done (Raise token_expired))
      end
  end.

(** From the call to the first suspension, or to the end. *)
Definition start_phase : World -> World * Task := fun w =>
  match _instance w with
  | Some self =>
      if initialized self then expiry_phase w
      else if truthy_attr (client_id self) && truthy_attr (client_secret self)
              && truthy_attr (grant_type self) && truthy_attr (token_url self)
      then
        let w0 := log_event (EvLogWarning "GovESB service not initialized. Retrying initialization ...") w in
        match request_esb_token_start w0 with
        | (w1, Raise e) => (w1, Done (Raise e))
        | (w1, Return None) => (w1, AwaitInit)
        | (w1, Return (Some true)) => expiry_phase w1
        | (w1, Return (Some false)) => (w1, Done (Raise not_initialized))
        end
      else (w, Done (Raise not_initialized))
  | None => (w, Done (Raise not_initialized))
  end.

(** One turn of a caller: it runs from where it stands to its next
    suspension. *)
Definition turn (t : Task) : World -> World * Task := fun w =>
  match t with
  | Fresh => start_phase w
  | AwaitInit =>
      match request_esb_token_resume w with
      | (w1, Raise e) => (w1, Done (Raise e))
      | (w1, Return true) => expiry_phase w1
      | (w1, Return false) => (w1, Done (Raise not_initialized))
      end
  | AwaitRefresh =>
      match request_esb_token_resume w with
      | (w1, Raise e) => (w1, Done (Raise e))
      | (w1, Return true) => finish self_ w1
      | (w1, Return false) => (w1, Done (Raise token_expired))
      end
  | Done r => (w, Done r)
  end.

(** The scheduler gives caller [i] a turn. *)
Fixpoint turn_of (i : nat) (tasks : list Task) (w : World) : World * list Task :=
  match tasks with
  | [] => (w, [])
  | t :: rest =>
      match i with
      | O => let (w', t') := turn t w in (w', t' :: rest)
      | S j => let (w', rest') := turn_of j rest w in (w', t :: rest')
      end
  end.

(** A schedule is the order in which the event loop gives turns. *)
Fixpoint run_schedule (schedule : list nat) (w : World) (tasks : list Task)
    : World * list Task :=
  match schedule with
  | [] => (w, tasks)
  | i :: later =>
      let (w', tasks') := turn_of i tasks w in
      run_schedule later w' tasks'
  end.

(** [get_instance] from the expiry test on. *)
Definition after_initialisation : M GovEsb :=
  expired <- expiry_reached env ;;
  (if expired then
     ok <- request_esb_token env ;;
     if ok then ret tt else raise token_expired
   else ret tt) ;;;
  self_.

(** A caller alone: two suspensions at most. *)
Definition run_alone (w : World) : World * Task :=
  let (w1, t1) := turn Fresh w in
  let (w2, t2) := turn t1 w1 in
  turn t2 w2.

End Coroutines.

(** The world after a caller found the token expired and sent its request. *)
Definition asked (self : GovEsb) (u : str) (w : World) : World := {|
  _instance := _instance w;
  n_posts := n_posts w; n_draws := n_draws w; n_reads := S (n_reads w);
  trace := (trace w ++ [EvPost (token_request self u)])%list
|}.

(** A caller that has returned. *)
Definition is_Done (t : Task) : bool :=
  match t with
  | Done (Return _) => true
  | _ => false
  end.

(** The requests in a trace. *)
Definition is_post (ev : Event) : bool :=
  match ev with
  | EvPost _ => true
  | _ => false
  end.

Definition posts (tr : list Event) : list Event := filter is_post tr.

(** [w'] differs from [w] by effects that touch neither the network, nor the
    clock, nor the object. *)
Definition silent (w w' : World) : Prop :=
  _instance w' = _instance w /\
  n_posts w' = n_posts w /\
  n_reads w' = n_reads w /\
  posts (trace w') = posts (trace w).

(** A computation that is [silent] from every world. *)
Definition silently {A} (m : M A) : Prop := forall w, silent w (fst (m w)).

(** [w'] has the trace of [w] and what came after it. *)
Definition grows (w w' : World) : Prop :=
  exists later, trace w' = (trace w ++ later)%list.

(** A computation that only adds to the trace. *)
Definition growing {A} (m : M A) : Prop := forall w, grows w (fst (m w)).

(** The requests sent to the token endpoint [u], counted in a trace. *)
Definition is_token_post (u : str) (ev : Event) : bool :=
  match ev with
  | EvPost req => String.eqb (url req) u
  | _ => false
  end.

Definition token_posts (u : str) (tr : list Event) : nat :=
  List.length (filter (is_token_post u) tr).

(* ------------------------------------------------------------------ *)
(** ** Concrete worlds for the examples *)

(** A validation for the examples: it accepts a mapping whose [data] is a
    mapping with a boolean [success], and reads [esbBody] and [message] from
    it. *)
Definition example_validation (j : json) : result GovEsvData :=
  match j with
  | JDict fields =>
      match dict_lookup "data" fields with
      | Some (JDict d) =>
          match dict_lookup "success" d with
          | Some (JBool b) =>
              Return {| success := b;
                        requestId := None;
                        esbBody := match dict_lookup "esbBody" d with
                                   | Some v => v
                                   | None => JDict []
                                   end;
                        message := match dict_lookup "message" d with
                                   | Some (JStr s) => Some s
                                   | _ => None
                                   end;
                        errors := [];
                        validationErrors := [] |}
          | _ => Raise ValidationError
          end
      | _ => Raise ValidationError
      end
  | _ => Raise (TypeError "argument after ** must be a mapping")
  end.

(** An environment whose network always gives the same answer and whose
    clock always shows the same time. *)
Definition env_of (answer : HttpOutcome) (now : float) : Env := {|
  http_answer := fun _ => answer;
  entropy := fun i => N.of_nat i;
  clock := fun _ => now;
  pydantic_GovEsvResponse := example_validation
|}.

Definition world_of (self : GovEsb) : World := {|
  _instance := Some self;
  n_posts := 0; n_draws := 0; n_reads := 0;
  trace := []
|}.

Definition response_of (status : Z) (j : json) : Response := {|
  status_code := status;
  content := utf8_encode (dumps j);
  json_body := Some j
|}.

(** What the bus answers in the examples, signed with the toy key. *)
Definition bus_data : list (str * json) :=
  [("success", JBool true); ("esbBody", JDict [("a", JInt 1)])].

Definition bus_signature : str :=
  match sign_payload toy_esb 7 (JDict bus_data) with
  | Return s => s
  | Raise _ => ""
  end.

Definition bus_reply : json :=
  JDict [("data", JDict bus_data); ("signature", JStr bus_signature)].

(** The same answer under a signature the toy public key rejects. *)
Definition forged_reply : json :=
  JDict [("data", JDict bus_data); ("signature", JStr "AAAA")].

(** Answers of the token endpoint: a complete one, and one without
    [expires_in]. *)
Definition token_reply : json :=
  JDict [("access_token", JStr "T2"); ("expires_in", JInt 3600)].

Definition token_reply_without_expiry : json :=
  JDict [("access_token", JStr "T2")].

(** The toy object before any token was obtained. *)
Definition toy_esb_without_token : GovEsb := {|
  client_id := Some "client"; client_secret := Some "secret";
  grant_type := Some "client_credentials";
  private_key := Some toy_private_key; public_key := Some toy_public_key;
  engine_url := Some "https://esb.example"; token_url := Some "https://esb.example/token";
  timeout := Some 180;
  access_token := JNull; token_expiry := None;
  initialized := false
|}.

(** The data of the acknowledgment that answers an envelope whose signature
    was rejected. *)
Definition rejection_data : list (str * json) :=
  [("esbBody", JDict []);
   ("success", JBool false);
   ("message", JStr "Signature verification failed!")].

(** A caller-supplied [process_feedback] for the examples. *)
Definition example_feedback (arg : json) : M (json * json * json) :=
  ret (JBool true, JStr "ok", arg).

(* ------------------------------------------------------------------ *)
(** ** The rest of the class *)

(** [GovEsb.json_encode]: [json.dumps(data, ensure_ascii=False,
    separators=(',', ':'))].  With [ensure_ascii] off only the backslash, the
    double quote and the control characters below the space are escaped
    ([ESCAPE]); every other character is written as it is. *)
Definition escape_char_raw (c : ascii) : string :=
  let n := N_of_ascii c in
  (if n =? 92 then "\\"
   else if n =? 34 then String "\" (String (ascii_of_N 34) "")
   else if n =? 8 then "\b"
   else if n =? 12 then "\f"
   else if n =? 10 then "\n"
   else if n =? 13 then "\r"
   else if n =? 9 then "\t"
   else if n <? 32 then escape_u c
   else String c "")%N.

Fixpoint escape_chars_raw (s : str) : string :=
  match s with
  | EmptyString => ""
  | String c rest => escape_char_raw c ++ escape_chars_raw rest
  end.

(** [encode_basestring]. *)
Definition encode_basestring (s : str) : string := quoted (escape_chars_raw s).

Fixpoint json_encode (data : json) : string :=
  match data with
  | JNull => "null"
  | JBool true => "true"
  | JBool false => "false"
  | JInt n => repr_int n
  | JStr s => encode_basestring s
  | JList items => "[" ++ join "," (map json_encode items) ++ "]"
  | JDict fields =>
      "{" ++ join "," (map (fun kv => encode_basestring (fst kv) ++ ":" ++ json_encode (snd kv))
                           fields) ++ "}"
  end.

(** A character from the space to the tilde. *)
Definition printable (c : ascii) : bool :=
  ((32 <=? N_of_ascii c) && (N_of_ascii c <=? 126))%N.

Fixpoint all_printable (s : string) : bool :=
  match s with
  | EmptyString => true
  | String c rest => printable c && all_printable rest
  end.

(** Every string of a value, keys included, is made of characters up to the
    tilde. *)
Fixpoint plain (v : json) : bool :=
  match v with
  | JStr s => forallb (fun c => (N_of_ascii c <=? 126)%N) (list_ascii_of_string s)
  | JList items => forallb plain items
  | JDict fields =>
      forallb (fun kv => forallb (fun c => (N_of_ascii c <=? 126)%N)
                           (list_ascii_of_string (fst kv))
                         && plain (snd kv)) fields
  | _ => true
  end.

(** [b.decode("ascii")]. *)
Definition ascii_decode (b : bytes) : result str :=
  if forallb is_ascii_char b then Return (string_of_list_ascii b)
  else Raise UnicodeDecodeError.

(** [GovEsb.basic_auth_header]: the two headers of the token request, in the
    order of the dict literal. *)
Definition basic_auth_header (self : GovEsb) : result (list (str * str)) :=
  (token <-! ascii_decode
               (b64encode (utf8_encode (fmt (client_id self) ++ ":" ++ fmt (client_secret self)))) ;;
   Return [("Content-Type", "application/x-www-form-urlencoded");
           ("Authorization", "Basic " ++ token)])%result.

(** The two loaders of the [cryptography] package that the class calls:
    each parses PEM bytes into a key object or raises. *)
Record Cryptography : Type := {
  load_pem_private_key : bytes -> result EllipticCurvePrivateKey;
  load_pem_public_key : bytes -> result EllipticCurvePublicKey
}.

(** [GovEsb.get_private_key_from_pem] and [GovEsb.get_public_key_from_pem],
    for a key given as text. *)
Definition get_private_key_from_pem (lib : Cryptography) (key : str)
    : result EllipticCurvePrivateKey :=
  load_pem_private_key lib (utf8_encode key).

Definition get_public_key_from_pem (lib : Cryptography) (key : str)
    : result EllipticCurvePublicKey :=
  load_pem_public_key lib (utf8_encode key).

(** The assignments of [init] that cannot fail, as one update.  An empty or
    absent [grant_type] becomes ['client_credentials'].  The attributes
    [private_key_file] and [public_key_file] are read back on the next lines
    only, and [auth_basic_body] repeats the three credentials, which is how
    [token_request] builds the form. *)
Definition set_config (client_id_ client_secret_ grant_type_ engine_url_ : option str)
    (timeout_ : option Z) (token_url_ : option str) (self : GovEsb) : GovEsb := {|
  client_id := client_id_; client_secret := client_secret_;
  grant_type := if truthy_attr grant_type_ then grant_type_ else Some "client_credentials";
  private_key := private_key self; public_key := public_key self;
  engine_url := engine_url_; token_url := token_url_;
  timeout := timeout_;
  access_token := access_token self; token_expiry := token_expiry self;
  initialized := initialized self
|}.

Definition set_private_key (sk : EllipticCurvePrivateKey) (self : GovEsb) : GovEsb := {|
  client_id := client_id self; client_secret := client_secret self;
  grant_type := grant_type self;
  private_key := Some sk; public_key := public_key self;
  engine_url := engine_url self; token_url := token_url self;
  timeout := timeout self;
  access_token := access_token self; token_expiry := token_expiry self;
  initialized := initialized self
|}.

Definition set_public_key (pk : EllipticCurvePublicKey) (self : GovEsb) : GovEsb := {|
  client_id := client_id self; client_secret := client_secret self;
  grant_type := grant_type self;
  private_key := private_key self; public_key := Some pk;
  engine_url := engine_url self; token_url := token_url self;
  timeout := timeout self;
  access_token := access_token self; token_expiry := token_expiry self;
  initialized := initialized self
|}.

Definition set_initialized (self : GovEsb) : GovEsb := {|
  client_id := client_id self; client_secret := client_secret self;
  grant_type := grant_type self;
  private_key := private_key self; public_key := public_key self;
  engine_url := engine_url self; token_url := token_url self;
  timeout := timeout self;
  access_token := access_token self; token_expiry := token_expiry self;
  initialized := true
|}.

(** What [init] itself hands to the audit sink besides the warning:
    [log_message("GovESB initialized successfully")] and
    [log_exception("Failed to initialize GovESB: ...")].  They are returned
    beside the result, in the order of the calls. *)
Inductive InitLog : Type :=
| LogInitialized
| LogInitFailed (e : exn).

Section Initialisation.

Variable env : Env.
Variable lib : Cryptography.

(** [GovEsb()]: [__new__] creates the singleton once and [__init__] fills
    the attributes only when the object has none yet. *)
Definition GovEsb_ : M GovEsb := fun w =>
  match _instance w with
  | Some self => (w, Return self)
  | None =>
      ({| _instance := Some GovEsb__init__;
          n_posts := n_posts w; n_draws := n_draws w; n_reads := n_reads w;
          trace := trace w |},
       Return GovEsb__init__)
  end.

(** The [try] block of [init]. *)
Definition init_body (client_id_ client_secret_ grant_type_ : option str)
    (private_key_ public_key_ : str) (engine_url_ token_url_ : option str)
    (timeout_ : option Z) : M (list InitLog) :=
  self <- self_ ;;
  if initialized self then
    log (EvLogWarning "GovESB service is already initialized.") ;;;
    ret []
  else
    setattr (set_config client_id_ client_secret_ grant_type_ engine_url_ timeout_
               token_url_) ;;;
    sk <- lift (get_private_key_from_pem lib private_key_) ;;
    setattr (set_private_key sk) ;;;
    pk <- lift (get_public_key_from_pem lib public_key_) ;;
    setattr (set_public_key pk) ;;;
    ok <- request_esb_token env ;;
    if ok then setattr set_initialized ;;; ret [LogInitialized]
    else ret [].

(** [GovEsb.init]: [True] unless the [try] block raised. *)
Definition init (client_id_ client_secret_ grant_type_ : option str)
    (private_key_ public_key_ : str) (engine_url_ token_url_ : option str)
    (timeout_ : option Z) : M (bool * list InitLog) :=
  try_Exception
    (said <- init_body client_id_ client_secret_ grant_type_ private_key_ public_key_
               engine_url_ token_url_ timeout_ ;;
     ret (true, said))
    (fun e => ret (false, [LogInitFailed e])).

End Initialisation.

(** The world after a request to the token endpoint was answered. *)
Definition refreshed (self : GovEsb) (u : str) (w : World) (now_read : bool)
    (extra : list Event) (after : option GovEsb) : World := {|
  _instance := after;
  n_posts := S (n_posts w);
  n_draws := n_draws w;
  n_reads := if now_read then S (n_reads w) else n_reads w;
  trace := trace w ++ EvPost (token_request self u) :: extra
|}.

(** The answers on which the refresh fails before it writes anything. *)
Definition fails_early (answer : HttpOutcome) : Prop :=
  match answer with
  | PostRaises e => is_Exception e = true
  | PostReturns response =>
      ~ (200 <= status_code response <= 299) \/
      match json_body response with
      | None => True
      | Some data => exists e, py_getitem data "access_token" = Raise e
      end
  end.

(** The object cannot even try: there is none, or it is not initialised and
    one of the four attributes the retry needs is missing or empty. *)
Definition unconfigured (w : World) : Prop :=
  match _instance w with
  | None => True
  | Some self =>
      initialized self = false /\
      truthy_attr (client_id self) && truthy_attr (client_secret self)
      && truthy_attr (grant_type self) && truthy_attr (token_url self) = false
  end.

(** The object once [init] has stored the configuration and both keys. *)
Definition configured (client_id_ client_secret_ grant_type_ engine_url_ : option str)
    (timeout_ : option Z) (token_url_ : option str)
    (sk : EllipticCurvePrivateKey) (pk : EllipticCurvePublicKey) (self : GovEsb) : GovEsb :=
  set_public_key pk
    (set_private_key sk
       (set_config client_id_ client_secret_ grant_type_ engine_url_ timeout_ token_url_
          self)).

(** The world [w] with the object [obj] in it. *)
Definition with_instance (obj : GovEsb) (w : World) : World := {|
  _instance := Some obj;
  n_posts := n_posts w; n_draws := n_draws w; n_reads := n_reads w;
  trace := trace w
|}.

(** A loader for the examples: it accepts the texts [PRIVATE] and [PUBLIC]
    and gives the toy keys. *)
Definition toy_cryptography : Cryptography := {|
  load_pem_private_key := fun pem =>
    if bytes_eqb pem (utf8_encode "PRIVATE") then Return toy_private_key
    else Raise (ValueError "Could not deserialize key data");
  load_pem_public_key := fun pem =>
    if bytes_eqb pem (utf8_encode "PUBLIC") then Return toy_public_key
    else Raise (ValueError "Could not deserialize key data")
|}.

(** A world in which [GovEsb()] was called and nothing else. *)
Definition fresh_world : World := world_of GovEsb__init__.

(** The envelope [build_esb_payload] returns for the data [data], signed
    with [sk] under the nonce [nonce]. *)
Definition envelope_of (sk : EllipticCurvePrivateKey) (nonce : N) (data : list (str * json))
    : json :=
  JDict [("data", JDict data);
         ("signature",
          JStr (string_of_list_ascii
                  (b64encode (sk_sign sk nonce (utf8_encode (trim_payload (JDict data)))))))].

(** The world after [consume] has posted [envelope] and got an answer:
    [draws] values were taken from the random source and [records] went to
    the audit sink. *)
Definition consumed (self : GovEsb) (envelope : json) (draws : nat) (records : list Event)
    (w : World) : World := {|
  _instance := _instance w;
  n_posts := S (n_posts w);
  n_draws := (draws + n_draws w)%nat;
  n_reads := n_reads w;
  trace := trace w ++ EvPost (bus_request self envelope) :: records
|}.

(** The result of the [except] branch of [consume]. *)
Definition failed_to_consume (request_id : N) (api_code : str) : GovEsvData := {|
  success := false;
  requestId := Some request_id;
  message := Some ("Failed to consume from apiCode: " ++ api_code);
  esbBody := JDict [];
  errors := [];
  validationErrors := []
|}.

(* ================================================================== *)
(** * Properties *)

(* ------------------------------------------------------------------ *)
(** ** Base64: what is encoded decodes to itself *)

Unset Implicit Arguments.

Section Base64.

Local Open Scope N_scope.

Lemma pack_div (a b c : N) : c <> 0 -> b < c -> (a * c + b) / c = a.
Proof.
  intros Hc Hb.
  rewrite N.add_comm, N.div_add by exact Hc.
  rewrite N.div_small by exact Hb.
  reflexivity.
Qed.

Lemma pack_mod (a b c : N) : c <> 0 -> b < c -> (a * c + b) mod c = b.
Proof.
  intros Hc Hb.
  rewrite N.add_comm, N.Div0.mod_add.
  apply N.mod_small; exact Hb.
Qed.

Lemma unpack (n c : N) : c <> 0 -> n / c * c + n mod c = n.
Proof.
  intros Hc. rewrite N.mul_comm. symmetry. apply N.div_mod; exact Hc.
Qed.

Lemma byte_div_lt (n c d : N) : n < 256 -> c * d = 256 -> c <> 0 -> n / c < d.
Proof.
  intros Hn Hcd Hc.
  apply N.Div0.div_lt_upper_bound. rewrite Hcd. exact Hn.
Qed.

(** A property of six-bit values that holds by enumeration. *)
Lemma below_64 (P : N -> bool) :
  forallb P (map N.of_nat (seq 0 64)) = true -> forall v, v < 64 -> P v = true.
Proof.
  intros Hall v Hv.
  rewrite forallb_forall in Hall.
  apply Hall.
  rewrite <- (N2Nat.id v).
  apply in_map, in_seq.
  lia.
Qed.

Lemma a2b_b2a (v : N) : v < 64 -> a2b (b2a v) = Some v.
Proof.
  intros Hv.
  pose proof (below_64 (fun v => match a2b (b2a v) with
                                  | Some u => u =? v
                                  | None => false
                                  end) eq_refl v Hv) as H.
  cbv beta in H.
  destruct (a2b (b2a v)) as [u|]; [|discriminate].
  apply N.eqb_eq in H. now subst.
Qed.

Lemma b2a_not_pad (v : N) : v < 64 -> Ascii.eqb (b2a v) b64_pad = false.
Proof.
  intros Hv.
  pose proof (below_64 (fun v => negb (Ascii.eqb (b2a v) b64_pad)) eq_refl v Hv) as H.
  cbv beta in H.
  now apply negb_true_iff in H.
Qed.

Lemma b2a_is_ascii (v : N) : is_ascii_char (b2a v) = true.
Proof.
  destruct (N.lt_ge_cases v 64) as [Hv|Hv].
  - exact (below_64 (fun v => is_ascii_char (b2a v)) eq_refl v Hv).
  - unfold b2a.
    replace (String.get (N.to_nat v) b64_alphabet) with (@None ascii); [reflexivity|].
    symmetry.
    assert (Hlen : (String.length b64_alphabet <= N.to_nat v)%nat)
      by (change (String.length b64_alphabet) with 64%nat; lia).
    revert Hlen. generalize (N.to_nat v) as i. generalize b64_alphabet as s.
    induction s as [|c s IH]; intros i Hlen.
    + now destruct i.
    + destruct i as [|i]; simpl in *; [lia|]. apply IH. lia.
Qed.

(** One data character moves the decoder one position on. *)
Lemma a2b_loop_data (v : N) (rest : list ascii) (quad_pos leftchar pads : N) :
  v < 64 ->
  a2b_loop (b2a v :: rest) quad_pos leftchar pads =
    if quad_pos =? 0 then a2b_loop rest 1 v 0
    else if quad_pos =? 1 then
      emit (ascii_of_N (leftchar * 4 + v / 16)) (a2b_loop rest 2 (v mod 16) 0)
    else if quad_pos =? 2 then
      emit (ascii_of_N (leftchar * 16 + v / 4)) (a2b_loop rest 3 (v mod 4) 0)
    else
      emit (ascii_of_N (leftchar * 64 + v)) (a2b_loop rest 0 0 0).
Proof.
  intros Hv. simpl.
  rewrite (b2a_not_pad v Hv), (a2b_b2a v Hv).
  reflexivity.
Qed.

Notation "# c" := (N_of_ascii c) (at level 9, c at level 9, only parsing).

Lemma octet_sextet_hi (x : ascii) (c d : N) : c * d = 256 -> c <> 0 -> # x / c < d.
Proof. intros Hcd Hc. exact (byte_div_lt (# x) c d (N_ascii_bounded x) Hcd Hc). Qed.

Lemma sextet1 (x : ascii) : # x / 4 < 64.
Proof. now apply octet_sextet_hi. Qed.

Lemma sextet2 (x y : ascii) : # x mod 4 * 16 + # y / 16 < 64.
Proof.
  pose proof (N.mod_lt (# x) 4 ltac:(discriminate)).
  pose proof (octet_sextet_hi y 16 16 eq_refl ltac:(discriminate)).
  lia.
Qed.

Lemma sextet2_alone (x : ascii) : # x mod 4 * 16 < 64.
Proof. pose proof (N.mod_lt (# x) 4 ltac:(discriminate)). lia. Qed.

Lemma sextet3 (y z : ascii) : # y mod 16 * 4 + # z / 64 < 64.
Proof.
  pose proof (N.mod_lt (# y) 16 ltac:(discriminate)).
  pose proof (octet_sextet_hi z 64 4 eq_refl ltac:(discriminate)).
  lia.
Qed.

Lemma sextet3_alone (y : ascii) : # y mod 16 * 4 < 64.
Proof. pose proof (N.mod_lt (# y) 16 ltac:(discriminate)). lia. Qed.

Lemma sextet4 (z : ascii) : # z mod 64 < 64.
Proof. apply N.mod_lt; discriminate. Qed.

Lemma octet1 (x y : ascii) :
  ascii_of_N (# x / 4 * 4 + (# x mod 4 * 16 + # y / 16) / 16) = x.
Proof.
  rewrite pack_div; [| discriminate | now apply octet_sextet_hi].
  rewrite unpack by discriminate.
  apply ascii_N_embedding.
Qed.

Lemma octet1_alone (x : ascii) : ascii_of_N (# x / 4 * 4 + (# x mod 4 * 16) / 16) = x.
Proof.
  rewrite N.div_mul by discriminate.
  rewrite unpack by discriminate.
  apply ascii_N_embedding.
Qed.

Lemma octet2 (x y z : ascii) :
  ascii_of_N ((# x mod 4 * 16 + # y / 16) mod 16 * 16 + (# y mod 16 * 4 + # z / 64) / 4) = y.
Proof.
  rewrite pack_mod; [| discriminate | now apply octet_sextet_hi].
  rewrite pack_div; [| discriminate | now apply octet_sextet_hi].
  rewrite unpack by discriminate.
  apply ascii_N_embedding.
Qed.

Lemma octet2_alone (x y : ascii) :
  ascii_of_N ((# x mod 4 * 16 + # y / 16) mod 16 * 16 + (# y mod 16 * 4) / 4) = y.
Proof.
  rewrite pack_mod; [| discriminate | now apply octet_sextet_hi].
  rewrite N.div_mul by discriminate.
  rewrite unpack by discriminate.
  apply ascii_N_embedding.
Qed.

Lemma octet3 (y z : ascii) :
  ascii_of_N ((# y mod 16 * 4 + # z / 64) mod 4 * 64 + # z mod 64) = z.
Proof.
  rewrite pack_mod; [| discriminate | now apply octet_sextet_hi].
  rewrite unpack by discriminate.
  apply ascii_N_embedding.
Qed.

(** A full group of three octets. *)
Lemma a2b_loop_group (x y z : ascii) (rest : list ascii) :
  a2b_loop (b2a (# x / 4) :: b2a (# x mod 4 * 16 + # y / 16)
              :: b2a (# y mod 16 * 4 + # z / 64) :: b2a (# z mod 64) :: rest) 0 0 0
  = emit x (emit y (emit z (a2b_loop rest 0 0 0))).
Proof.
  rewrite (a2b_loop_data _ _ _ _ _ (sextet1 x)). cbn [N.eqb].
  rewrite (a2b_loop_data _ _ _ _ _ (sextet2 x y)). cbn [N.eqb Pos.eqb].
  rewrite (a2b_loop_data _ _ _ _ _ (sextet3 y z)). cbn [N.eqb Pos.eqb].
  rewrite (a2b_loop_data _ _ _ _ _ (sextet4 z)). cbn [N.eqb Pos.eqb].
  rewrite octet1, octet2, octet3.
  reflexivity.
Qed.

(** A last group of one octet, padded twice. *)
Lemma a2b_loop_one (x : ascii) :
  a2b_loop [b2a (# x / 4); b2a (# x mod 4 * 16); b64_pad; b64_pad] 0 0 0 = Return [x].
Proof.
  rewrite (a2b_loop_data _ _ _ _ _ (sextet1 x)). cbn [N.eqb].
  rewrite (a2b_loop_data _ _ _ _ _ (sextet2_alone x)). cbn [N.eqb Pos.eqb].
  rewrite octet1_alone.
  reflexivity.
Qed.

(** A last group of two octets, padded once. *)
Lemma a2b_loop_two (x y : ascii) :
  a2b_loop [b2a (# x / 4); b2a (# x mod 4 * 16 + # y / 16); b2a (# y mod 16 * 4); b64_pad]
    0 0 0
  = Return [x; y].
Proof.
  rewrite (a2b_loop_data _ _ _ _ _ (sextet1 x)). cbn [N.eqb].
  rewrite (a2b_loop_data _ _ _ _ _ (sextet2 x y)). cbn [N.eqb Pos.eqb].
  rewrite (a2b_loop_data _ _ _ _ _ (sextet3_alone y)). cbn [N.eqb Pos.eqb].
  rewrite octet1, octet2_alone.
  reflexivity.
Qed.

End Base64.

(** Induction on a byte string three octets at a time. *)
Lemma bytes_ind3 (P : bytes -> Prop) :
  P [] -> (forall x, P [x]) -> (forall x y, P [x; y]) ->
  (forall x y z rest, P rest -> P (x :: y :: z :: rest)) ->
  forall b, P b.
Proof.
  intros H0 H1 H2 H3 b.
  enough (P b /\ (forall x, P (x :: b)) /\ (forall x y, P (x :: y :: b))) by tauto.
  induction b as [|c b (IH0 & IH1 & IH2)]; repeat split; auto.
Qed.

Lemma b64decode_b64encode (b : bytes) : a2b_base64 (b64encode b) = Return b.
Proof.
  unfold a2b_base64.
  induction b as [| x | x y | x y z rest IH] using bytes_ind3.
  - reflexivity.
  - exact (a2b_loop_one x).
  - exact (a2b_loop_two x y).
  - cbn [b64encode]. rewrite (a2b_loop_group x y z), IH. reflexivity.
Qed.

Lemma b64encode_ascii (b : bytes) : forallb is_ascii_char (b64encode b) = true.
Proof.
  induction b as [| x | x y | x y z rest IH] using bytes_ind3;
    cbn [b64encode forallb]; rewrite ?b2a_is_ascii, ?IH; reflexivity.
Qed.

Lemma utf8_decode_ascii (b : bytes) :
  forallb is_ascii_char b = true -> utf8_decode b = Return (string_of_list_ascii b).
Proof.
  induction b as [|c b IH]; cbn [forallb utf8_decode string_of_list_ascii]; intros H.
  - reflexivity.
  - apply andb_true_iff in H as [Hc Hb].
    unfold is_ascii_char in Hc. rewrite Hc, (IH Hb). reflexivity.
Qed.

Lemma all_ascii_of_list (b : bytes) :
  all_ascii (string_of_list_ascii b) = forallb is_ascii_char b.
Proof.
  induction b as [|c b IH]; cbn [forallb all_ascii string_of_list_ascii]; congruence.
Qed.

(** The text of an encoded byte string decodes to that byte string. *)
Lemma b64decode_text (b : bytes) :
  b64decode (JStr (string_of_list_ascii (b64encode b))) = Return b.
Proof.
  unfold b64decode.
  rewrite all_ascii_of_list, b64encode_ascii, list_ascii_of_string_of_list_ascii.
  apply b64decode_b64encode.
Qed.

(* ------------------------------------------------------------------ *)
(** ** Signing and verifying *)

Lemma bytes_eqb_refl (b : bytes) : bytes_eqb b b = true.
Proof.
  induction b as [|c b IH]; cbn [bytes_eqb]; [reflexivity|].
  now rewrite Ascii.eqb_refl.
Qed.

Lemma toy_pair_matches : matching_pair toy_private_key toy_public_key.
Proof. intros nonce data. cbn. apply bytes_eqb_refl. Qed.

(** With a private key loaded, signing returns the base64 text of the
    signature over the canonical bytes. *)
Lemma sign_payload_returns (self : GovEsb) (sk : EllipticCurvePrivateKey) (nonce : N)
    (payload : json) :
  private_key self = Some sk ->
  sign_payload self nonce payload
  = Return (string_of_list_ascii
              (b64encode (sk_sign sk nonce (utf8_encode (trim_payload payload))))).
Proof.
  intros Hsk. unfold sign_payload. rewrite Hsk.
  apply utf8_decode_ascii, b64encode_ascii.
Qed.

(** C8: for every payload [P] and a matching key pair, the signature that
    [sign_payload] produces over the canonical bytes of [P] is accepted by
    [verify_signature] over the same canonical bytes: signing returns, and
    verifying what it returned gives [True]. *)
Theorem sign_then_verify (self : GovEsb) (sk : EllipticCurvePrivateKey)
    (pk : EllipticCurvePublicKey) (nonce : N) (P : json) :
  private_key self = Some sk ->
  public_key self = Some pk ->
  matching_pair sk pk ->
  exists signature,
    sign_payload self nonce P = Return signature /\
    verify_signature self (JStr signature) P = Return true.
Proof.
  intros Hsk Hpk Hpair.
  eexists. split.
  - apply sign_payload_returns. exact Hsk.
  - unfold verify_signature. rewrite Hpk, b64decode_text.
    cbn [rbind]. rewrite Hpair. reflexivity.
Qed.

Lemma sign_then_verify_witness :
  matching_pair toy_private_key toy_public_key /\
  exists signature,
    sign_payload toy_esb 7 (JDict bus_data) = Return signature /\
    verify_signature toy_esb (JStr signature) (JDict bus_data) = Return true.
Proof.
  split.
  - exact toy_pair_matches.
  - apply (sign_then_verify toy_esb toy_private_key toy_public_key 7 (JDict bus_data)).
    + reflexivity.
    + reflexivity.
    + exact toy_pair_matches.
Defined.

(** C5, at the inputs where it fails: a signature that is not well-padded
    base64, or that is [None], makes [verify_signature] raise instead of
    returning [False]; only [InvalidSignature] is turned into [False]. *)
Theorem verify_signature_raises_on_undecodable (self : GovEsb) (payload : json) :
  verify_signature self (JStr "abc") payload
  = Raise (match public_key self with
           | Some _ => BinasciiError "Incorrect padding"
           | None => AttributeError "verify"
           end)
  /\
  verify_signature self JNull payload
  = Raise (match public_key self with
           | Some _ => TypeError "argument should be a bytes-like object or ASCII string"
           | None => AttributeError "verify"
           end).
Proof.
  unfold verify_signature.
  destruct (public_key self) as [pk|]; split; reflexivity.
Qed.

(** A cryptographic mismatch, on the other hand, is [False]. *)
Lemma verify_signature_mismatch (self : GovEsb) (pk : EllipticCurvePublicKey)
    (signature payload : json) (sig : bytes) :
  public_key self = Some pk ->
  b64decode signature = Return sig ->
  pk_verify pk sig (utf8_encode (trim_payload payload)) = false ->
  verify_signature self signature payload = Return false.
Proof.
  intros Hpk Hsig Hno. unfold verify_signature.
  rewrite Hpk, Hsig. cbn [rbind]. rewrite Hno. reflexivity.
Qed.

(** [verify_signature] has three outcomes only: [True], [False], or an
    exception other than [InvalidSignature]. *)
Lemma verify_signature_never_InvalidSignature (self : GovEsb) (signature payload : json) :
  verify_signature self signature payload <> Raise InvalidSignature.
Proof.
  unfold verify_signature.
  destruct (public_key self) as [pk|]; [|discriminate].
  destruct (b64decode signature) as [sig|e]; cbn [rbind try_except].
  - destruct (pk_verify pk sig _); discriminate.
  - destruct e; cbn; discriminate.
Qed.

(* ------------------------------------------------------------------ *)
(** ** The envelope builder: which fields, in which order *)

(** The local [data] is [esbBody] followed by the optional fields that pass
    their test, in the order of the [if] statements. *)
Lemma build_esb_data_layout (payload api_code success_ message_ errors_ validation_errors : json) :
  build_esb_data payload api_code success_ message_ errors_ validation_errors
  = (("esbBody", payload)
       :: field_if (truthy api_code) "apiCode" api_code
       ++ field_if (is_not_None success_) "success" success_
       ++ field_if (truthy message_) "message" message_
       ++ field_if (truthy errors_) "errors" errors_
       ++ field_if (truthy validation_errors) "validationErrors" validation_errors)%list.
Proof.
  unfold build_esb_data.
  destruct (truthy api_code), (is_not_None success_), (truthy message_),
    (truthy errors_), (truthy validation_errors); reflexivity.
Qed.

Lemma build_esb_data_lookups (payload api_code success_ message_ errors_ validation_errors : json) :
  let data := build_esb_data payload api_code success_ message_ errors_ validation_errors in
  dict_lookup "esbBody" data = Some payload /\
  dict_lookup "apiCode" data = (if truthy api_code then Some api_code else None) /\
  dict_lookup "success" data = (if is_not_None success_ then Some success_ else None) /\
  dict_lookup "message" data = (if truthy message_ then Some message_ else None) /\
  dict_lookup "errors" data = (if truthy errors_ then Some errors_ else None) /\
  dict_lookup "validationErrors" data
    = (if truthy validation_errors then Some validation_errors else None).
Proof.
  cbv zeta. rewrite build_esb_data_layout.
  destruct (truthy api_code), (is_not_None success_), (truthy message_),
    (truthy errors_), (truthy validation_errors); repeat split; reflexivity.
Qed.

(** With a private key loaded the builder returns the envelope: the data and
    the signature over its canonical bytes. *)
Lemma build_esb_payload_returns (self : GovEsb) (sk : EllipticCurvePrivateKey) (nonce : N)
    (payload api_code success_ message_ errors_ validation_errors : json) :
  private_key self = Some sk ->
  let data := build_esb_data payload api_code success_ message_ errors_ validation_errors in
  build_esb_payload self nonce payload api_code success_ message_ errors_ validation_errors
  = Return (JDict [("data", JDict data);
                   ("signature",
                    JStr (string_of_list_ascii
                            (b64encode
                               (sk_sign sk nonce (utf8_encode (trim_payload (JDict data)))))))]).
Proof.
  intros Hsk data. unfold build_esb_payload. fold data.
  rewrite (sign_payload_returns self sk nonce (JDict data) Hsk).
  reflexivity.
Qed.

(** C6, as the code has it: the builder returns an envelope whose data
    always holds [esbBody]; [success] is in it exactly when the argument is
    not [None] (so an explicit [False] is included and an absent one left
    out); [apiCode], [message], [errors] and [validationErrors] are in it
    exactly when the argument is truthy, so an explicitly supplied empty
    string or empty list is left out like an absent one. *)
Theorem build_esb_payload_optional_fields (self : GovEsb) (sk : EllipticCurvePrivateKey)
    (nonce : N) (payload api_code success_ message_ errors_ validation_errors : json) :
  private_key self = Some sk ->
  exists data signature,
    build_esb_payload self nonce payload api_code success_ message_ errors_ validation_errors
    = Return (JDict [("data", JDict data); ("signature", JStr signature)]) /\
    dict_lookup "esbBody" data = Some payload /\
    dict_lookup "apiCode" data = (if truthy api_code then Some api_code else None) /\
    dict_lookup "success" data = (if is_not_None success_ then Some success_ else None) /\
    dict_lookup "message" data = (if truthy message_ then Some message_ else None) /\
    dict_lookup "errors" data = (if truthy errors_ then Some errors_ else None) /\
    dict_lookup "validationErrors" data
      = (if truthy validation_errors then Some validation_errors else None).
Proof.
  intros Hsk.
  eexists _, _. split.
  - exact (build_esb_payload_returns self sk nonce payload api_code success_ message_
             errors_ validation_errors Hsk).
  - apply build_esb_data_lookups.
Qed.

Lemma build_esb_payload_optional_fields_witness :
  private_key toy_esb = Some toy_private_key /\
  exists data signature,
    build_esb_payload toy_esb 3 (JDict []) JNull (JBool false) (JStr "") JNull JNull
    = Return (JDict [("data", JDict data); ("signature", JStr signature)]) /\
    dict_lookup "esbBody" data = Some (JDict []) /\
    dict_lookup "apiCode" data = None /\
    dict_lookup "success" data = Some (JBool false) /\
    dict_lookup "message" data = None /\
    dict_lookup "errors" data = None /\
    dict_lookup "validationErrors" data = None.
Proof.
  split; [reflexivity|].
  exact (build_esb_payload_optional_fields toy_esb toy_private_key 3
           (JDict []) JNull (JBool false) (JStr "") JNull JNull eq_refl).
Defined.

(** C6 as stated fails: the caller supplies an explicit [apiCode], [message],
    [errors] and [validationErrors], none of them absent, and the data of the
    envelope holds [esbBody] alone. *)
Lemma explicit_falsy_fields_are_omitted :
  (envelope <-! build_esb_payload toy_esb 3 (JDict [("a", JInt 1)])
                  (JStr "") JNull (JStr "") (JList []) (JList []) ;;
   py_getitem envelope "data")%result
  = Return (JDict [("esbBody", JDict [("a", JInt 1)])]).
Proof. reflexivity. Qed.

(** The builder's data is determined by what can be looked up in it. *)
Lemma build_esb_data_from_lookups
    (payload api_code success_ message_ errors_ validation_errors : json) :
  let data := build_esb_data payload api_code success_ message_ errors_ validation_errors in
  data = (field_of "esbBody" (dict_lookup "esbBody" data)
            ++ field_of "apiCode" (dict_lookup "apiCode" data)
            ++ field_of "success" (dict_lookup "success" data)
            ++ field_of "message" (dict_lookup "message" data)
            ++ field_of "errors" (dict_lookup "errors" data)
            ++ field_of "validationErrors" (dict_lookup "validationErrors" data))%list.
Proof.
  intros data.
  destruct (build_esb_data_lookups payload api_code success_ message_ errors_
              validation_errors) as (H1 & H2 & H3 & H4 & H5 & H6).
  fold data in H1, H2, H3, H4, H5, H6.
  rewrite H1, H2, H3, H4, H5, H6.
  unfold data. rewrite build_esb_data_layout.
  destruct (truthy api_code), (is_not_None success_), (truthy message_),
    (truthy errors_), (truthy validation_errors); reflexivity.
Qed.

Lemma append_assoc (a b c : string) : (a ++ b) ++ c = a ++ (b ++ c).
Proof. induction a as [|x a IH]; cbn [append]; [reflexivity | now rewrite IH]. Qed.

(** C10: the canonical bytes that the envelope builder signs are, for every
    envelope, the opening brace, [esbBody] with its value, then those of
    [apiCode], [success], [message], [errors], [validationErrors] that are
    present, in this order, each preceded by a comma and written as the
    quoted key, a colon and the value, with no whitespace in between, and the
    closing brace.  Hence two envelopes whose data hold the same fields with
    the same values have the same canonical bytes. *)
Theorem canonical_bytes_fixed_field_order
    (payload api_code success_ message_ errors_ validation_errors : json) :
  let data := build_esb_data payload api_code success_ message_ errors_ validation_errors in
  trim_payload (JDict data)
  = "{" ++ quoted "esbBody" ++ ":" ++ dumps payload
        ++ (if truthy api_code
            then "," ++ quoted "apiCode" ++ ":" ++ dumps api_code else "")
        ++ (if is_not_None success_
            then "," ++ quoted "success" ++ ":" ++ dumps success_ else "")
        ++ (if truthy message_
            then "," ++ quoted "message" ++ ":" ++ dumps message_ else "")
        ++ (if truthy errors_
            then "," ++ quoted "errors" ++ ":" ++ dumps errors_ else "")
        ++ (if truthy validation_errors
            then "," ++ quoted "validationErrors" ++ ":"
                     ++ dumps validation_errors else "")
        ++ "}"
  /\
  forall payload' api_code' success' message' errors' validation_errors' : json,
    let data' := build_esb_data payload' api_code' success' message' errors'
                   validation_errors' in
    (forall key, dict_lookup key data = dict_lookup key data') ->
    utf8_encode (trim_payload (JDict data)) = utf8_encode (trim_payload (JDict data')).
Proof.
  intros data. split.
  - unfold data. rewrite build_esb_data_layout.
    unfold trim_payload.
    destruct (truthy api_code), (is_not_None success_), (truthy message_),
      (truthy errors_), (truthy validation_errors);
      cbn [field_if app map join fst snd dumps];
      change (encode_basestring_ascii "esbBody") with (quoted "esbBody");
      change (encode_basestring_ascii "apiCode") with (quoted "apiCode");
      change (encode_basestring_ascii "success") with (quoted "success");
      change (encode_basestring_ascii "message") with (quoted "message");
      change (encode_basestring_ascii "errors") with (quoted "errors");
      change (encode_basestring_ascii "validationErrors") with (quoted "validationErrors");
      repeat first [rewrite append_assoc | progress cbn [append]];
      reflexivity.
  - intros payload' api_code' success' message' errors' validation_errors' data' Hsame.
    enough (data = data') as -> by reflexivity.
    unfold data.
    rewrite (build_esb_data_from_lookups payload api_code success_ message_ errors_
               validation_errors).
    fold data.
    rewrite !Hsame.
    symmetry.
    exact (build_esb_data_from_lookups payload' api_code' success' message' errors'
             validation_errors').
Qed.

(* ------------------------------------------------------------------ *)
(** ** The outbound exchange *)

Section Consume.

Variable env : Env.

Lemma signed_envelope_returns (self : GovEsb) (sk : EllipticCurvePrivateKey)
    (payload api_code success_ message_ errors_ validation_errors : json) (w : World) :
  private_key self = Some sk ->
  exists envelope,
    signed_envelope env self payload api_code success_ message_ errors_ validation_errors w
    = (drawn env w, Return envelope) /\
    build_esb_payload self (entropy env (n_draws w)) payload api_code success_ message_ errors_
      validation_errors = Return envelope.
Proof.
  intros Hsk.
  pose proof (build_esb_payload_returns self sk (entropy env (n_draws w)) payload
                api_code success_ message_ errors_ validation_errors Hsk) as Hret.
  cbv zeta in Hret.
  eexists. split; [|exact Hret].
  unfold signed_envelope, bind, draw, lift, drawn. cbn [fst].
  rewrite Hret. reflexivity.
Qed.

Lemma signed_envelope_without_key (self : GovEsb)
    (payload api_code success_ message_ errors_ validation_errors : json) (w : World) :
  private_key self = None ->
  signed_envelope env self payload api_code success_ message_ errors_ validation_errors w
  = (drawn env w, Raise (AttributeError "sign")).
Proof.
  intros Hsk.
  unfold signed_envelope, bind, draw, lift, drawn, build_esb_payload, sign_payload.
  rewrite Hsk. reflexivity.
Qed.

(** With a private key loaded, the awaited call sends its request and comes
    back with the network's answer. *)
Lemma consume_post_exchanges (self : GovEsb) (sk : EllipticCurvePrivateKey)
    (payload : json) (api_code : str) (w : World) :
  private_key self = Some sk ->
  exists envelope,
    consume_post env self payload api_code w
    = (exchanged env (bus_request self envelope) (drawn env w),
       match http_answer env (n_posts w) with
       | PostReturns r => Return r
       | PostRaises e => Raise e
       end).
Proof.
  intros Hsk.
  destruct (signed_envelope_returns self sk payload (JStr api_code) JNull JNull JNull JNull
              w Hsk) as (envelope & Henv & _).
  exists envelope.
  unfold consume_post, bind. rewrite Henv.
  unfold client_post, bind, send, log, receive, exchanged, bus_request.
  cbn [fst log_event drawn draw n_posts].
  reflexivity.
Qed.

(** Whatever goes wrong before [response] is bound is an [Exception], unless
    it is what the network raised. *)
Lemma consume_post_outcome (self : GovEsb) (payload : json) (api_code : str) (w : World) :
  match snd (consume_post env self payload api_code w) with
  | Return r => http_answer env (n_posts w) = PostReturns r
  | Raise e => is_Exception e = true \/ http_answer env (n_posts w) = PostRaises e
  end.
Proof.
  destruct (private_key self) as [sk|] eqn:Hsk.
  - destruct (consume_post_exchanges self sk payload api_code w Hsk) as (envelope & ->).
    cbn [snd]. destruct (http_answer env (n_posts w)); auto.
  - unfold consume_post, bind.
    rewrite (signed_envelope_without_key self payload (JStr api_code) JNull JNull JNull JNull
               w Hsk).
    cbn. auto.
Qed.

(** C1, at the input where it fails: when the post to the bus raises (a
    transport failure: connection refused, timeout), the handler reads the
    local [response], which was never bound, and [consume] raises
    [UnboundLocalError] to its caller instead of returning a result. *)
Theorem consume_raises_on_transport_failure (self : GovEsb) (payload : json)
    (api_code : str) (w : World) (e : exn) :
  http_answer env (n_posts w) = PostRaises e ->
  is_Exception e = true ->
  snd (consume env self payload api_code w) = Raise (UnboundLocalError "response").
Proof.
  intros Hnet Hexn.
  unfold consume, try_binding.
  pose proof (consume_post_outcome self payload api_code w) as Hout.
  destruct (consume_post env self payload api_code w) as [w1 [r|e1]]; cbn [snd] in Hout.
  - congruence.
  - assert (is_Exception e1 = true) as ->
        by (destruct Hout as [H|H]; [exact H | congruence]).
    reflexivity.
Qed.

(** After a response with a 2xx status and a JSON body that has the two
    keys, and with a private key loaded, the [try] block logs the exchange
    and ends on the signature test. *)
Lemma consume_check_reaches_verification (self : GovEsb) (sk : EllipticCurvePrivateKey)
    (payload : json) (api_code : str) (response : Response) (w : World)
    (json signature data : json) :
  private_key self = Some sk ->
  200 <= status_code response <= 299 ->
  json_body response = Some json ->
  py_getitem json "signature" = Return signature ->
  py_getitem json "data" = Return data ->
  exists request,
    consume_check env self payload api_code response w
    = (ok <- lift (verify_signature self signature data) ;;
       if ok then lift (pydantic_GovEsvResponse env json)
       else raise (PlainException "Signature verification failed!"))%monad
        (log_event (EvLogGovesbCalls (JStr api_code) request json) (drawn env w)).
Proof.
  intros Hsk Hstatus Hjson Hsig Hdata.
  destruct (signed_envelope_returns self sk payload (JStr api_code) JNull JNull JNull JNull
              w Hsk) as (request & Henv & _).
  exists request.
  unfold consume_check, raise_for_status.
  replace ((200 <=? status_code response) && (status_code response <=? 299)) with true
    by (symmetry; apply andb_true_iff; split; apply Z.leb_le; lia).
  unfold bind at 1. cbn [ret].
  unfold bind at 1. unfold response_json. rewrite Hjson. cbn [ret].
  unfold bind at 1. rewrite Henv.
  unfold bind at 1. cbn [log].
  unfold bind at 1. cbn [lift]. rewrite Hsig.
  unfold bind at 1. cbn [lift]. rewrite Hdata.
  reflexivity.
Qed.

(** *** Effects that stay inside: no request, no clock reading, no write *)

Lemma silent_refl (w : World) : silent w w.
Proof. repeat split. Qed.

Lemma silent_trans (w1 w2 w3 : World) : silent w1 w2 -> silent w2 w3 -> silent w1 w3.
Proof.
  intros (A1 & A2 & A3 & A4) (B1 & B2 & B3 & B4).
  repeat split; congruence.
Qed.

Lemma silently_ret {A} (a : A) : silently (ret a).
Proof. intros w. apply silent_refl. Qed.

Lemma silently_raise {A} (e : exn) : silently (@raise A e).
Proof. intros w. apply silent_refl. Qed.

Lemma silently_lift {A} (r : result A) : silently (lift r).
Proof. intros w. apply silent_refl. Qed.

Lemma silently_bind {A B} (m : M A) (k : A -> M B) :
  silently m -> (forall a, silently (k a)) -> silently (bind m k).
Proof.
  intros Hm Hk w. unfold bind.
  specialize (Hm w).
  destruct (m w) as [w1 [a|e]]; cbn [fst] in *.
  - eapply silent_trans; [exact Hm | apply Hk].
  - exact Hm.
Qed.

Lemma silently_draw : silently (draw env).
Proof. intros w. repeat split. Qed.

Lemma silently_log (ev : Event) : is_post ev = false -> silently (log ev).
Proof.
  intros Hev w. repeat split.
  cbn. unfold posts. rewrite filter_app. cbn [filter]. rewrite Hev.
  apply app_nil_r.
Qed.

Lemma silently_if {A} (b : bool) (m1 m2 : M A) :
  silently m1 -> silently m2 -> silently (if b then m1 else m2).
Proof. now destruct b. Qed.

Lemma silently_signed_envelope (self : GovEsb)
    (payload api_code success_ message_ errors_ validation_errors : json) :
  silently (signed_envelope env self payload api_code success_ message_ errors_
              validation_errors).
Proof.
  unfold signed_envelope.
  apply silently_bind; [apply silently_draw | intros; apply silently_lift].
Qed.

(** Splits a computation into its primitive steps, each of them silent. *)
Ltac silence :=
  repeat first
    [ apply silently_ret
    | apply silently_raise
    | apply silently_lift
    | apply silently_draw
    | apply silently_signed_envelope
    | apply silently_log; reflexivity
    | apply silently_bind; [|intros]
    | apply silently_if
    | match goal with
      | |- silently (match ?x with _ => _ end) => destruct x
      end ].

Lemma silently_consume_check (self : GovEsb) (payload : json) (api_code : str)
    (response : Response) :
  silently (consume_check env self payload api_code response).
Proof. unfold consume_check, raise_for_status, response_json. silence. Qed.

Lemma silently_consume_except (api_code : str) (response : option Response) (e : exn) :
  silently (consume_except env api_code response e).
Proof. unfold consume_except. silence. Qed.

(** The handler and the rest of the [try] block after it: silent as well. *)
Lemma consume_after_post_silent (self : GovEsb) (payload : json) (api_code : str)
    (w1 : World) (r : result Response) :
  silent w1
    (fst (match r with
          | Return x =>
              match consume_check env self payload api_code x w1 with
              | (w2, Raise e) =>
                  if is_Exception e then consume_except env api_code (Some x) e w2
                  else (w2, Raise e)
              | (w2, Return a) => (w2, Return a)
              end
          | Raise e =>
              if is_Exception e then consume_except env api_code None e w1
              else (w1, Raise e)
          end)).
Proof.
  destruct r as [x|e].
  - pose proof (silently_consume_check self payload api_code x w1) as Hc.
    destruct (consume_check env self payload api_code x w1) as [w2 [a|e]]; cbn [fst] in *.
    + exact Hc.
    + destruct (is_Exception e); [|exact Hc].
      eapply silent_trans; [exact Hc | apply silently_consume_except].
  - destruct (is_Exception e); [|apply silent_refl].
    apply silently_consume_except.
Qed.

(** C3, as the code has it: [consume] makes no token check.  With a private
    key loaded, an engine URL set and the bus answering the request, and
    whatever [access_token] and [token_expiry] hold, it makes exactly one
    request, to [{engine_url}/request] with the header
    [Bearer <access_token>] built from the stored token as it is; it never
    reads the clock and never writes the object; and changing [token_expiry]
    changes nothing of what it does or returns. *)
Theorem consume_posts_whatever_the_token (self : GovEsb) (sk : EllipticCurvePrivateKey)
    (base : str) (payload : json) (api_code : str) (w : World) (response : Response) :
  private_key self = Some sk ->
  engine_url self = Some base ->
  http_answer env (n_posts w) = PostReturns response ->
  (exists envelope,
     posts (trace (fst (consume env self payload api_code w)))
     = (posts (trace w)
        ++ [EvPost {| url := (base ++ "/request")%string;
                      authorization := Bearer (access_token self);
                      body := JsonBody envelope;
                      req_timeout := timeout self |}])%list) /\
  n_reads (fst (consume env self payload api_code w)) = n_reads w /\
  _instance (fst (consume env self payload api_code w)) = _instance w /\
  forall t : float,
    consume env (set_token_expiry t self) payload api_code w
    = consume env self payload api_code w.
Proof.
  intros Hsk Hbase _.
  assert (Hmain : exists envelope,
             silent (exchanged env (bus_request self envelope) (drawn env w))
                    (fst (consume env self payload api_code w))).
  { destruct (consume_post_exchanges self sk payload api_code w Hsk) as (envelope & Hpost).
    exists envelope.
    unfold consume, try_binding. rewrite Hpost.
    apply consume_after_post_silent. }
  destruct Hmain as (envelope & H1 & _ & H3 & H4).
  split; [|split; [|split]].
  - exists envelope. rewrite H4.
    unfold exchanged, drawn, draw, send, log, receive, log_event, bus_request.
    cbn [fst trace]. rewrite Hbase. cbn [fmt].
    unfold posts. rewrite filter_app. reflexivity.
  - rewrite H3. reflexivity.
  - rewrite H1. reflexivity.
  - intros t. reflexivity.
Qed.

(** C9, as the code has it: when the bus answers with a 2xx status and a
    JSON envelope whose signature [verify_signature] rejects, [consume]
    returns a failure result whose message is
    ["Failed to consume from apiCode: " + api_code]; the text
    ["Signature verification failed!"] goes to the exception log only. *)
Theorem consume_rejected_signature (self : GovEsb) (sk : EllipticCurvePrivateKey)
    (payload : json) (api_code : str) (w : World) (response : Response)
    (json signature data : json) :
  private_key self = Some sk ->
  http_answer env (n_posts w) = PostReturns response ->
  200 <= status_code response <= 299 ->
  json_body response = Some json ->
  py_getitem json "signature" = Return signature ->
  py_getitem json "data" = Return data ->
  verify_signature self signature data = Return false ->
  snd (consume env self payload api_code w)
  = Return {| success := false;
              requestId := Some (entropy env (S (S (n_draws w))));
              message := Some ("Failed to consume from apiCode: " ++ api_code);
              esbBody := JDict [];
              errors := [];
              validationErrors := [] |}
  /\
  In (EvLogException
        (FailedToConsume (PlainException "Signature verification failed!") response))
     (trace (fst (consume env self payload api_code w))).
Proof.
  intros Hsk Hnet Hstatus Hjson Hsig Hdata Hbad.
  destruct (consume_post_exchanges self sk payload api_code w Hsk) as (envelope & Hpost).
  rewrite Hnet in Hpost.
  destruct (consume_check_reaches_verification self sk payload api_code response
              (exchanged env (bus_request self envelope) (drawn env w))
              json signature data Hsk Hstatus Hjson Hsig Hdata) as (request & Hcheck).
  unfold consume, try_binding.
  rewrite Hpost, Hcheck.
  unfold bind at 1. cbn [lift]. rewrite Hbad.
  cbn [raise is_Exception consume_except].
  split.
  - reflexivity.
  - cbn. apply in_or_app. right. left. reflexivity.
Qed.

(** *** After the response is bound, every failure becomes a result *)

Lemma a2b_loop_raises_Exception (s : list ascii) :
  forall (quad_pos leftchar pads : N) (e : exn),
    a2b_loop s quad_pos leftchar pads = Raise e -> is_Exception e = true.
Proof.
  induction s as [|c s IH]; intros q lc p e; cbn [a2b_loop].
  - destruct (q =? 0)%N; [discriminate|].
    destruct (q =? 1)%N; intros [= <-]; reflexivity.
  - destruct (Ascii.eqb c b64_pad).
    + destruct (2 <=? q)%N; [|apply IH].
      destruct (4 <=? q + (p + 1))%N; [discriminate|apply IH].
    + destruct (a2b c) as [v|]; [|apply IH].
      destruct (q =? 0)%N; [apply IH|].
      unfold emit.
      destruct (q =? 1)%N; [|destruct (q =? 2)%N];
        match goal with
        | |- rbind ?r _ = _ -> _ =>
            destruct r as [out|e'] eqn:Hr; cbn [rbind];
            [discriminate | intros [= <-]; exact (IH _ _ _ _ Hr)]
        end.
Qed.

Lemma a2b_loop_raises_no_InvalidSignature (s : list ascii) :
  forall (quad_pos leftchar pads : N) (e : exn),
    a2b_loop s quad_pos leftchar pads = Raise e -> is_InvalidSignature e = false.
Proof.
  induction s as [|c s IH]; intros q lc p e; cbn [a2b_loop].
  - destruct (q =? 0)%N; [discriminate|].
    destruct (q =? 1)%N; intros [= <-]; reflexivity.
  - destruct (Ascii.eqb c b64_pad).
    + destruct (2 <=? q)%N; [|apply IH].
      destruct (4 <=? q + (p + 1))%N; [discriminate|apply IH].
    + destruct (a2b c) as [v|]; [|apply IH].
      destruct (q =? 0)%N; [apply IH|].
      unfold emit.
      destruct (q =? 1)%N; [|destruct (q =? 2)%N];
        match goal with
        | |- rbind ?r _ = _ -> _ =>
            destruct r as [out|e'] eqn:Hr; cbn [rbind];
            [discriminate | intros [= <-]; exact (IH _ _ _ _ Hr)]
        end.
Qed.

(** What the decoding raises is never [InvalidSignature], so nothing turns
    it into [False]. *)
Lemma b64decode_raises_no_InvalidSignature (s : json) (e : exn) :
  b64decode s = Raise e -> is_InvalidSignature e = false.
Proof.
  unfold b64decode.
  destruct s; try (intros [= <-]; reflexivity).
  destruct (all_ascii s); [|intros [= <-]; reflexivity].
  apply a2b_loop_raises_no_InvalidSignature.
Qed.

Lemma verify_signature_raises_Exception (self : GovEsb) (signature payload : json) (e : exn) :
  verify_signature self signature payload = Raise e -> is_Exception e = true.
Proof.
  unfold verify_signature.
  destruct (public_key self) as [pk|]; [|intros [= <-]; reflexivity].
  destruct (b64decode signature) as [sig|e'] eqn:Hd; cbn [rbind try_except].
  - destruct (pk_verify pk sig _); discriminate.
  - assert (is_Exception e' = true) as He'.
    { revert Hd. unfold b64decode.
      destruct signature; try (intros [= <-]; reflexivity).
      destruct (all_ascii s); [|intros [= <-]; reflexivity].
      apply a2b_loop_raises_Exception. }
    destruct (is_InvalidSignature e'); [discriminate|].
    intros [= <-]. exact He'.
Qed.

Lemma py_getitem_raises_Exception (obj : json) (key : str) (e : exn) :
  py_getitem obj key = Raise e -> is_Exception e = true.
Proof.
  unfold py_getitem. destruct obj; try (intros [= <-]; reflexivity).
  destruct (dict_lookup key fields); [discriminate|].
  intros [= <-]. reflexivity.
Qed.

(** Every exception of the [try] block after the post is an [Exception],
    provided that those of the validation are. *)
Lemma consume_check_raises_Exception (self : GovEsb) (sk : EllipticCurvePrivateKey)
    (payload : json) (api_code : str) (response : Response) (w : World) (e : exn) :
  private_key self = Some sk ->
  (forall j e', pydantic_GovEsvResponse env j = Raise e' -> is_Exception e' = true) ->
  snd (consume_check env self payload api_code response w) = Raise e ->
  is_Exception e = true.
Proof.
  intros Hsk Hpyd.
  unfold consume_check, raise_for_status, response_json.
  destruct ((200 <=? status_code response) && (status_code response <=? 299));
    [|intros [= <-]; reflexivity].
  unfold bind at 1. cbn [ret].
  unfold bind at 1.
  destruct (json_body response) as [json|]; [|intros [= <-]; reflexivity].
  cbn [ret].
  destruct (signed_envelope_returns self sk payload (JStr api_code) JNull JNull JNull JNull
              w Hsk) as (request & Henv & _).
  unfold bind at 1. rewrite Henv.
  unfold bind at 1. cbn [log].
  unfold bind at 1. cbn [lift].
  destruct (py_getitem json "signature") as [signature|e1] eqn:H1;
    [|intros [= <-]; exact (py_getitem_raises_Exception _ _ _ H1)].
  unfold bind at 1. cbn [lift].
  destruct (py_getitem json "data") as [data|e2] eqn:H2;
    [|intros [= <-]; exact (py_getitem_raises_Exception _ _ _ H2)].
  unfold bind at 1. cbn [lift].
  destruct (verify_signature self signature data) as [[|]|e3] eqn:H3.
  - cbn [lift snd]. apply Hpyd.
  - intros [= <-]. reflexivity.
  - intros [= <-]. exact (verify_signature_raises_Exception _ _ _ _ H3).
Qed.

(** Once the post has returned, [consume] returns: either what the response
    validates to, or the failure result that names the [api_code]. *)
Lemma consume_returns_once_response_is_bound (self : GovEsb) (sk : EllipticCurvePrivateKey)
    (payload : json) (api_code : str) (w : World) (response : Response) :
  private_key self = Some sk ->
  (forall j e', pydantic_GovEsvResponse env j = Raise e' -> is_Exception e' = true) ->
  http_answer env (n_posts w) = PostReturns response ->
  exists d,
    snd (consume env self payload api_code w) = Return d /\
    ((exists j, json_body response = Some j /\ pydantic_GovEsvResponse env j = Return d) \/
     (success d = false /\ esbBody d = JDict [] /\
      message d = Some ("Failed to consume from apiCode: " ++ api_code))).
Proof.
  intros Hsk Hpyd Hnet.
  destruct (consume_post_exchanges self sk payload api_code w Hsk) as (envelope & Hpost).
  rewrite Hnet in Hpost.
  unfold consume, try_binding. rewrite Hpost.
  pose proof (consume_check_raises_Exception self sk payload api_code response
                (exchanged env (bus_request self envelope) (drawn env w))) as Hexn.
  destruct (consume_check env self payload api_code response _) as [w2 [d|e]] eqn:Hcheck.
  - exists d. split; [reflexivity|]. left.
    revert Hcheck.
    unfold consume_check, raise_for_status, response_json.
    destruct ((200 <=? status_code response) && (status_code response <=? 299));
      [|discriminate].
    unfold bind at 1. cbn [ret]. unfold bind at 1.
    destruct (json_body response) as [json|]; [|discriminate].
    cbn [ret]. exists json. split; [reflexivity|].
    revert Hcheck. unfold bind.
    destruct (signed_envelope env self payload (JStr api_code) JNull JNull JNull JNull _)
      as [w3 [request|e]]; [|discriminate].
    cbn [log lift].
    destruct (py_getitem json "signature"); [|discriminate].
    destruct (py_getitem json "data"); [|discriminate].
    destruct (verify_signature self a a0) as [[|]|e]; try discriminate.
    cbn [lift]. intros [= _ H]. exact H.
  - rewrite (Hexn e Hsk Hpyd eq_refl).
    eexists. split; [reflexivity|]. right. repeat split.
Qed.

End Consume.

Lemma consume_posts_whatever_the_token_witness :
  private_key toy_esb_without_token = Some toy_private_key /\
  exists envelope,
    posts (trace (fst (consume (env_of (PostReturns (response_of 200 bus_reply)) 2000)
                         toy_esb_without_token (JDict [("a", JInt 1)]) "CODE1"
                         (world_of toy_esb_without_token))))
    = [EvPost (bus_request toy_esb_without_token envelope)].
Proof.
  split; [reflexivity|].
  exact (proj1 (consume_posts_whatever_the_token
                  (env_of (PostReturns (response_of 200 bus_reply)) 2000)
                  toy_esb_without_token toy_private_key "https://esb.example"
                  (JDict [("a", JInt 1)]) "CODE1"
                  (world_of toy_esb_without_token) (response_of 200 bus_reply)
                  eq_refl eq_refl eq_refl)).
Defined.

(** C3 as stated fails: the object holds no token at all and none can be
    obtained ([get_instance] raises in this world), and [consume] posts to
    the bus under [Bearer None] and returns the bus's answer, a success. *)
Lemma consume_without_token_posts_anyway :
  snd (get_instance (env_of (PostReturns (response_of 200 bus_reply)) 2000)
         (world_of toy_esb_without_token))
  = Raise not_initialized /\
  exists envelope request w',
    consume (env_of (PostReturns (response_of 200 bus_reply)) 2000)
      toy_esb_without_token (JDict [("a", JInt 1)]) "CODE1"
      (world_of toy_esb_without_token)
    = (w', Return {| success := true;
                     requestId := None;
                     esbBody := JDict [("a", JInt 1)];
                     message := None;
                     errors := [];
                     validationErrors := [] |})
    /\ access_token toy_esb_without_token = JNull
    /\ token_expiry toy_esb_without_token = None
    /\ trace w'
       = [EvPost {| url := "https://esb.example/request";
                    authorization := Bearer JNull;
                    body := JsonBody envelope;
                    req_timeout := Some 180 |};
          EvLogGovesbCalls (JStr "CODE1") request bus_reply].
Proof.
  split; [vm_compute; reflexivity|].
  eexists _, _, _. split; [vm_compute; reflexivity|].
  repeat split.
Qed.

Lemma consume_rejected_signature_witness :
  verify_signature toy_esb (JStr "AAAA") (JDict bus_data) = Return false /\
  snd (consume (env_of (PostReturns (response_of 200 forged_reply)) 2000)
         toy_esb (JDict [("a", JInt 1)]) "CODE1" (world_of toy_esb))
  = Return {| success := false;
              requestId := Some 2%N;
              message := Some "Failed to consume from apiCode: CODE1";
              esbBody := JDict [];
              errors := [];
              validationErrors := [] |}.
Proof.
  split; [reflexivity|].
  exact (proj1 (consume_rejected_signature
                  (env_of (PostReturns (response_of 200 forged_reply)) 2000)
                  toy_esb toy_private_key (JDict [("a", JInt 1)]) "CODE1" (world_of toy_esb)
                  (response_of 200 forged_reply) forged_reply (JStr "AAAA") (JDict bus_data)
                  eq_refl eq_refl (conj (Zle_bool_imp_le 200 200 eq_refl)
                                        (Zle_bool_imp_le 200 299 eq_refl))
                  eq_refl eq_refl eq_refl eq_refl)).
Defined.

(** C9 as stated fails: the bus answers 200 with an envelope whose signature
    does not verify, and the message of the result is not
    ["Signature verification failed!"]. *)
Lemma rejected_signature_message_is_not_the_fixed_text :
  verify_signature toy_esb (JStr "AAAA") (JDict bus_data) = Return false /\
  option_map message
    (match snd (consume (env_of (PostReturns (response_of 200 forged_reply)) 2000)
                  toy_esb (JDict [("a", JInt 1)]) "CODE1" (world_of toy_esb)) with
     | Return d => Some d
     | Raise _ => None
     end)
  = Some (Some "Failed to consume from apiCode: CODE1") /\
  "Failed to consume from apiCode: CODE1" <> "Signature verification failed!".
Proof.
  split; [reflexivity|]. split; [vm_compute; reflexivity|]. discriminate.
Qed.

Lemma consume_raises_on_transport_failure_witness :
  snd (consume (env_of (PostRaises TransportError) 2000) toy_esb (JDict [("a", JInt 1)])
         "CODE1" (world_of toy_esb))
  = Raise (UnboundLocalError "response").
Proof.
  exact (consume_raises_on_transport_failure (env_of (PostRaises TransportError) 2000)
           toy_esb (JDict [("a", JInt 1)]) "CODE1" (world_of toy_esb) TransportError
           eq_refl eq_refl).
Defined.

(* ------------------------------------------------------------------ *)
(** ** The inbound acknowledgment *)

Section Acknowledge.

Variable env : Env.

(** The part of the signature gate that holds: for every inbound envelope
    whose signature [verify_signature] rejects over its data (it decodes and
    the public key refuses it), and with a private key loaded to sign the
    answer,
    [aconsume] returns the acknowledgment envelope whose data is
    [esbBody = {}], [success = False],
    [message = "Signature verification failed!"], signed over these data;
    the only effect is the audit record of the exchange, so the caller's
    [process_feedback] is not called, whatever it is. *)
Theorem aconsume_rejects_unverified (self : GovEsb) (sk : EllipticCurvePrivateKey)
    (req_body : list (str * json)) (process_feedback : json -> M (json * json * json))
    (w : World) :
  let data := match dict_lookup "data" req_body with
              | Some v => v
              | None => JDict []
              end in
  let signature := match dict_lookup "signature" req_body with
                   | Some v => v
                   | None => JNull
                   end in
  let ack :=
    JDict [("data", JDict rejection_data);
           ("signature",
            JStr (string_of_list_ascii
                    (b64encode
                       (sk_sign sk (entropy env (n_draws w))
                          (utf8_encode (trim_payload (JDict rejection_data)))))))] in
  private_key self = Some sk ->
  verify_signature self signature data = Return false ->
  aconsume env self (JDict req_body) process_feedback w
  = (log_event (EvLogGovesbCalls JNull ack data) (drawn env w), Return ack).
Proof.
  intros data signature ack Hsk Hbad.
  unfold aconsume.
  unfold bind at 1. cbn [lift py_get]. fold data.
  unfold bind at 1. cbn [lift py_get]. fold signature.
  unfold bind at 1. cbn [lift]. rewrite Hbad.
  unfold bind at 1. cbn [ret].
  unfold bind at 1.
  destruct (signed_envelope_returns env self sk (JDict []) JNull (JBool false)
              (JStr "Signature verification failed!") JNull JNull w Hsk)
    as (envelope & Henv & Hbuild).
  rewrite Henv.
  pose proof (build_esb_payload_returns self sk (entropy env (n_draws w)) (JDict []) JNull
                (JBool false) (JStr "Signature verification failed!") JNull JNull Hsk)
    as Hret.
  cbv zeta in Hret. rewrite Hret in Hbuild.
  injection Hbuild as <-.
  reflexivity.
Qed.

(** When the verification itself raises, so does [aconsume], and still
    nothing was done: [process_feedback] is called only after a signature
    was accepted. *)
Lemma aconsume_raises_with_verification (self : GovEsb) (req_body : list (str * json))
    (process_feedback : json -> M (json * json * json)) (w : World) (e : exn) :
  verify_signature self
    (match dict_lookup "signature" req_body with Some v => v | None => JNull end)
    (match dict_lookup "data" req_body with Some v => v | None => JDict [] end)
  = Raise e ->
  aconsume env self (JDict req_body) process_feedback w = (w, Raise e).
Proof.
  intros Hraise.
  unfold aconsume.
  unfold bind at 1. cbn [lift py_get].
  unfold bind at 1. cbn [lift py_get].
  unfold bind at 1. cbn [lift]. rewrite Hraise.
  reflexivity.
Qed.

(** C4, at the inputs where it fails: an inbound envelope whose signature
    cannot be decoded (text that is not well-padded base64, a value that is
    not text, or no [signature] at all) does not verify, and [aconsume]
    produces no acknowledgment for it: the exception of the decoding passes
    through [verify_signature] and through [aconsume] to the caller.
    Nothing else has happened by then: [process_feedback] was not called and
    nothing was logged. *)
Theorem aconsume_raises_on_undecodable_signature (self : GovEsb)
    (pk : EllipticCurvePublicKey) (req_body : list (str * json))
    (process_feedback : json -> M (json * json * json)) (w : World) (e : exn) :
  public_key self = Some pk ->
  b64decode (match dict_lookup "signature" req_body with Some v => v | None => JNull end)
  = Raise e ->
  aconsume env self (JDict req_body) process_feedback w = (w, Raise e).
Proof.
  intros Hpk Hdecode.
  apply aconsume_raises_with_verification.
  unfold verify_signature. rewrite Hpk, Hdecode.
  cbn [rbind try_except].
  rewrite (b64decode_raises_no_InvalidSignature _ _ Hdecode). reflexivity.
Qed.

End Acknowledge.

Lemma aconsume_raises_on_undecodable_signature_witness :
  b64decode (JStr "abc") = Raise (BinasciiError "Incorrect padding") /\
  aconsume (env_of (PostRaises TransportError) 2000) toy_esb
    (JDict [("data", JDict bus_data); ("signature", JStr "abc")])
    example_feedback (world_of toy_esb)
  = (world_of toy_esb, Raise (BinasciiError "Incorrect padding")).
Proof.
  split; [reflexivity|].
  exact (aconsume_raises_on_undecodable_signature
           (env_of (PostRaises TransportError) 2000) toy_esb toy_public_key
           [("data", JDict bus_data); ("signature", JStr "abc")]
           example_feedback (world_of toy_esb) (BinasciiError "Incorrect padding")
           eq_refl eq_refl).
Defined.

Lemma aconsume_rejects_unverified_witness :
  private_key toy_esb = Some toy_private_key /\
  verify_signature toy_esb (JStr "AAAA") (JDict bus_data) = Return false /\
  exists signature,
    snd (aconsume (env_of (PostRaises TransportError) 2000) toy_esb forged_reply
           example_feedback (world_of toy_esb))
    = Return (JDict [("data", JDict rejection_data); ("signature", JStr signature)]).
Proof.
  split; [reflexivity|]. split; [reflexivity|].
  eexists.
  exact (f_equal snd
           (aconsume_rejects_unverified (env_of (PostRaises TransportError) 2000) toy_esb
              toy_private_key [("data", JDict bus_data); ("signature", JStr "AAAA")]
              example_feedback (world_of toy_esb) eq_refl eq_refl)).
Defined.

(** An envelope that verifies is handed to [process_feedback], and its answer
    is what the acknowledgment carries. *)
Example aconsume_passes_verified_envelope_on :
  exists signature w',
    aconsume (env_of (PostRaises TransportError) 2000) toy_esb bus_reply example_feedback
      (world_of toy_esb)
    = (w', Return (JDict [("data", JDict [("esbBody", JDict [("a", JInt 1)]);
                                         ("success", JBool true);
                                         ("message", JStr "ok")]);
                          ("signature", JStr signature)]))
    /\ In (EvProcessFeedback (JDict [("a", JInt 1)])) (trace w').
Proof.
  eexists _, _. split; [vm_compute; reflexivity|].
  cbn. left. reflexivity.
Qed.

(* ------------------------------------------------------------------ *)
(** ** The token refresh *)

Section Refresh.

Variable env : Env.

(** The refresh succeeds: both attributes are written. *)
Lemma request_esb_token_installs (w : World) (self : GovEsb) (u : str)
    (response : Response) (data token expires_in : json) (until : float) :
  _instance w = Some self ->
  token_url self = Some u ->
  http_answer env (n_posts w) = PostReturns response ->
  200 <= status_code response <= 299 ->
  json_body response = Some data ->
  py_getitem data "access_token" = Return token ->
  py_getitem data "expires_in" = Return expires_in ->
  py_add (clock env (n_reads w)) expires_in = Return until ->
  exists w',
    request_esb_token env w = (w', Return true) /\
    _instance w' = Some (set_token_expiry (until - 60)%float (set_access_token token self)).
Proof.
  intros Hself Hurl Hnet Hstatus Hjson Htok Hexp Hadd.
  eexists. split.
  - unfold request_esb_token, try_Exception.
    unfold bind at 1. unfold self_ at 1. rewrite Hself.
    rewrite Hurl. unfold client_post.
    unfold bind at 1. unfold bind at 1. cbn [send log].
    unfold receive. cbn [log_event n_posts]. rewrite Hnet.
    unfold request_esb_token_rest, raise_for_status.
    replace ((200 <=? status_code response) && (status_code response <=? 299)) with true
      by (symmetry; apply andb_true_iff; split; apply Z.leb_le; lia).
    unfold bind at 1. cbn [ret].
    unfold bind at 1. unfold response_json. rewrite Hjson. cbn [ret].
    unfold bind at 1. cbn [lift]. rewrite Htok.
    unfold bind at 1. cbn [setattr].
    unfold bind at 1. cbn [time_time].
    unfold bind at 1. cbn [lift]. rewrite Hexp.
    unfold bind at 1. cbn [lift log_event _instance n_posts n_draws n_reads trace].
    rewrite Hadd.
    unfold bind at 1. cbn [setattr ret].
    reflexivity.
  - cbn. rewrite Hself. reflexivity.
Qed.

(** The refresh fails before the first write (the post raised, the status is
    not 2xx, the body is not JSON, or it has no [access_token]): the object is
    as it was. *)
Lemma request_esb_token_keeps_on_early_failure (w : World) :
  match http_answer env (n_posts w) with
  | PostRaises e => is_Exception e = true
  | PostReturns response =>
      ~ (200 <= status_code response <= 299) \/
      match json_body response with
      | None => True
      | Some data => exists e, py_getitem data "access_token" = Raise e
      end
  end ->
  exists w',
    request_esb_token env w = (w', Return false) /\
    _instance w' = _instance w.
Proof.
  intros Hearly.
  unfold request_esb_token, try_Exception.
  unfold bind at 1. unfold self_ at 1.
  destruct (_instance w) as [self|] eqn:Hself;
    [|eexists; split; [reflexivity | exact Hself]].
  destruct (token_url self) as [u|];
    [|eexists; split; [reflexivity | exact Hself]].
  unfold client_post.
  unfold bind at 1. unfold bind at 1. cbn [send log].
  unfold receive. cbn [log_event n_posts].
  destruct (http_answer env (n_posts w)) as [response|e].
  - unfold request_esb_token_rest, raise_for_status.
    destruct ((200 <=? status_code response) && (status_code response <=? 299)) eqn:Hst.
    + destruct Hearly as [Hno|Hjson].
      { exfalso. apply Hno. apply andb_true_iff in Hst as [H1 H2].
        apply Z.leb_le in H1, H2. lia. }
      unfold bind at 1. cbn [ret].
      unfold bind at 1. unfold response_json.
      destruct (json_body response) as [data|].
      * destruct Hjson as (e & He).
        cbn [ret]. unfold bind at 1. cbn [lift]. rewrite He.
        assert (is_Exception e = true) as ->.
        { revert He. unfold py_getitem. destruct data; try (intros [= <-]; reflexivity).
          destruct (dict_lookup "access_token" fields); [discriminate|].
          intros [= <-]. reflexivity. }
        eexists; split; [reflexivity | exact Hself].
      * eexists; split; [reflexivity | exact Hself].
    + eexists; split; [reflexivity | exact Hself].
  - rewrite Hearly. eexists; split; [reflexivity | exact Hself].
Qed.

(** Up to the suspension and from it on, put together, is the whole
    method. *)
Lemma request_esb_token_split (w : World) :
  request_esb_token env w
  = match request_esb_token_start w with
    | (w1, Return None) => request_esb_token_resume env w1
    | (w1, Return (Some b)) => (w1, Return b)
    | (w1, Raise e) => (w1, Raise e)
    end.
Proof.
  unfold request_esb_token, request_esb_token_start, request_esb_token_resume,
    try_Exception, client_post, token_request, bind, self_, send, log, ret, raise, receive.
  destruct (_instance w) as [self|]; [|reflexivity].
  destruct (token_url self) as [u|]; [|reflexivity].
  cbn [log_event n_posts is_Exception].
  destruct (http_answer env (n_posts w)) as [r|e]; reflexivity.
Qed.

End Refresh.

(** C7, at the input where it fails: the token endpoint answers 200 with a
    JSON object that has [access_token] but no [expires_in].  The refresh
    reports failure, and yet the stored token is no longer the one from
    before: [access_token] is the new one while [token_expiry] is the old
    one. *)
Theorem failed_refresh_overwrites_access_token :
  access_token toy_esb = JStr "T" /\
  token_expiry toy_esb = Some 1000%float /\
  snd (request_esb_token
         (env_of (PostReturns (response_of 200 token_reply_without_expiry)) 2000)
         (world_of toy_esb))
  = Return false /\
  option_map access_token
    (_instance (fst (request_esb_token
                       (env_of (PostReturns (response_of 200 token_reply_without_expiry))
                          2000)
                       (world_of toy_esb))))
  = Some (JStr "T2") /\
  option_map token_expiry
    (_instance (fst (request_esb_token
                       (env_of (PostReturns (response_of 200 token_reply_without_expiry))
                          2000)
                       (world_of toy_esb))))
  = Some (Some 1000%float).
Proof. repeat split. Qed.

(** The sum of the refresh is the sum of floats: whole seconds add up as
    they are, beyond 2**53 the result is rounded, and an [int] that does not
    fit a double raises. *)
Example py_add_seconds : py_add 2000 (JInt 3600) = Return 5600%float.
Proof. vm_compute. reflexivity. Qed.

Example py_add_rounds : py_add 9007199254740992 (JInt 1) = Return 9007199254740992%float.
Proof. vm_compute. reflexivity. Qed.

Example py_add_overflows :
  py_add 2000 (JInt (10 ^ 400)) = Raise (OverflowError "int too large to convert to float").
Proof. vm_compute. reflexivity. Qed.

(** An [expires_in] that does not fit a double ends the refresh as a missing
    one does: [False], with the new token already written and the old
    expiry kept. *)
Example failed_refresh_on_oversized_expires_in :
  snd (request_esb_token
         (env_of (PostReturns
                    (response_of 200 (JDict [("access_token", JStr "T2");
                                             ("expires_in", JInt (10 ^ 400))])))
            2000)
         (world_of toy_esb))
  = Return false /\
  option_map (fun self => (access_token self, token_expiry self))
    (_instance (fst (request_esb_token
                       (env_of (PostReturns
                                  (response_of 200 (JDict [("access_token", JStr "T2");
                                                           ("expires_in", JInt (10 ^ 400))])))
                          2000)
                       (world_of toy_esb))))
  = Some (JStr "T2", Some 1000%float).
Proof. split; vm_compute; reflexivity. Qed.

(* ------------------------------------------------------------------ *)
(** ** Callers of [get_instance] that overlap *)

Section Callers.

Variable env : Env.

Lemma turn_Done (r : result GovEsb) (w : World) : turn env (Done r) w = (w, Done r).
Proof. reflexivity. Qed.

(** The expiry phase and the turn after it do what the code does from the
    expiry test on. *)
Lemma expiry_phase_completes (w : World) :
  (let (w1, t1) := expiry_phase env w in turn env t1 w1)
  = finish (after_initialisation env) w.
Proof.
  unfold expiry_phase, after_initialisation, finish, bind.
  destruct (expiry_reached env w) as [w1 [[|]|e]]; cbn [turn ret raise].
  - rewrite request_esb_token_split.
    destruct (request_esb_token_start w1) as [w2 [[[|]|]|e]]; cbn [turn finish ret raise].
    + unfold finish. destruct (self_ w2) as [w3 r]. reflexivity.
    + reflexivity.
    + destruct (request_esb_token_resume env w2) as [w3 [[|]|e]]; cbn [ret raise].
      * unfold finish. reflexivity.
      * reflexivity.
      * reflexivity.
    + reflexivity.
  - unfold finish. destruct (self_ w1) as [w2 r]. reflexivity.
  - reflexivity.
Qed.

(** A caller that is never interrupted is [get_instance] as written. *)
Lemma run_alone_is_get_instance (w : World) :
  run_alone env w = finish (get_instance env) w.
Proof.
  unfold run_alone, get_instance.
  change (turn env Fresh w) with (start_phase env w).
  unfold start_phase.
  unfold bind at 1.
  fold (after_initialisation env).
  unfold finish at 1. cbv beta.
  destruct (_instance w) as [self|]; [|reflexivity].
  destruct (initialized self).
  - cbn [ret].
    pose proof (expiry_phase_completes w) as H.
    destruct (expiry_phase env w) as [w1 t1].
    destruct (turn env t1 w1) as [w2 t2] eqn:Ht.
    unfold finish in H. destruct (after_initialisation env w) as [w3 r].
    injection H as -> ->. reflexivity.
  - destruct (truthy_attr (client_id self) && truthy_attr (client_secret self)
              && truthy_attr (grant_type self) && truthy_attr (token_url self));
      [|reflexivity].
    unfold bind at 1. cbn [log].
    unfold bind at 1.
    rewrite request_esb_token_split.
    destruct (request_esb_token_start _) as [w1 [[[|]|]|e]]; cbn [ret raise turn].
    + pose proof (expiry_phase_completes w1) as H.
      destruct (expiry_phase env w1) as [w2 t2].
      destruct (turn env t2 w2) as [w3 t3] eqn:Ht.
      unfold finish in H. destruct (after_initialisation env w1) as [w4 r].
      injection H as -> ->. reflexivity.
    + reflexivity.
    + destruct (request_esb_token_resume env w1) as [w2 [[|]|e]]; cbn [ret raise].
      * pose proof (expiry_phase_completes w2) as H.
        destruct (expiry_phase env w2) as [w3 t3].
        unfold finish in H. destruct (after_initialisation env w2) as [w4 r].
        exact H.
      * reflexivity.
      * reflexivity.
    + reflexivity.
Qed.

(** A caller that finds the token expired sends a request and waits. *)
Lemma first_turn_when_expired (w : World) (self : GovEsb) (u : str) (t : float) :
  _instance w = Some self ->
  initialized self = true ->
  token_expiry self = Some t ->
  token_url self = Some u ->
  (t <=? clock env (n_reads w))%float = true ->
  turn env Fresh w = (asked self u w, AwaitRefresh).
Proof.
  intros Hself Hinit Hexp Hurl Hnow.
  cbn [turn]. unfold start_phase. rewrite Hself, Hinit.
  unfold expiry_phase, expiry_reached.
  unfold bind at 1. cbn [time_time].
  unfold bind at 1. unfold self_ at 1. cbn [_instance]. rewrite ?Hself, Hexp.
  cbn [ret].
  rewrite Hnow.
  unfold request_esb_token_start, try_Exception.
  unfold bind at 1. unfold self_ at 1. cbn [_instance]. rewrite ?Hself, Hurl.
  unfold bind, send, log, ret, asked.
  cbn [log_event _instance n_posts n_draws n_reads trace]. rewrite Hself.
  reflexivity.
Qed.

(** A caller that finds the token still valid returns at once, and sends
    nothing. *)
Lemma first_turn_when_valid (w : World) (self : GovEsb) (t : float) :
  _instance w = Some self ->
  initialized self = true ->
  token_expiry self = Some t ->
  (t <=? clock env (n_reads w))%float = false ->
  exists w',
    turn env Fresh w = (w', Done (Return self)) /\ trace w' = trace w.
Proof.
  intros Hself Hinit Hexp Hnow.
  eexists. split.
  - cbn [turn]. unfold start_phase. rewrite Hself, Hinit.
    unfold expiry_phase, expiry_reached.
    unfold bind at 1. cbn [time_time].
    unfold bind at 1. unfold self_ at 1. cbn [_instance]. rewrite ?Hself, Hexp.
    cbn [ret].
    rewrite Hnow.
    unfold finish, self_. cbn [_instance]. rewrite ?Hself. reflexivity.
  - reflexivity.
Qed.

Lemma turn_of_at (pre post : list Task) (t : Task) (w : World) :
  turn_of env (List.length pre) (pre ++ t :: post)%list w
  = (fst (turn env t w), (pre ++ snd (turn env t w) :: post)%list).
Proof.
  induction pre as [|p pre IH]; cbn [List.length app turn_of].
  - destruct (turn env t w). reflexivity.
  - rewrite IH. reflexivity.
Qed.

Lemma token_posts_asked (self : GovEsb) (u : str) (w : World) :
  token_posts u (trace (asked self u w)) = S (token_posts u (trace w)).
Proof.
  unfold token_posts, asked. cbn [trace].
  rewrite filter_app, length_app. cbn [filter is_token_post token_request url].
  rewrite String.eqb_refl. cbn [List.length]. lia.
Qed.

(** [k] callers in a row find the token expired: each sends its own
    request. *)
Lemma callers_in_a_row (self : GovEsb) (u : str) (t : float) :
  initialized self = true ->
  token_expiry self = Some t ->
  token_url self = Some u ->
  (forall i, (t <=? clock env i)%float = true) ->
  forall (k : nat) (pre : list Task) (w : World),
    _instance w = Some self ->
    snd (run_schedule env (seq (List.length pre) k) w (pre ++ repeat Fresh k)%list)
    = (pre ++ repeat AwaitRefresh k)%list /\
    token_posts u (trace (fst (run_schedule env (seq (List.length pre) k) w
                                 (pre ++ repeat Fresh k)%list)))
    = (token_posts u (trace w) + k)%nat.
Proof.
  intros Hinit Hexp Hurl Hclock.
  induction k as [|k IH]; intros pre w Hself.
  - cbn. split; [reflexivity | lia].
  - cbn [seq repeat run_schedule].
    rewrite turn_of_at.
    rewrite (first_turn_when_expired w self u t Hself Hinit Hexp Hurl (Hclock _)).
    cbn [fst snd].
    specialize (IH (pre ++ [AwaitRefresh])%list (asked self u w) Hself).
    rewrite length_app, <- app_assoc in IH. cbn [List.length app] in IH.
    replace (List.length pre + 1)%nat with (S (List.length pre)) in IH by lia.
    destruct IH as [IH1 IH2].
    rewrite IH1, IH2, token_posts_asked, <- app_assoc.
    split; [reflexivity | lia].
Qed.

(** C2, as the code has it: the refresh is not exclusive.  When [N] callers
    of [get_instance] on an initialised object each find the token expired
    ([time.time() >= token_expiry]) before any answer of the token endpoint
    has been processed, every one of them sends its own request: [N]
    requests go to the token endpoint for the one expiry, and all [N]
    callers wait for an answer. *)
Theorem every_overlapping_caller_refreshes (w : World) (self : GovEsb) (u : str) (t : float)
    (N : nat) :
  _instance w = Some self ->
  initialized self = true ->
  token_expiry self = Some t ->
  token_url self = Some u ->
  (forall i, (t <=? clock env i)%float = true) ->
  snd (run_schedule env (seq 0 N) w (repeat Fresh N)) = repeat AwaitRefresh N /\
  token_posts u (trace (fst (run_schedule env (seq 0 N) w (repeat Fresh N))))
  = (token_posts u (trace w) + N)%nat.
Proof.
  intros Hself Hinit Hexp Hurl Hclock.
  exact (callers_in_a_row self u t Hinit Hexp Hurl Hclock N [] w Hself).
Qed.

End Callers.

Lemma every_overlapping_caller_refreshes_witness :
  (forall i : nat,
      (1000 <=? clock (env_of (PostReturns (response_of 200 token_reply)) 2000) i)%float
      = true) /\
  snd (run_schedule (env_of (PostReturns (response_of 200 token_reply)) 2000)
         (seq 0 3) (world_of toy_esb) (repeat Fresh 3))
  = repeat AwaitRefresh 3 /\
  token_posts "https://esb.example/token"
    (trace (fst (run_schedule (env_of (PostReturns (response_of 200 token_reply)) 2000)
                   (seq 0 3) (world_of toy_esb) (repeat Fresh 3))))
  = 3%nat.
Proof.
  assert (Hclock : forall i : nat,
             (1000 <=? clock (env_of (PostReturns (response_of 200 token_reply)) 2000) i)%float
             = true)
    by (intros i; reflexivity).
  split; [exact Hclock|].
  exact (every_overlapping_caller_refreshes
           (env_of (PostReturns (response_of 200 token_reply)) 2000)
           (world_of toy_esb) toy_esb "https://esb.example/token" 1000 3
           eq_refl eq_refl eq_refl eq_refl Hclock).
Defined.

(** C2 as stated fails: two callers find the token expired, the event loop
    runs the second while the first waits for the token endpoint, and two
    requests reach the token endpoint for the one expiry; both callers then
    return. *)
Lemma two_callers_two_token_requests :
  token_posts "https://esb.example/token"
    (trace (fst (run_schedule (env_of (PostReturns (response_of 200 token_reply)) 2000)
                   [0; 1; 0; 1]%nat (world_of toy_esb) [Fresh; Fresh])))
  = 2%nat /\
  map is_Done
    (snd (run_schedule (env_of (PostReturns (response_of 200 token_reply)) 2000)
            [0; 1; 0; 1]%nat (world_of toy_esb) [Fresh; Fresh]))
  = [true; true].
Proof. split; vm_compute; reflexivity. Qed.

(** When the first caller is done before the second starts, the second finds
    the fresh token and one request is all there is. *)
Example two_callers_one_after_the_other :
  token_posts "https://esb.example/token"
    (trace (fst (run_schedule (env_of (PostReturns (response_of 200 token_reply)) 2000)
                   [0; 0; 1; 1]%nat (world_of toy_esb) [Fresh; Fresh])))
  = 1%nat /\
  map is_Done
    (snd (run_schedule (env_of (PostReturns (response_of 200 token_reply)) 2000)
            [0; 0; 1; 1]%nat (world_of toy_esb) [Fresh; Fresh]))
  = [true; true].
Proof. split; vm_compute; reflexivity. Qed.
(* ------------------------------------------------------------------ *)
(** ** The serialisation and the codec on examples *)
Local Open Scope string_scope.

Example dumps_envelope_data :
  trim_payload (JDict [("esbBody", JDict [("a", JInt 1); ("b", JList [JStr "x y"; JNull])]);
                       ("success", JBool false)])
  = "{" ++ dquote ++ "esbBody" ++ dquote ++ ":{" ++ dquote ++ "a" ++ dquote ++ ":1,"
        ++ dquote ++ "b" ++ dquote ++ ":[" ++ dquote ++ "x y" ++ dquote ++ ",null]},"
        ++ dquote ++ "success" ++ dquote ++ ":false}".
Proof. reflexivity. Qed.

Example dumps_escapes :
  dumps (JStr (String (ascii_of_N 10) (String (ascii_of_N 233) "a\")))
  = dquote ++ "\n\u00e9a\\" ++ dquote.
Proof. reflexivity. Qed.

Example dumps_negative : dumps (JList [JInt (-12); JInt 0]) = "[-12,0]".
Proof. reflexivity. Qed.

Example b64encode_Man :
  string_of_list_ascii (b64encode (list_ascii_of_string "Many hands")) = "TWFueSBoYW5kcw==".
Proof. reflexivity. Qed.

Example b64decode_Man :
  b64decode (JStr "TWFueSBoYW5kcw==") = Return (list_ascii_of_string "Many hands").
Proof. reflexivity. Qed.

Example b64decode_skips_foreign_characters :
  b64decode (JStr "TW Fu
eQ==") = Return (list_ascii_of_string "Many").
Proof. reflexivity. Qed.

Example b64decode_incorrect_padding :
  b64decode (JStr "abc") = Raise (BinasciiError "Incorrect padding").
Proof. reflexivity. Qed.

Example b64decode_None :
  b64decode JNull
  = Raise (TypeError "argument should be a bytes-like object or ASCII string").
Proof. reflexivity. Qed.

(* ================================================================== *)
(** * Further properties of the class *)

Local Open Scope Z_scope.

(* ------------------------------------------------------------------ *)
(** ** What the serialisations write *)

(** Induction on a value, its items and field values included. *)
Lemma json_nested_ind (P : json -> Prop) :
  P JNull ->
  (forall b, P (JBool b)) ->
  (forall n, P (JInt n)) ->
  (forall s, P (JStr s)) ->
  (forall items, Forall P items -> P (JList items)) ->
  (forall fields, Forall (fun kv => P (snd kv)) fields -> P (JDict fields)) ->
  forall v, P v.
Proof.
  intros HNull HBool HInt HStr HList HDict.
  fix IH 1.
  intros [| b | n | s | items | fields].
  - exact HNull.
  - apply HBool.
  - apply HInt.
  - apply HStr.
  - apply HList.
    induction items as [|x items IHitems]; constructor; [apply IH | exact IHitems].
  - apply HDict.
    induction fields as [|[k x] fields IHfields]; constructor; [apply IH | exact IHfields].
Qed.

Lemma all_printable_app (a b : string) :
  all_printable (a ++ b) = all_printable a && all_printable b.
Proof.
  induction a as [|c a IH]; cbn [append all_printable]; [reflexivity|].
  rewrite IH. apply andb_assoc.
Qed.

Lemma all_printable_uint (d : Decimal.uint) :
  all_printable (NilEmpty.string_of_uint d) = true.
Proof. induction d; cbn; auto. Qed.

Lemma all_printable_repr_int (n : Z) : all_printable (repr_int n) = true.
Proof.
  unfold repr_int, NilZero.string_of_int.
  destruct (Z.to_int n) as [d|d]; cbn [all_printable].
  - unfold NilZero.string_of_uint. destruct d; try reflexivity;
      apply (all_printable_uint (_ d)).
  - unfold NilZero.string_of_uint. destruct d; try reflexivity;
      apply (all_printable_uint (_ d)).
Qed.

Lemma all_printable_escape_char (c : ascii) : all_printable (escape_char c) = true.
Proof. destruct c as [[|] [|] [|] [|] [|] [|] [|] [|]]; reflexivity. Qed.

Lemma all_printable_escape_chars (s : str) : all_printable (escape_chars s) = true.
Proof.
  induction s as [|c s IH]; cbn [escape_chars]; [reflexivity|].
  now rewrite all_printable_app, all_printable_escape_char, IH.
Qed.

Lemma all_printable_encode_basestring_ascii (s : str) :
  all_printable (encode_basestring_ascii s) = true.
Proof.
  unfold encode_basestring_ascii, quoted.
  now rewrite !all_printable_app, all_printable_escape_chars.
Qed.

Lemma all_printable_join (parts : list string) :
  Forall (fun p => all_printable p = true) parts ->
  all_printable (join "," parts) = true.
Proof.
  induction 1 as [|p parts Hp Hparts IH]; [reflexivity|].
  destruct parts as [|q parts]; cbn [join]; [exact Hp|].
  rewrite !all_printable_app, Hp. exact IH.
Qed.

Lemma all_printable_dumps (v : json) : all_printable (dumps v) = true.
Proof.
  induction v as [| b | n | s | items IH | fields IH] using json_nested_ind.
  - reflexivity.
  - destruct b; reflexivity.
  - apply all_printable_repr_int.
  - apply all_printable_encode_basestring_ascii.
  - cbn [dumps]. rewrite !all_printable_app, all_printable_join; [reflexivity|].
    induction IH; constructor; assumption.
  - cbn [dumps]. rewrite !all_printable_app, all_printable_join; [reflexivity|].
    induction IH as [|[k x] fields Hx Hfields IHf]; constructor; [|exact IHf].
    cbn [fst snd] in *.
    now rewrite !all_printable_app, all_printable_encode_basestring_ascii, Hx.
Qed.

Lemma utf8_encode_printable (s : string) :
  all_printable s = true -> utf8_encode s = list_ascii_of_string s.
Proof.
  induction s as [|c s IH]; cbn [all_printable utf8_encode list_ascii_of_string];
    [reflexivity|].
  intros H. apply andb_true_iff in H as [Hc Hs].
  rewrite (IH Hs). unfold utf8_encode_char.
  replace (N_of_ascii c <? 128)%N with true; [reflexivity|].
  symmetry. apply N.ltb_lt.
  unfold printable in Hc. apply andb_true_iff in Hc as [_ Hc].
  apply N.leb_le in Hc. lia.
Qed.

(** X1: the text that [trim_payload] writes holds only characters from the
    space to the tilde, whatever the payload: no line break, no control
    character, nothing beyond ASCII.  The bytes that are signed are
    therefore this text, one octet per character. *)
Theorem trim_payload_is_printable_ascii (payload : json) :
  all_printable (trim_payload payload) = true /\
  utf8_encode (trim_payload payload) = list_ascii_of_string (trim_payload payload).
Proof.
  split.
  - apply all_printable_dumps.
  - apply utf8_encode_printable, all_printable_dumps.
Qed.

Lemma escape_char_raw_plain (c : ascii) :
  (N_of_ascii c <=? 126)%N = true -> escape_char_raw c = escape_char c.
Proof.
  destruct c as [[|] [|] [|] [|] [|] [|] [|] [|]]; intros H;
    first [reflexivity | discriminate H].
Qed.

Lemma escape_chars_raw_plain (s : str) :
  forallb (fun c => (N_of_ascii c <=? 126)%N) (list_ascii_of_string s) = true ->
  escape_chars_raw s = escape_chars s.
Proof.
  induction s as [|c s IH]; cbn [list_ascii_of_string forallb escape_chars_raw escape_chars];
    [reflexivity|].
  intros H. apply andb_true_iff in H as [Hc Hs].
  now rewrite (escape_char_raw_plain c Hc), (IH Hs).
Qed.

Lemma json_encode_plain (v : json) : plain v = true -> json_encode v = dumps v.
Proof.
  induction v as [| b | n | s | items IH | fields IH] using json_nested_ind;
    cbn [plain json_encode dumps]; intros Hplain; try reflexivity.
  - unfold encode_basestring, encode_basestring_ascii.
    now rewrite escape_chars_raw_plain.
  - assert (Hmap : map json_encode items = map dumps items).
    { induction IH as [|x items Hx Hitems IHi]; [reflexivity|].
      cbn [forallb] in Hplain. apply andb_true_iff in Hplain as [H1 H2].
      cbn [map]. now rewrite (Hx H1), (IHi H2). }
    now rewrite Hmap.
  - assert (Hmap : map (fun kv => encode_basestring (fst kv) ++ ":" ++ json_encode (snd kv))
                     fields
                   = map (fun kv => encode_basestring_ascii (fst kv) ++ ":" ++ dumps (snd kv))
                       fields).
    { induction IH as [|[k x] fields Hx Hfields IHf]; [reflexivity|].
      cbn [forallb fst snd] in *. apply andb_true_iff in Hplain as [H1 H2].
      apply andb_true_iff in H1 as [Hk Hv].
      cbn [map fst snd].
      unfold encode_basestring at 1, encode_basestring_ascii at 1.
      now rewrite (escape_chars_raw_plain k Hk), (Hx Hv), (IHf H2). }
    now rewrite Hmap.
Qed.

(** X2: [json_encode] and [trim_payload] write the same text for every
    payload whose strings and keys use characters up to the tilde only. *)
Theorem json_encode_agrees_on_plain_payloads (payload : json) :
  plain payload = true ->
  json_encode payload = trim_payload payload.
Proof. exact (json_encode_plain payload). Qed.

Lemma json_encode_agrees_on_plain_payloads_witness :
  plain (JDict [("esbBody", JList [JStr "x y"; JInt (-3); JNull])]) = true /\
  json_encode (JDict [("esbBody", JList [JStr "x y"; JInt (-3); JNull])])
  = trim_payload (JDict [("esbBody", JList [JStr "x y"; JInt (-3); JNull])]).
Proof.
  split; [reflexivity|].
  exact (json_encode_agrees_on_plain_payloads
           (JDict [("esbBody", JList [JStr "x y"; JInt (-3); JNull])]) eq_refl).
Defined.

(** They part on any character beyond the tilde: [json_encode] writes the
    character itself, [trim_payload] its escape. *)
Lemma json_encode_keeps_what_trim_payload_escapes (c : ascii) :
  (126 < N_of_ascii c)%N ->
  json_encode (JStr (String c "")) = quoted (String c "") /\
  trim_payload (JStr (String c "")) = quoted (escape_u c).
Proof.
  intros H. apply N.ltb_lt in H. revert H.
  destruct c as [[|] [|] [|] [|] [|] [|] [|] [|]]; intros H;
    first [discriminate H | split; reflexivity].
Qed.

(* ------------------------------------------------------------------ *)
(** ** The Basic header and the signed envelope *)

(** X3: [basic_auth_header] never fails; it returns [Content-Type] and
    [Authorization], and what follows ["Basic "] in the latter is base64
    text that decodes to the UTF-8 bytes of [client_id:client_secret]. *)
Theorem basic_auth_header_carries_the_credentials (self : GovEsb) :
  exists token,
    basic_auth_header self
    = Return [("Content-Type", "application/x-www-form-urlencoded");
              ("Authorization", "Basic " ++ token)] /\
    b64decode (JStr token)
    = Return (utf8_encode (fmt (client_id self) ++ ":" ++ fmt (client_secret self))).
Proof.
  eexists. split.
  - unfold basic_auth_header, ascii_decode.
    rewrite b64encode_ascii. reflexivity.
  - apply b64decode_text.
Qed.

(** X4: with a matching key pair loaded, every envelope that
    [build_esb_payload] returns passes [verify_signature]: its [signature]
    verifies over its [data]. *)
Theorem built_envelope_verifies (self : GovEsb) (sk : EllipticCurvePrivateKey)
    (pk : EllipticCurvePublicKey) (nonce : N)
    (payload api_code success_ message_ errors_ validation_errors : json) :
  private_key self = Some sk ->
  public_key self = Some pk ->
  matching_pair sk pk ->
  exists data signature,
    build_esb_payload self nonce payload api_code success_ message_ errors_ validation_errors
    = Return (JDict [("data", data); ("signature", signature)]) /\
    verify_signature self signature data = Return true.
Proof.
  intros Hsk Hpk Hpair.
  eexists _, _. split.
  - exact (build_esb_payload_returns self sk nonce payload api_code success_ message_
             errors_ validation_errors Hsk).
  - unfold verify_signature. rewrite Hpk, b64decode_text.
    cbn [rbind]. rewrite Hpair. reflexivity.
Qed.

Lemma built_envelope_verifies_witness :
  matching_pair toy_private_key toy_public_key /\
  exists data signature,
    build_esb_payload toy_esb 5 (JDict [("a", JInt 1)]) (JStr "CODE1") JNull JNull JNull JNull
    = Return (JDict [("data", data); ("signature", signature)]) /\
    verify_signature toy_esb signature data = Return true.
Proof.
  split; [exact toy_pair_matches|].
  exact (built_envelope_verifies toy_esb toy_private_key toy_public_key 5
           (JDict [("a", JInt 1)]) (JStr "CODE1") JNull JNull JNull JNull
           eq_refl eq_refl toy_pair_matches).
Defined.

(* ------------------------------------------------------------------ *)
(** ** The token request, world and all *)

Section TokenRequest.

Variable env : Env.

(** The refresh that succeeds, with the world it leaves. *)
Lemma refresh_success_world (w : World) (self : GovEsb) (u : str)
    (response : Response) (data token expires_in : json) (until : float) :
  _instance w = Some self ->
  token_url self = Some u ->
  http_answer env (n_posts w) = PostReturns response ->
  200 <= status_code response <= 299 ->
  json_body response = Some data ->
  py_getitem data "access_token" = Return token ->
  py_getitem data "expires_in" = Return expires_in ->
  py_add (clock env (n_reads w)) expires_in = Return until ->
  request_esb_token env w
  = (refreshed self u w true []
       (Some (set_token_expiry (until - 60)%float (set_access_token token self))),
     Return true).
Proof.
  intros Hself Hurl Hnet Hstatus Hjson Htok Hexp Hadd.
  unfold request_esb_token, try_Exception.
  unfold bind at 1. unfold self_ at 1. rewrite Hself.
  rewrite Hurl. unfold client_post.
  unfold bind at 1. unfold bind at 1. cbn [send log].
  unfold receive. cbn [log_event n_posts]. rewrite Hnet.
  unfold request_esb_token_rest, raise_for_status.
  replace ((200 <=? status_code response) && (status_code response <=? 299)) with true
    by (symmetry; apply andb_true_iff; split; apply Z.leb_le; lia).
  unfold bind at 1. cbn [ret].
  unfold bind at 1. unfold response_json. rewrite Hjson. cbn [ret].
  unfold bind at 1. cbn [lift]. rewrite Htok.
  unfold bind at 1. cbn [setattr].
  unfold bind at 1. cbn [time_time].
  unfold bind at 1. cbn [lift]. rewrite Hexp.
  unfold bind at 1. cbn [lift log_event _instance n_posts n_draws n_reads trace].
  rewrite Hadd.
  unfold bind at 1. cbn [setattr ret _instance n_posts n_draws n_reads trace].
  unfold refreshed, token_request. rewrite ?Hself. reflexivity.
Qed.

(** X5: when the token endpoint answers with a 2xx status and a JSON object
    that has [access_token] and an [expires_in] that Python adds to the
    clock reading (an [int] that fits a [float], or a [bool]),
    [request_esb_token] sends one request (Basic credentials, the three form
    fields, the configured timeout), returns [True] and leaves the object
    with the new token and [token_expiry = time.time() + expires_in - 60],
    computed as floats are; nothing is logged. *)
Theorem request_esb_token_stores_token_and_margin (w : World) (self : GovEsb) (u : str)
    (response : Response) (data token expires_in : json) (until : float) :
  _instance w = Some self ->
  token_url self = Some u ->
  http_answer env (n_posts w) = PostReturns response ->
  200 <= status_code response <= 299 ->
  json_body response = Some data ->
  py_getitem data "access_token" = Return token ->
  py_getitem data "expires_in" = Return expires_in ->
  py_add (clock env (n_reads w)) expires_in = Return until ->
  request_esb_token env w
  = (refreshed self u w true []
       (Some (set_token_expiry (until - 60)%float (set_access_token token self))),
     Return true).
Proof. exact (refresh_success_world w self u response data token expires_in until). Qed.

Ltac finish_refresh :=
  cbn; unfold ret, log_event; cbn [_instance n_posts n_draws n_reads trace];
  rewrite <- app_assoc;
  repeat match goal with H : _instance _ = Some _ |- _ => rewrite ?H; clear H end;
  reflexivity.

(** The refresh that fails before it writes, with the world it leaves. *)
Lemma refresh_failure_world (w : World) (self : GovEsb) (u : str) :
  _instance w = Some self ->
  token_url self = Some u ->
  fails_early (http_answer env (n_posts w)) ->
  exists e,
    request_esb_token env w
    = (refreshed self u w false [EvLogException (FailedToGetToken e)] (Some self),
       Return false).
Proof.
  intros Hself Hurl Hearly.
  unfold request_esb_token, try_Exception.
  unfold bind at 1. unfold self_ at 1. rewrite Hself, Hurl.
  unfold client_post.
  unfold bind at 1. unfold bind at 1. cbn [send log].
  unfold receive. cbn [log_event n_posts].
  unfold fails_early in Hearly.
  unfold refreshed, token_request.
  destruct (http_answer env (n_posts w)) as [response|e].
  - unfold request_esb_token_rest, raise_for_status.
    destruct ((200 <=? status_code response) && (status_code response <=? 299)) eqn:Hst.
    + destruct Hearly as [Hno|Hjson].
      { exfalso. apply Hno. apply andb_true_iff in Hst as [H1 H2].
        apply Z.leb_le in H1, H2. lia. }
      unfold bind at 1. cbn [ret].
      unfold bind at 1. unfold response_json.
      destruct (json_body response) as [data|].
      * destruct Hjson as (e & He).
        cbn [ret]. unfold bind at 1. cbn [lift]. rewrite He.
        rewrite (py_getitem_raises_Exception _ _ _ He).
        exists e. finish_refresh.
      * eexists. finish_refresh.
    + eexists. finish_refresh.
  - rewrite Hearly. exists e. finish_refresh.
Qed.

(** X6: when the post raises, the status is not 2xx, the body is not JSON or
    it has no [access_token], [request_esb_token] returns [False], logs the
    exception, and leaves the object exactly as it was. *)
Theorem request_esb_token_fails_without_writing (w : World) (self : GovEsb) (u : str) :
  _instance w = Some self ->
  token_url self = Some u ->
  fails_early (http_answer env (n_posts w)) ->
  exists e,
    request_esb_token env w
    = (refreshed self u w false [EvLogException (FailedToGetToken e)] (Some self),
       Return false).
Proof. exact (refresh_failure_world w self u). Qed.

Lemma py_add_raises_Exception (a : float) (b : json) (e : exn) :
  py_add a b = Raise e -> is_Exception e = true.
Proof.
  unfold py_add.
  destruct b as [| [|] | n | | |]; try (intros [= <-]; reflexivity); try discriminate.
  destruct (is_infinity (float_of_int n)); [intros [= <-]; reflexivity | discriminate].
Qed.

Lemma request_esb_token_rest_raises_Exception (response : Response) (w : World) (e : exn) :
  snd (request_esb_token_rest env response w) = Raise e -> is_Exception e = true.
Proof.
  unfold request_esb_token_rest, raise_for_status, response_json.
  destruct ((200 <=? status_code response) && (status_code response <=? 299));
    [|intros [= <-]; reflexivity].
  unfold bind at 1. cbn [ret]. unfold bind at 1.
  destruct (json_body response) as [data|]; [|intros [= <-]; reflexivity].
  cbn [ret]. unfold bind at 1. cbn [lift].
  destruct (py_getitem data "access_token") as [token|e1] eqn:H1;
    [|intros [= <-]; exact (py_getitem_raises_Exception _ _ _ H1)].
  unfold bind at 1. cbn [setattr].
  unfold bind at 1. cbn [time_time].
  unfold bind at 1. cbn [lift].
  destruct (py_getitem data "expires_in") as [expires_in|e2] eqn:H2;
    [|intros [= <-]; exact (py_getitem_raises_Exception _ _ _ H2)].
  unfold bind at 1. cbn [lift].
  destruct (py_add _ expires_in) as [until|e3] eqn:H3;
    [|intros [= <-]; exact (py_add_raises_Exception _ _ _ H3)].
  discriminate.
Qed.

(** X7: [request_esb_token] never raises an [Exception]: it returns a
    boolean, and the one thing that passes through it is an exception outside
    [Exception] raised by the post itself (a cancellation of the task). *)
Theorem request_esb_token_raises_no_Exception (w : World) :
  match snd (request_esb_token env w) with
  | Return _ => True
  | Raise e => is_Exception e = false /\ http_answer env (n_posts w) = PostRaises e
  end.
Proof.
  unfold request_esb_token, try_Exception.
  unfold bind at 1. unfold self_ at 1.
  destruct (_instance w) as [self|]; [|exact I].
  destruct (token_url self) as [u|]; [|exact I].
  unfold client_post.
  unfold bind at 1. unfold bind at 1. cbn [send log].
  unfold receive. cbn [log_event n_posts].
  destruct (http_answer env (n_posts w)) as [response|e].
  - pose proof (request_esb_token_rest_raises_Exception response) as Hrest.
    match goal with
    | |- context [request_esb_token_rest env response ?w1] =>
        specialize (Hrest w1); destruct (request_esb_token_rest env response w1) as [w2 [b|e]]
    end.
    + exact I.
    + cbn [snd] in Hrest. rewrite (Hrest e eq_refl). exact I.
  - destruct (is_Exception e) eqn:He; [exact I|]. cbn. auto.
Qed.

End TokenRequest.

Lemma request_esb_token_stores_token_and_margin_witness :
  request_esb_token (env_of (PostReturns (response_of 200 token_reply)) 2000)
    (world_of toy_esb)
  = (refreshed toy_esb "https://esb.example/token" (world_of toy_esb) true []
       (Some (set_token_expiry (5600 - 60)%float (set_access_token (JStr "T2") toy_esb))),
     Return true).
Proof.
  exact (request_esb_token_stores_token_and_margin
           (env_of (PostReturns (response_of 200 token_reply)) 2000)
           (world_of toy_esb) toy_esb "https://esb.example/token"
           (response_of 200 token_reply) token_reply (JStr "T2") (JInt 3600) 5600
           eq_refl eq_refl eq_refl
           (conj (Zle_bool_imp_le 200 200 eq_refl) (Zle_bool_imp_le 200 299 eq_refl))
           eq_refl eq_refl eq_refl eq_refl).
Defined.

Lemma request_esb_token_fails_without_writing_witness :
  fails_early (PostReturns (response_of 503 JNull)) /\
  exists e,
    request_esb_token (env_of (PostReturns (response_of 503 JNull)) 2000) (world_of toy_esb)
    = (refreshed toy_esb "https://esb.example/token" (world_of toy_esb) false
         [EvLogException (FailedToGetToken e)] (Some toy_esb),
       Return false).
Proof.
  assert (H : fails_early (PostReturns (response_of 503 JNull)))
    by (left; cbn; lia).
  split; [exact H|].
  exact (request_esb_token_fails_without_writing
           (env_of (PostReturns (response_of 503 JNull)) 2000)
           (world_of toy_esb) toy_esb "https://esb.example/token" eq_refl eq_refl H).
Defined.

(* ------------------------------------------------------------------ *)
(** ** [get_instance], call by call *)

Section Growth.

Variable env : Env.

Lemma grows_refl (w : World) : grows w w.
Proof. exists []. symmetry. apply app_nil_r. Qed.

Lemma grows_same_trace (w w' : World) : trace w' = trace w -> grows w w'.
Proof. intros H. exists []. rewrite H. symmetry. apply app_nil_r. Qed.

Lemma grows_trans (w1 w2 w3 : World) : grows w1 w2 -> grows w2 w3 -> grows w1 w3.
Proof.
  intros (a & Ha) (b & Hb). exists (a ++ b)%list.
  rewrite Hb, Ha. symmetry. apply app_assoc.
Qed.

Lemma growing_ret {A} (a : A) : growing (ret a).
Proof. intros w. apply grows_refl. Qed.

Lemma growing_raise {A} (e : exn) : growing (@raise A e).
Proof. intros w. apply grows_refl. Qed.

Lemma growing_lift {A} (r : result A) : growing (lift r).
Proof. intros w. apply grows_refl. Qed.

Lemma growing_log (ev : Event) : growing (log ev).
Proof. intros w. exists [ev]. reflexivity. Qed.

Lemma growing_setattr (f : GovEsb -> GovEsb) : growing (setattr f).
Proof. intros w. apply grows_same_trace. reflexivity. Qed.

Lemma growing_time_time : growing (time_time env).
Proof. intros w. apply grows_same_trace. reflexivity. Qed.

Lemma growing_receive : growing (receive env).
Proof. intros w. apply grows_same_trace. reflexivity. Qed.

Lemma growing_self_ : growing self_.
Proof. intros w. unfold self_. destruct (_instance w); apply grows_refl. Qed.

Lemma growing_bind {A B} (m : M A) (k : A -> M B) :
  growing m -> (forall a, growing (k a)) -> growing (bind m k).
Proof.
  intros Hm Hk w. unfold bind.
  specialize (Hm w).
  destruct (m w) as [w1 [a|e]]; cbn [fst] in *.
  - eapply grows_trans; [exact Hm | apply Hk].
  - exact Hm.
Qed.

Lemma growing_try_Exception {A} (body : M A) (handler : exn -> M A) :
  growing body -> (forall e, growing (handler e)) -> growing (try_Exception body handler).
Proof.
  intros Hb Hh w. unfold try_Exception.
  specialize (Hb w).
  destruct (body w) as [w1 [a|e]]; cbn [fst] in *; [exact Hb|].
  destruct (is_Exception e); [|exact Hb].
  eapply grows_trans; [exact Hb | apply Hh].
Qed.

(** Splits a computation into its primitive steps, each of them growing. *)
Ltac grow :=
  repeat first
    [ apply growing_ret
    | apply growing_raise
    | apply growing_lift
    | apply growing_log
    | apply growing_setattr
    | apply growing_time_time
    | apply growing_receive
    | apply growing_self_
    | apply growing_bind; [|intros]
    | apply growing_try_Exception; [|intros]
    | match goal with
      | |- growing (if ?b then _ else _) => destruct b
      | |- growing (match ?x with _ => _ end) => destruct x
      end ].

Lemma growing_request_esb_token_resume : growing (request_esb_token_resume env).
Proof.
  unfold request_esb_token_resume, request_esb_token_rest, request_esb_token_except,
    raise_for_status, response_json.
  grow.
Qed.

Lemma growing_after_initialisation : growing (after_initialisation env).
Proof.
  unfold after_initialisation, expiry_reached, request_esb_token, request_esb_token_rest,
    request_esb_token_except, client_post, send, raise_for_status, response_json.
  grow.
Qed.

(** On an object that is configured and not initialised, [get_instance]
    begins with the warning and a request to the token endpoint, whatever
    comes after. *)
Lemma get_instance_retry_asks (w : World) (self : GovEsb) (u : str) :
  _instance w = Some self ->
  initialized self = false ->
  truthy_attr (client_id self) = true ->
  truthy_attr (client_secret self) = true ->
  truthy_attr (grant_type self) = true ->
  truthy_attr (token_url self) = true ->
  token_url self = Some u ->
  exists later,
    trace (fst (get_instance env w))
    = (trace w
       ++ EvLogWarning "GovESB service not initialized. Retrying initialization ..."
       :: EvPost (token_request self u) :: later)%list.
Proof.
  intros Hself Hinit H1 H2 H3 H4 Hurl.
  set (w_post := log_event (EvPost (token_request self u))
                   (log_event (EvLogWarning "GovESB service not initialized. Retrying initialization ...") w)).
  assert (Hrun : get_instance env w
                 = (ok <- request_esb_token_resume env ;;
                    (if ok then ret tt else raise not_initialized) ;;;
                    after_initialisation env)%monad w_post).
  { unfold get_instance, after_initialisation.
    unfold bind at 1. rewrite Hself, Hinit, H1, H2, H3, H4. cbn [andb].
    unfold bind at 1. cbn [log].
    unfold bind at 1. rewrite request_esb_token_split.
    unfold request_esb_token_start, try_Exception.
    unfold bind at 1. unfold self_ at 1. cbn [log_event _instance]. rewrite Hself, Hurl.
    unfold bind at 1. cbn [send log ret].
    fold w_post.
    unfold bind at 3. unfold bind at 3.
    destruct (request_esb_token_resume env w_post) as [w1 [[|]|e]]; reflexivity. }
  rewrite Hrun.
  assert (Hgrow : growing (ok <- request_esb_token_resume env ;;
                           (if ok then ret tt else raise not_initialized) ;;;
                           after_initialisation env)%monad).
  { apply growing_bind; [apply growing_request_esb_token_resume|].
    intros ok. apply growing_bind; [destruct ok; [apply growing_ret | apply growing_raise]|].
    intros _. apply growing_after_initialisation. }
  destruct (Hgrow w_post) as (later & Hlater).
  exists later. rewrite Hlater.
  unfold w_post. cbn [log_event trace].
  rewrite <- !app_assoc. reflexivity.
Qed.

End Growth.

Section GetInstance.

Variable env : Env.

(** The call that finds a valid token, with the world it leaves. *)
Lemma valid_token_world (w : World) (self : GovEsb) (t : float) :
  _instance w = Some self ->
  initialized self = true ->
  token_expiry self = Some t ->
  (t <=? clock env (n_reads w))%float = false ->
  get_instance env w = (fst (time_time env w), Return self).
Proof.
  intros Hself Hinit Hexp Hnow.
  unfold get_instance.
  unfold bind at 1. rewrite Hself, Hinit. cbn [ret].
  unfold bind at 1. unfold expiry_reached.
  unfold bind at 1. cbn [time_time fst].
  unfold bind at 1. unfold self_ at 1. cbn [_instance]. rewrite ?Hself, Hexp.
  cbn [ret].
  rewrite Hnow.
  unfold bind at 1. cbn [ret].
  unfold self_. cbn [_instance]. rewrite ?Hself. reflexivity.
Qed.

(** X8: on an initialised object whose token has not expired
    ([time.time() >= token_expiry] is false), [get_instance] returns the
    object after one reading of the clock: no request, no log, no write. *)
Theorem get_instance_with_valid_token (w : World) (self : GovEsb) (t : float) :
  _instance w = Some self ->
  initialized self = true ->
  token_expiry self = Some t ->
  (t <=? clock env (n_reads w))%float = false ->
  get_instance env w = (fst (time_time env w), Return self).
Proof. exact (valid_token_world w self t). Qed.

(** X9: on an initialised object whose token has expired
    ([time.time() >= token_expiry]), and with the token endpoint answering
    well, [get_instance] makes exactly one request and returns the object
    with the new token and expiry.  The new expiry is not tested again. *)
Theorem get_instance_refreshes_expired_token (w : World) (self : GovEsb) (u : str) (t : float)
    (response : Response) (data token expires_in : json) (until : float) :
  _instance w = Some self ->
  initialized self = true ->
  token_expiry self = Some t ->
  (t <=? clock env (n_reads w))%float = true ->
  token_url self = Some u ->
  http_answer env (n_posts w) = PostReturns response ->
  200 <= status_code response <= 299 ->
  json_body response = Some data ->
  py_getitem data "access_token" = Return token ->
  py_getitem data "expires_in" = Return expires_in ->
  py_add (clock env (S (n_reads w))) expires_in = Return until ->
  get_instance env w
  = (refreshed self u (fst (time_time env w)) true []
       (Some (set_token_expiry (until - 60)%float (set_access_token token self))),
     Return (set_token_expiry (until - 60)%float (set_access_token token self))).
Proof.
  intros Hself Hinit Hexp Hnow Hurl Hnet Hstatus Hjson Htok Hexpin Hadd.
  unfold get_instance.
  unfold bind at 1. rewrite Hself, Hinit. cbn [ret].
  unfold bind at 1. unfold expiry_reached.
  unfold bind at 1. cbn [time_time fst].
  unfold bind at 1. unfold self_ at 1. cbn [_instance]. rewrite ?Hself, Hexp.
  cbn [ret].
  rewrite Hnow.
  unfold bind at 1. unfold bind at 1.
  pose proof (refresh_success_world env (fst (time_time env w)) self u response data token
                expires_in until Hself Hurl Hnet Hstatus Hjson Htok Hexpin Hadd) as Hreq.
  cbn [time_time fst] in Hreq. rewrite ?Hself in Hreq. rewrite Hreq.
  cbn [ret]. unfold self_, refreshed. cbn [_instance]. reflexivity.
Qed.

(** X10: on an initialised object whose token has expired, when the refresh
    fails (the post raises, the status is not 2xx, the body is not JSON or
    has no [access_token]), [get_instance] raises
    [Exception("GovEsb token expired. Retry to update")] and the object keeps
    its old token. *)
Theorem get_instance_raises_when_refresh_fails (w : World) (self : GovEsb) (u : str) (t : float) :
  _instance w = Some self ->
  initialized self = true ->
  token_expiry self = Some t ->
  (t <=? clock env (n_reads w))%float = true ->
  token_url self = Some u ->
  fails_early (http_answer env (n_posts w)) ->
  exists e,
    get_instance env w
    = (refreshed self u (fst (time_time env w)) false
         [EvLogException (FailedToGetToken e)] (Some self),
       Raise token_expired).
Proof.
  intros Hself Hinit Hexp Hnow Hurl Hearly.
  destruct (refresh_failure_world env (fst (time_time env w)) self u
              Hself Hurl Hearly) as (e & Hreq).
  exists e.
  unfold get_instance.
  unfold bind at 1. rewrite Hself, Hinit. cbn [ret].
  unfold bind at 1. unfold expiry_reached.
  unfold bind at 1. cbn [time_time fst].
  unfold bind at 1. unfold self_ at 1. cbn [_instance]. rewrite ?Hself, Hexp.
  cbn [ret].
  rewrite Hnow.
  unfold bind at 1. unfold bind at 1.
  cbn [time_time fst] in Hreq. rewrite ?Hself in Hreq. rewrite Hreq.
  reflexivity.
Qed.

(** X11: without an object, or on an object that is not initialised and lacks
    a client id, a client secret, a grant type or a token URL, [get_instance]
    raises [Exception("GovEsb service is not initialized.")] at once: no
    request, no clock reading, no log. *)
Theorem get_instance_raises_when_unconfigured (w : World) :
  unconfigured w ->
  get_instance env w = (w, Raise not_initialized).
Proof.
  unfold unconfigured, get_instance. intros H.
  unfold bind at 1.
  destruct (_instance w) as [self|]; [|reflexivity].
  destruct H as [-> ->]. reflexivity.
Qed.

(** X12: on an object that is not initialised but configured, [get_instance]
    logs a warning and asks for a token whatever token the object holds, and
    when that succeeds and the new expiry is not reached at the next reading
    of the clock it returns the object with [initialized] still [False]: the
    retry never marks the object as initialised.  The next [get_instance] in
    the world it leaves therefore begins in the same way, with the warning
    and another request to the token endpoint. *)
Theorem get_instance_retry_never_initialises (w : World) (self : GovEsb) (u : str)
    (response : Response) (data token expires_in : json) (until : float) :
  _instance w = Some self ->
  initialized self = false ->
  truthy_attr (client_id self) = true ->
  truthy_attr (client_secret self) = true ->
  truthy_attr (grant_type self) = true ->
  truthy_attr (token_url self) = true ->
  token_url self = Some u ->
  http_answer env (n_posts w) = PostReturns response ->
  200 <= status_code response <= 299 ->
  json_body response = Some data ->
  py_getitem data "access_token" = Return token ->
  py_getitem data "expires_in" = Return expires_in ->
  py_add (clock env (n_reads w)) expires_in = Return until ->
  (until - 60 <=? clock env (S (n_reads w)))%float = false ->
  exists w',
    get_instance env w
    = (w', Return (set_token_expiry (until - 60)%float (set_access_token token self))) /\
    initialized (set_token_expiry (until - 60)%float (set_access_token token self)) = false /\
    _instance w' = Some (set_token_expiry (until - 60)%float (set_access_token token self)) /\
    trace w'
    = (trace w ++ [EvLogWarning "GovESB service not initialized. Retrying initialization ...";
                   EvPost (token_request self u)])%list /\
    exists later,
      trace (fst (get_instance env w'))
      = (trace w'
         ++ EvLogWarning "GovESB service not initialized. Retrying initialization ..."
         :: EvPost (token_request self u) :: later)%list.
Proof.
  intros Hself Hinit H1 H2 H3 H4 Hurl Hnet Hstatus Hjson Htok Hexpin Hadd Hfresh.
  eexists. split; [|split; [exact Hinit|]].
  - unfold get_instance.
    unfold bind at 1. rewrite Hself, Hinit, H1, H2, H3, H4. cbn [andb].
    unfold bind at 1. cbn [log].
    unfold bind at 1.
    rewrite (refresh_success_world env
               (log_event (EvLogWarning "GovESB service not initialized. Retrying initialization ...") w)
               self u response data token expires_in until Hself Hurl Hnet Hstatus Hjson Htok
               Hexpin Hadd).
    cbn [ret].
    unfold bind at 1. unfold expiry_reached.
    unfold bind at 1. cbn [time_time fst refreshed n_reads _instance].
    unfold bind at 1. unfold self_ at 1. cbn [_instance set_token_expiry token_expiry].
    cbn [ret].
    cbn [log_event n_reads].
    rewrite Hfresh.
    unfold bind at 1. cbn [ret].
    unfold self_. cbn [_instance]. reflexivity.
  - split; [reflexivity|]. split.
    + cbn [trace refreshed log_event]. rewrite <- app_assoc. reflexivity.
    + apply (get_instance_retry_asks env _
               (set_token_expiry (until - 60)%float (set_access_token token self)) u);
        [reflexivity | exact Hinit | exact H1 | exact H2 | exact H3 | exact H4 | exact Hurl].
Qed.

End GetInstance.

Lemma get_instance_with_valid_token_witness :
  get_instance (env_of (PostRaises TransportError) 500) (world_of toy_esb)
  = (fst (time_time (env_of (PostRaises TransportError) 500) (world_of toy_esb)),
     Return toy_esb).
Proof.
  exact (get_instance_with_valid_token (env_of (PostRaises TransportError) 500)
           (world_of toy_esb) toy_esb 1000 eq_refl eq_refl eq_refl eq_refl).
Defined.

Lemma get_instance_refreshes_expired_token_witness :
  snd (get_instance (env_of (PostReturns (response_of 200 token_reply)) 2000)
         (world_of toy_esb))
  = Return (set_token_expiry (5600 - 60)%float (set_access_token (JStr "T2") toy_esb)).
Proof.
  exact (f_equal snd
           (get_instance_refreshes_expired_token
              (env_of (PostReturns (response_of 200 token_reply)) 2000)
              (world_of toy_esb) toy_esb "https://esb.example/token" 1000
              (response_of 200 token_reply) token_reply (JStr "T2") (JInt 3600) 5600
              eq_refl eq_refl eq_refl eq_refl eq_refl eq_refl
              (conj (Zle_bool_imp_le 200 200 eq_refl) (Zle_bool_imp_le 200 299 eq_refl))
              eq_refl eq_refl eq_refl eq_refl)).
Defined.

Lemma get_instance_raises_when_refresh_fails_witness :
  fails_early (PostReturns (response_of 503 JNull)) /\
  exists e,
    get_instance (env_of (PostReturns (response_of 503 JNull)) 2000) (world_of toy_esb)
    = (refreshed toy_esb "https://esb.example/token"
         (fst (time_time (env_of (PostReturns (response_of 503 JNull)) 2000)
                 (world_of toy_esb)))
         false [EvLogException (FailedToGetToken e)] (Some toy_esb),
       Raise token_expired).
Proof.
  assert (H : fails_early (PostReturns (response_of 503 JNull)))
    by (left; cbn; lia).
  split; [exact H|].
  exact (get_instance_raises_when_refresh_fails
           (env_of (PostReturns (response_of 503 JNull)) 2000)
           (world_of toy_esb) toy_esb "https://esb.example/token" 1000
           eq_refl eq_refl eq_refl eq_refl eq_refl H).
Defined.

Lemma get_instance_raises_when_unconfigured_witness :
  unconfigured fresh_world /\
  get_instance (env_of (PostReturns (response_of 200 token_reply)) 2000) fresh_world
  = (fresh_world, Raise not_initialized).
Proof.
  assert (H : unconfigured fresh_world) by (split; reflexivity).
  split; [exact H|].
  exact (get_instance_raises_when_unconfigured
           (env_of (PostReturns (response_of 200 token_reply)) 2000) fresh_world H).
Defined.

Lemma get_instance_retry_never_initialises_witness :
  exists w',
    get_instance (env_of (PostReturns (response_of 200 token_reply)) 2000)
      (world_of toy_esb_without_token)
    = (w', Return (set_token_expiry (5600 - 60)%float
                     (set_access_token (JStr "T2") toy_esb_without_token))) /\
    initialized (set_token_expiry (5600 - 60)%float
                   (set_access_token (JStr "T2") toy_esb_without_token)) = false /\
    _instance w' = Some (set_token_expiry (5600 - 60)%float
                           (set_access_token (JStr "T2") toy_esb_without_token)) /\
    trace w'
    = [EvLogWarning "GovESB service not initialized. Retrying initialization ...";
       EvPost (token_request toy_esb_without_token "https://esb.example/token")] /\
    exists later,
      trace (fst (get_instance (env_of (PostReturns (response_of 200 token_reply)) 2000) w'))
      = (trace w'
         ++ EvLogWarning "GovESB service not initialized. Retrying initialization ..."
         :: EvPost (token_request toy_esb_without_token "https://esb.example/token")
         :: later)%list.
Proof.
  exact (get_instance_retry_never_initialises
           (env_of (PostReturns (response_of 200 token_reply)) 2000)
           (world_of toy_esb_without_token) toy_esb_without_token
           "https://esb.example/token"
           (response_of 200 token_reply) token_reply (JStr "T2") (JInt 3600) 5600
           eq_refl eq_refl eq_refl eq_refl eq_refl eq_refl eq_refl eq_refl
           (conj (Zle_bool_imp_le 200 200 eq_refl) (Zle_bool_imp_le 200 299 eq_refl))
           eq_refl eq_refl eq_refl eq_refl eq_refl).
Defined.

(* ------------------------------------------------------------------ *)
(** ** [init] *)

Section Init.

Variable env : Env.
Variable lib : Cryptography.

Variables (client_id_ client_secret_ grant_type_ : option str).
Variables (private_key_ public_key_ : str).
Variables (engine_url_ token_url_ : option str).
Variable timeout_ : option Z.

Local Abbreviation configured_ :=
  (configured client_id_ client_secret_ grant_type_ engine_url_ timeout_ token_url_).

(** With both keys loading, [init] on an object that is not initialised
    comes to the token request with the configuration and the keys stored,
    and goes on from its answer. *)
Lemma init_reaches_token_request (w : World) (self : GovEsb)
    (sk : EllipticCurvePrivateKey) (pk : EllipticCurvePublicKey) :
  _instance w = Some self ->
  initialized self = false ->
  get_private_key_from_pem lib private_key_ = Return sk ->
  get_public_key_from_pem lib public_key_ = Return pk ->
  init env lib client_id_ client_secret_ grant_type_ private_key_ public_key_ engine_url_
    token_url_ timeout_ w
  = try_Exception
      (said <- (ok <- request_esb_token env ;;
                if ok then setattr set_initialized ;;; ret [LogInitialized] else ret []) ;;
       ret (true, said))
      (fun e => ret (false, [LogInitFailed e]))
      (with_instance (configured_ sk pk self) w).
Proof.
  intros Hself Hinit Hsk Hpk.
  unfold init, try_Exception, init_body.
  unfold bind at 1. unfold bind at 1. unfold self_ at 1. rewrite Hself, Hinit.
  unfold bind at 1. cbn [setattr].
  unfold bind at 1. cbn [lift]. rewrite Hsk.
  unfold bind at 1. cbn [setattr].
  unfold bind at 1. cbn [lift]. rewrite Hpk.
  unfold bind at 1. cbn [setattr _instance n_posts n_draws n_reads trace].
  rewrite Hself. cbn [option_map].
  reflexivity.
Qed.

(** X13: [init] on an object that is already initialised ignores its
    arguments: it logs a warning, returns [True], and changes neither the
    credentials, nor the keys, nor the token; no request is made. *)
Theorem init_twice_changes_nothing (w : World) (self : GovEsb) :
  _instance w = Some self ->
  initialized self = true ->
  init env lib client_id_ client_secret_ grant_type_ private_key_ public_key_ engine_url_
    token_url_ timeout_ w
  = (log_event (EvLogWarning "GovESB service is already initialized.") w,
     Return (true, [])).
Proof.
  intros Hself Hinit.
  unfold init, try_Exception, init_body.
  unfold bind at 1. unfold bind at 1. unfold self_ at 1. rewrite Hself, Hinit.
  reflexivity.
Qed.

(** The [init] that succeeds, with the world it leaves. *)
Lemma init_success_world (w : World) (self : GovEsb)
    (sk : EllipticCurvePrivateKey) (pk : EllipticCurvePublicKey) (u : str)
    (response : Response) (data token expires_in : json) (until : float) :
  _instance w = Some self ->
  initialized self = false ->
  get_private_key_from_pem lib private_key_ = Return sk ->
  get_public_key_from_pem lib public_key_ = Return pk ->
  token_url_ = Some u ->
  http_answer env (n_posts w) = PostReturns response ->
  200 <= status_code response <= 299 ->
  json_body response = Some data ->
  py_getitem data "access_token" = Return token ->
  py_getitem data "expires_in" = Return expires_in ->
  py_add (clock env (n_reads w)) expires_in = Return until ->
  init env lib client_id_ client_secret_ grant_type_ private_key_ public_key_ engine_url_
    token_url_ timeout_ w
  = (refreshed (configured_ sk pk self) u w true []
       (Some (set_initialized
                (set_token_expiry (until - 60)%float
                   (set_access_token token (configured_ sk pk self))))),
     Return (true, [LogInitialized])).
Proof.
  intros Hself Hinit Hsk Hpk Hurl Hnet Hstatus Hjson Htok Hexpin Hadd.
  rewrite (init_reaches_token_request w self sk pk Hself Hinit Hsk Hpk).
  unfold try_Exception. unfold bind at 1. unfold bind at 1.
  rewrite (refresh_success_world env (with_instance (configured_ sk pk self) w)
             (configured_ sk pk self) u response data token expires_in until
             eq_refl Hurl Hnet Hstatus Hjson Htok Hexpin Hadd).
  reflexivity.
Qed.

(** X14: [init] on a fresh object, with both keys loading and the token
    endpoint answering well, returns [True] and leaves the object
    initialised, with the credentials (an empty grant type replaced by
    ['client_credentials']), both keys, the token and its expiry; it makes
    one request, to the given token URL. *)
Theorem init_initialises (w : World) (self : GovEsb)
    (sk : EllipticCurvePrivateKey) (pk : EllipticCurvePublicKey) (u : str)
    (response : Response) (data token expires_in : json) (until : float) :
  _instance w = Some self ->
  initialized self = false ->
  get_private_key_from_pem lib private_key_ = Return sk ->
  get_public_key_from_pem lib public_key_ = Return pk ->
  token_url_ = Some u ->
  http_answer env (n_posts w) = PostReturns response ->
  200 <= status_code response <= 299 ->
  json_body response = Some data ->
  py_getitem data "access_token" = Return token ->
  py_getitem data "expires_in" = Return expires_in ->
  py_add (clock env (n_reads w)) expires_in = Return until ->
  init env lib client_id_ client_secret_ grant_type_ private_key_ public_key_ engine_url_
    token_url_ timeout_ w
  = (refreshed (configured_ sk pk self) u w true []
       (Some (set_initialized
                (set_token_expiry (until - 60)%float
                   (set_access_token token (configured_ sk pk self))))),
     Return (true, [LogInitialized])).
Proof.
  exact (init_success_world w self sk pk u response data token expires_in until).
Qed.

(** X15: [init] returns [True] also when the token request fails before it
    writes (the post raises, the status is not 2xx, the body is not JSON or
    has no [access_token]).  The credentials and the keys are stored,
    [initialized] stays [False] and the token is the one from before: the
    failure shows in the log of [request_esb_token] only. *)
Theorem init_returns_True_without_token (w : World) (self : GovEsb)
    (sk : EllipticCurvePrivateKey) (pk : EllipticCurvePublicKey) (u : str) :
  _instance w = Some self ->
  initialized self = false ->
  get_private_key_from_pem lib private_key_ = Return sk ->
  get_public_key_from_pem lib public_key_ = Return pk ->
  token_url_ = Some u ->
  fails_early (http_answer env (n_posts w)) ->
  exists e,
    init env lib client_id_ client_secret_ grant_type_ private_key_ public_key_ engine_url_
      token_url_ timeout_ w
    = (refreshed (configured_ sk pk self) u w false
         [EvLogException (FailedToGetToken e)] (Some (configured_ sk pk self)),
       Return (true, [])) /\
    initialized (configured_ sk pk self) = false /\
    access_token (configured_ sk pk self) = access_token self.
Proof.
  intros Hself Hinit Hsk Hpk Hurl Hearly.
  destruct (refresh_failure_world env (with_instance (configured_ sk pk self) w)
              (configured_ sk pk self) u eq_refl Hurl Hearly) as (e & Hreq).
  exists e. split; [|split; [exact Hinit | reflexivity]].
  rewrite (init_reaches_token_request w self sk pk Hself Hinit Hsk Hpk).
  unfold try_Exception. unfold bind at 1. unfold bind at 1.
  rewrite Hreq. reflexivity.
Qed.

(** X16: when the private key does not load, [init] returns [False] and
    makes no request, but the object has changed: the new credentials and
    URLs are written already, while the keys are the old ones. *)
Theorem init_fails_on_bad_private_key (w : World) (self : GovEsb) (e : exn) :
  _instance w = Some self ->
  initialized self = false ->
  get_private_key_from_pem lib private_key_ = Raise e ->
  is_Exception e = true ->
  init env lib client_id_ client_secret_ grant_type_ private_key_ public_key_ engine_url_
    token_url_ timeout_ w
  = (with_instance
       (set_config client_id_ client_secret_ grant_type_ engine_url_ timeout_ token_url_ self)
       w,
     Return (false, [LogInitFailed e])).
Proof.
  intros Hself Hinit Hsk Hexn.
  unfold init, try_Exception, init_body.
  unfold bind at 1. unfold bind at 1. unfold self_ at 1. rewrite Hself, Hinit.
  unfold bind at 1. cbn [setattr].
  unfold bind at 1. cbn [lift]. rewrite Hsk, Hexn.
  unfold with_instance. cbn [ret _instance n_posts n_draws n_reads trace].
  rewrite Hself. reflexivity.
Qed.

(** X17: after an [init] that succeeded, a [get_instance] whose reading of
    the clock has not reached the stored expiry returns the initialised
    object and makes no request of its own: one request in all. *)
Theorem get_instance_after_init (w : World) (self : GovEsb)
    (sk : EllipticCurvePrivateKey) (pk : EllipticCurvePublicKey) (u : str)
    (response : Response) (data token expires_in : json) (until : float) :
  _instance w = Some self ->
  initialized self = false ->
  get_private_key_from_pem lib private_key_ = Return sk ->
  get_public_key_from_pem lib public_key_ = Return pk ->
  token_url_ = Some u ->
  http_answer env (n_posts w) = PostReturns response ->
  200 <= status_code response <= 299 ->
  json_body response = Some data ->
  py_getitem data "access_token" = Return token ->
  py_getitem data "expires_in" = Return expires_in ->
  py_add (clock env (n_reads w)) expires_in = Return until ->
  (until - 60 <=? clock env (S (n_reads w)))%float = false ->
  let ready := set_initialized
                 (set_token_expiry (until - 60)%float
                    (set_access_token token (configured_ sk pk self))) in
  (said <- init env lib client_id_ client_secret_ grant_type_ private_key_ public_key_
             engine_url_ token_url_ timeout_ ;;
   obj <- get_instance env ;;
   ret (said, obj)) w
  = (with_instance ready
       {| _instance := _instance w;
          n_posts := S (n_posts w); n_draws := n_draws w; n_reads := S (S (n_reads w));
          trace := trace w ++ [EvPost (token_request (configured_ sk pk self) u)] |},
     Return ((true, [LogInitialized]), ready)).
Proof.
  intros Hself Hinit Hsk Hpk Hurl Hnet Hstatus Hjson Htok Hexpin Hadd Hfresh ready.
  unfold bind at 1.
  rewrite (init_success_world w self sk pk u response data token expires_in until
             Hself Hinit Hsk Hpk Hurl Hnet Hstatus Hjson Htok Hexpin Hadd).
  fold ready.
  unfold bind at 1.
  rewrite (valid_token_world env
             (refreshed (configured_ sk pk self) u w true [] (Some ready))
             ready (until - 60)%float eq_refl eq_refl eq_refl Hfresh).
  reflexivity.
Qed.

End Init.

Lemma init_twice_changes_nothing_witness :
  init (env_of (PostReturns (response_of 200 token_reply)) 2000) toy_cryptography
    (Some "other") (Some "other secret") None "PRIVATE" "PUBLIC"
    (Some "https://elsewhere.example") (Some "https://elsewhere.example/token") (Some 5)
    (world_of toy_esb)
  = (log_event (EvLogWarning "GovESB service is already initialized.") (world_of toy_esb),
     Return (true, [])).
Proof.
  exact (init_twice_changes_nothing
           (env_of (PostReturns (response_of 200 token_reply)) 2000) toy_cryptography
           (Some "other") (Some "other secret") None "PRIVATE" "PUBLIC"
           (Some "https://elsewhere.example") (Some "https://elsewhere.example/token")
           (Some 5) (world_of toy_esb) toy_esb eq_refl eq_refl).
Defined.

Lemma init_initialises_witness :
  snd (init (env_of (PostReturns (response_of 200 token_reply)) 2000) toy_cryptography
         (Some "client") (Some "secret") None "PRIVATE" "PUBLIC"
         (Some "https://esb.example") (Some "https://esb.example/token") (Some 180)
         fresh_world)
  = Return (true, [LogInitialized]) /\
  option_map grant_type
    (_instance
       (fst (init (env_of (PostReturns (response_of 200 token_reply)) 2000) toy_cryptography
               (Some "client") (Some "secret") None "PRIVATE" "PUBLIC"
               (Some "https://esb.example") (Some "https://esb.example/token") (Some 180)
               fresh_world)))
  = Some (Some "client_credentials").
Proof.
  pose proof (init_initialises
                (env_of (PostReturns (response_of 200 token_reply)) 2000) toy_cryptography
                (Some "client") (Some "secret") None "PRIVATE" "PUBLIC"
                (Some "https://esb.example") (Some "https://esb.example/token") (Some 180)
                fresh_world GovEsb__init__ toy_private_key toy_public_key
                "https://esb.example/token"
                (response_of 200 token_reply) token_reply (JStr "T2") (JInt 3600) 5600
                eq_refl eq_refl eq_refl eq_refl eq_refl eq_refl
                (conj (Zle_bool_imp_le 200 200 eq_refl) (Zle_bool_imp_le 200 299 eq_refl))
                eq_refl eq_refl eq_refl eq_refl) as H.
  split; [exact (f_equal snd H) | exact (f_equal (fun r => option_map grant_type (_instance (fst r))) H)].
Defined.

Lemma init_returns_True_without_token_witness :
  fails_early (PostReturns (response_of 503 JNull)) /\
  snd (init (env_of (PostReturns (response_of 503 JNull)) 2000) toy_cryptography
         (Some "client") (Some "secret") None "PRIVATE" "PUBLIC"
         (Some "https://esb.example") (Some "https://esb.example/token") (Some 180)
         fresh_world)
  = Return (true, []).
Proof.
  assert (H : fails_early (PostReturns (response_of 503 JNull)))
    by (left; cbn; lia).
  split; [exact H|].
  destruct (init_returns_True_without_token
              (env_of (PostReturns (response_of 503 JNull)) 2000) toy_cryptography
              (Some "client") (Some "secret") None "PRIVATE" "PUBLIC"
              (Some "https://esb.example") (Some "https://esb.example/token") (Some 180)
              fresh_world GovEsb__init__ toy_private_key toy_public_key
              "https://esb.example/token" eq_refl eq_refl eq_refl eq_refl eq_refl H)
    as (e & Hinit & _).
  exact (f_equal snd Hinit).
Defined.

Lemma init_fails_on_bad_private_key_witness :
  init (env_of (PostReturns (response_of 200 token_reply)) 2000) toy_cryptography
    (Some "client") (Some "secret") None "not a key" "PUBLIC"
    (Some "https://esb.example") (Some "https://esb.example/token") (Some 180)
    fresh_world
  = (with_instance
       (set_config (Some "client") (Some "secret") None (Some "https://esb.example")
          (Some 180) (Some "https://esb.example/token") GovEsb__init__)
       fresh_world,
     Return (false, [LogInitFailed (ValueError "Could not deserialize key data")])).
Proof.
  exact (init_fails_on_bad_private_key
           (env_of (PostReturns (response_of 200 token_reply)) 2000) toy_cryptography
           (Some "client") (Some "secret") None "not a key" "PUBLIC"
           (Some "https://esb.example") (Some "https://esb.example/token") (Some 180)
           fresh_world GovEsb__init__ (ValueError "Could not deserialize key data")
           eq_refl eq_refl eq_refl eq_refl).
Defined.

Lemma get_instance_after_init_witness :
  posts (trace (fst ((said <- init (env_of (PostReturns (response_of 200 token_reply)) 2000)
                               toy_cryptography
                               (Some "client") (Some "secret") None "PRIVATE" "PUBLIC"
                               (Some "https://esb.example")
                               (Some "https://esb.example/token") (Some 180) ;;
                      obj <- get_instance
                               (env_of (PostReturns (response_of 200 token_reply)) 2000) ;;
                      ret (said, obj)) fresh_world)))
  = [EvPost (token_request
               (configured (Some "client") (Some "secret") None (Some "https://esb.example")
                  (Some 180) (Some "https://esb.example/token")
                  toy_private_key toy_public_key GovEsb__init__)
               "https://esb.example/token")].
Proof.
  exact (f_equal (fun r => posts (trace (fst r)))
           (get_instance_after_init
              (env_of (PostReturns (response_of 200 token_reply)) 2000) toy_cryptography
              (Some "client") (Some "secret") None "PRIVATE" "PUBLIC"
              (Some "https://esb.example") (Some "https://esb.example/token") (Some 180)
              fresh_world GovEsb__init__ toy_private_key toy_public_key
              "https://esb.example/token"
              (response_of 200 token_reply) token_reply (JStr "T2") (JInt 3600) 5600
              eq_refl eq_refl eq_refl eq_refl eq_refl eq_refl
              (conj (Zle_bool_imp_le 200 200 eq_refl) (Zle_bool_imp_le 200 299 eq_refl))
              eq_refl eq_refl eq_refl eq_refl eq_refl)).
Defined.

(* ------------------------------------------------------------------ *)
(** ** [consume], from the request to the result *)

Section ConsumeOutcomes.

Variable env : Env.

(** A call of [build_esb_payload] with a private key loaded: one draw, and
    the envelope signed under it. *)
Lemma signed_envelope_world (self : GovEsb) (sk : EllipticCurvePrivateKey)
    (payload api_code success_ message_ errors_ validation_errors : json) (w : World) :
  private_key self = Some sk ->
  signed_envelope env self payload api_code success_ message_ errors_ validation_errors w
  = (drawn env w,
     Return (envelope_of sk (entropy env (n_draws w))
               (build_esb_data payload api_code success_ message_ errors_ validation_errors))).
Proof.
  intros Hsk.
  unfold signed_envelope, bind, draw, lift, drawn. cbn [fst].
  pose proof (build_esb_payload_returns self sk (entropy env (n_draws w)) payload
                api_code success_ message_ errors_ validation_errors Hsk) as Hret.
  cbv zeta in Hret. rewrite Hret. reflexivity.
Qed.

(** The post of [consume] with a private key loaded and an answer from the
    bus. *)
Lemma consume_post_world (self : GovEsb) (sk : EllipticCurvePrivateKey)
    (payload : json) (api_code : str) (w : World) (response : Response) :
  private_key self = Some sk ->
  http_answer env (n_posts w) = PostReturns response ->
  consume_post env self payload api_code w
  = (consumed self
       (envelope_of sk (entropy env (n_draws w))
          (build_esb_data payload (JStr api_code) JNull JNull JNull JNull))
       1 [] w,
     Return response).
Proof.
  intros Hsk Hnet.
  unfold consume_post. unfold bind at 1.
  rewrite (signed_envelope_world self sk payload (JStr api_code) JNull JNull JNull JNull w Hsk).
  unfold client_post, bind, send, log, receive, consumed, bus_request, drawn, draw.
  cbn [fst log_event _instance n_posts n_draws n_reads trace].
  rewrite Hnet. reflexivity.
Qed.

(** X18: when the bus answers with a 2xx status and a JSON envelope whose
    signature verifies over its data, [consume] returns what the answer
    validates to.  It has sent one request, and the audit record of the
    exchange holds the answer and a request built a second time: the same
    data as the envelope sent, signed under the next nonce. *)
Theorem consume_returns_validated_answer (self : GovEsb) (sk : EllipticCurvePrivateKey)
    (payload : json) (api_code : str) (w : World) (response : Response)
    (json signature data : json) (d : GovEsvData) :
  private_key self = Some sk ->
  http_answer env (n_posts w) = PostReturns response ->
  200 <= status_code response <= 299 ->
  json_body response = Some json ->
  py_getitem json "signature" = Return signature ->
  py_getitem json "data" = Return data ->
  verify_signature self signature data = Return true ->
  pydantic_GovEsvResponse env json = Return d ->
  let request_data := build_esb_data payload (JStr api_code) JNull JNull JNull JNull in
  let sent := envelope_of sk (entropy env (n_draws w)) request_data in
  let logged := envelope_of sk (entropy env (S (n_draws w))) request_data in
  consume env self payload api_code w
  = (consumed self sent 2 [EvLogGovesbCalls (JStr api_code) logged json] w, Return d).
Proof.
  intros Hsk Hnet Hstatus Hjson Hsig Hdata Hok Hpyd request_data sent logged.
  unfold consume, try_binding.
  rewrite (consume_post_world self sk payload api_code w response Hsk Hnet).
  fold request_data. fold sent.
  unfold consume_check, raise_for_status.
  replace ((200 <=? status_code response) && (status_code response <=? 299)) with true
    by (symmetry; apply andb_true_iff; split; apply Z.leb_le; lia).
  unfold bind at 1. cbn [ret].
  unfold bind at 1. unfold response_json. rewrite Hjson. cbn [ret].
  unfold bind at 1.
  rewrite (signed_envelope_world self sk payload (JStr api_code) JNull JNull JNull JNull _ Hsk).
  unfold bind at 1. cbn [log].
  unfold bind at 1. cbn [lift]. rewrite Hsig.
  unfold bind at 1. cbn [lift]. rewrite Hdata.
  unfold bind at 1. cbn [lift]. rewrite Hok, Hpyd.
  unfold consumed, drawn, draw, lift, log_event.
  cbn [fst _instance n_posts n_draws n_reads trace Nat.add].
  rewrite <- app_assoc. reflexivity.
Qed.

(** X19: when the bus answers with a status outside 200..299, or with a
    body that is not JSON, [consume] returns the failure result that names
    the [api_code], with a fresh request id.  The failure goes to the
    exception log with the response; the record of the exchange
    ([log_govesb_calls]) is not written. *)
Theorem consume_fails_on_bad_answer (self : GovEsb) (sk : EllipticCurvePrivateKey)
    (payload : json) (api_code : str) (w : World) (response : Response) :
  private_key self = Some sk ->
  http_answer env (n_posts w) = PostReturns response ->
  ~ (200 <= status_code response <= 299) \/ json_body response = None ->
  let sent := envelope_of sk (entropy env (n_draws w))
                (build_esb_data payload (JStr api_code) JNull JNull JNull JNull) in
  exists e,
    consume env self payload api_code w
    = (consumed self sent 2 [EvLogException (FailedToConsume e response)] w,
       Return (failed_to_consume (entropy env (S (n_draws w))) api_code)) /\
    (e = HTTPStatusError (status_code response) \/ e = JSONDecodeError).
Proof.
  intros Hsk Hnet Hbad sent.
  assert (Hcheck : forall w1, exists e,
             consume_check env self payload api_code response w1 = (w1, Raise e) /\
             (e = HTTPStatusError (status_code response) \/ e = JSONDecodeError)).
  { intros w1. unfold consume_check, raise_for_status.
    destruct ((200 <=? status_code response) && (status_code response <=? 299)) eqn:Hst.
    - destruct Hbad as [Hbad|Hbad].
      + exfalso. apply Hbad. apply andb_true_iff in Hst as [H1 H2].
        apply Z.leb_le in H1. apply Z.leb_le in H2. lia.
      + exists JSONDecodeError. split; [|now right].
        unfold bind at 1. cbn [ret].
        unfold bind at 1. unfold response_json. rewrite Hbad. reflexivity.
    - exists (HTTPStatusError (status_code response)). split; [|now left].
      reflexivity. }
  unfold consume, try_binding.
  rewrite (consume_post_world self sk payload api_code w response Hsk Hnet).
  fold sent.
  destruct (Hcheck (consumed self sent 1 [] w)) as (e & -> & He).
  exists e. split; [|exact He].
  assert (is_Exception e = true) as -> by (destruct He as [-> | ->]; reflexivity).
  unfold consume_except, bind, log, draw, ret, consumed, failed_to_consume, log_event.
  cbn [fst _instance n_posts n_draws n_reads trace Nat.add].
  rewrite <- app_assoc. reflexivity.
Qed.

(** X20: once the post has returned, [consume] does not raise, whatever the
    answer holds (any status, any body, any signature), provided that what
    the validation raises is an [Exception]: it returns what the answer
    validates to or the failure result that names the [api_code]. *)
Theorem consume_never_raises_after_an_answer (self : GovEsb) (sk : EllipticCurvePrivateKey)
    (payload : json) (api_code : str) (w : World) (response : Response) :
  private_key self = Some sk ->
  (forall j e', pydantic_GovEsvResponse env j = Raise e' -> is_Exception e' = true) ->
  http_answer env (n_posts w) = PostReturns response ->
  exists d,
    snd (consume env self payload api_code w) = Return d /\
    ((exists j, json_body response = Some j /\ pydantic_GovEsvResponse env j = Return d) \/
     (success d = false /\ esbBody d = JDict [] /\
      message d = Some ("Failed to consume from apiCode: " ++ api_code))).
Proof.
  exact (consume_returns_once_response_is_bound env self sk payload api_code w response).
Qed.

(** X21: on an object without a private key (before [init], or after an
    [init] that failed) [consume] raises [UnboundLocalError] to its caller:
    the envelope cannot be signed, nothing is sent and nothing is logged. *)
Theorem consume_without_private_key_raises (self : GovEsb) (payload : json)
    (api_code : str) (w : World) :
  private_key self = None ->
  snd (consume env self payload api_code w) = Raise (UnboundLocalError "response") /\
  trace (fst (consume env self payload api_code w)) = trace w /\
  n_posts (fst (consume env self payload api_code w)) = n_posts w.
Proof.
  intros Hsk.
  assert (Hrun : consume env self payload api_code w
                 = (drawn env w, Raise (UnboundLocalError "response"))).
  { unfold consume, try_binding, consume_post. unfold bind at 1.
    rewrite (signed_envelope_without_key env self payload (JStr api_code) JNull JNull JNull
               JNull w Hsk).
    reflexivity. }
  rewrite Hrun. repeat split.
Qed.

End ConsumeOutcomes.

Lemma example_validation_raises_Exception (j : json) (e : exn) :
  example_validation j = Raise e -> is_Exception e = true.
Proof.
  unfold example_validation.
  destruct j; try (intros [= <-]; reflexivity).
  destruct (dict_lookup "data" fields) as [[]|]; try (intros [= <-]; reflexivity).
  destruct (dict_lookup "success" fields0) as [[]|]; intros [= <-]; reflexivity.
Qed.

Lemma consume_returns_validated_answer_witness :
  verify_signature toy_esb (JStr bus_signature) (JDict bus_data) = Return true /\
  snd (consume (env_of (PostReturns (response_of 200 bus_reply)) 2000) toy_esb
         (JDict [("a", JInt 1)]) "CODE1" (world_of toy_esb))
  = Return {| success := true;
              requestId := None;
              esbBody := JDict [("a", JInt 1)];
              message := None;
              errors := [];
              validationErrors := [] |}.
Proof.
  split; [reflexivity|].
  exact (f_equal snd
           (consume_returns_validated_answer
              (env_of (PostReturns (response_of 200 bus_reply)) 2000)
              toy_esb toy_private_key (JDict [("a", JInt 1)]) "CODE1" (world_of toy_esb)
              (response_of 200 bus_reply) bus_reply (JStr bus_signature) (JDict bus_data) _
              eq_refl eq_refl (conj (Zle_bool_imp_le 200 200 eq_refl)
                                    (Zle_bool_imp_le 200 299 eq_refl))
              eq_refl eq_refl eq_refl eq_refl eq_refl)).
Defined.

Lemma consume_fails_on_bad_answer_witness :
  ~ (200 <= 503 <= 299) /\
  exists e,
    snd (consume (env_of (PostReturns (response_of 503 JNull)) 2000) toy_esb
           (JDict [("a", JInt 1)]) "CODE1" (world_of toy_esb))
    = Return (failed_to_consume 1 "CODE1") /\
    (e = HTTPStatusError 503 \/ e = JSONDecodeError).
Proof.
  assert (H : ~ (200 <= 503 <= 299)) by lia.
  split; [exact H|].
  destruct (consume_fails_on_bad_answer
              (env_of (PostReturns (response_of 503 JNull)) 2000)
              toy_esb toy_private_key (JDict [("a", JInt 1)]) "CODE1" (world_of toy_esb)
              (response_of 503 JNull) eq_refl eq_refl (or_introl H))
    as (e & Hrun & He).
  exists e. split; [exact (f_equal snd Hrun) | exact He].
Defined.

Lemma consume_never_raises_after_an_answer_witness :
  exists d,
    snd (consume (env_of (PostReturns (response_of 200 forged_reply)) 2000) toy_esb
           (JDict [("a", JInt 1)]) "CODE1" (world_of toy_esb))
    = Return d.
Proof.
  destruct (consume_never_raises_after_an_answer
              (env_of (PostReturns (response_of 200 forged_reply)) 2000)
              toy_esb toy_private_key (JDict [("a", JInt 1)]) "CODE1" (world_of toy_esb)
              (response_of 200 forged_reply) eq_refl example_validation_raises_Exception
              eq_refl)
    as (d & Hd & _).
  exists d. exact Hd.
Defined.

Lemma consume_without_private_key_raises_witness :
  snd (consume (env_of (PostReturns (response_of 200 bus_reply)) 2000) GovEsb__init__
         (JDict [("a", JInt 1)]) "CODE1" fresh_world)
  = Raise (UnboundLocalError "response").
Proof.
  exact (proj1 (consume_without_private_key_raises
                  (env_of (PostReturns (response_of 200 bus_reply)) 2000) GovEsb__init__
                  (JDict [("a", JInt 1)]) "CODE1" fresh_world eq_refl)).
Defined.

(* ------------------------------------------------------------------ *)
(** ** [aconsume], from a verified envelope on *)

Section AcknowledgeOutcomes.

Variable env : Env.

(** [aconsume] up to the call of [process_feedback], for an envelope whose
    signature verifies. *)
Lemma aconsume_reaches_feedback (self : GovEsb) (req_body : list (str * json))
    (process_feedback : json -> M (json * json * json)) (w : World) (arg : json) :
  let data := match dict_lookup "data" req_body with
              | Some v => v
              | None => JDict []
              end in
  let signature := match dict_lookup "signature" req_body with
                   | Some v => v
                   | None => JNull
                   end in
  verify_signature self signature data = Return true ->
  py_get data "esbBody" (JDict []) = Return arg ->
  aconsume env self (JDict req_body) process_feedback w
  = (outcome <- process_feedback arg ;;
     let '(success_, message_, esbBody_) := outcome in
     esb_payload <- signed_envelope env self esbBody_ JNull success_ message_ JNull JNull ;;
     log (EvLogGovesbCalls JNull esb_payload data) ;;;
     ret esb_payload)%monad
      (log_event (EvProcessFeedback arg) w).
Proof.
  intros data signature Hok Harg.
  unfold aconsume.
  unfold bind at 1. cbn [lift py_get]. fold data.
  unfold bind at 1. cbn [lift py_get]. fold signature.
  unfold bind at 1. cbn [lift]. rewrite Hok.
  unfold bind at 1. unfold bind at 1. cbn [lift]. rewrite Harg.
  unfold bind at 1. cbn [log].
  unfold bind at 3. reflexivity.
Qed.

(** X22: for an inbound envelope whose signature verifies over its data,
    [aconsume] calls [process_feedback] once, with the [esbBody] of the data
    (an empty dict when there is none), and returns the envelope built from
    its answer: [esbBody], [success] and [message] as [process_feedback] gave
    them, signed with the private key.  The audit record holds this
    acknowledgment and the inbound data. *)
Theorem aconsume_acknowledges_feedback (self : GovEsb) (sk : EllipticCurvePrivateKey)
    (req_body : list (str * json)) (process_feedback : json -> M (json * json * json))
    (w w1 : World) (arg success_ message_ esbBody_ : json) :
  let data := match dict_lookup "data" req_body with
              | Some v => v
              | None => JDict []
              end in
  let signature := match dict_lookup "signature" req_body with
                   | Some v => v
                   | None => JNull
                   end in
  let ack := envelope_of sk (entropy env (n_draws w1))
               (build_esb_data esbBody_ JNull success_ message_ JNull JNull) in
  private_key self = Some sk ->
  verify_signature self signature data = Return true ->
  py_get data "esbBody" (JDict []) = Return arg ->
  process_feedback arg (log_event (EvProcessFeedback arg) w)
  = (w1, Return (success_, message_, esbBody_)) ->
  aconsume env self (JDict req_body) process_feedback w
  = (log_event (EvLogGovesbCalls JNull ack data) (drawn env w1), Return ack).
Proof.
  intros data signature ack Hsk Hok Harg Hfeedback.
  rewrite (aconsume_reaches_feedback self req_body process_feedback w arg Hok Harg).
  unfold bind at 1. rewrite Hfeedback.
  unfold bind at 1.
  rewrite (signed_envelope_world env self sk esbBody_ JNull success_ message_ JNull JNull w1
             Hsk).
  reflexivity.
Qed.

(** X23: when [process_feedback] raises, [aconsume] raises the same
    exception: no acknowledgment is built or signed and no audit record is
    written. *)
Theorem aconsume_raises_with_feedback (self : GovEsb) (req_body : list (str * json))
    (process_feedback : json -> M (json * json * json)) (w w1 : World) (arg : json)
    (e : exn) :
  let data := match dict_lookup "data" req_body with
              | Some v => v
              | None => JDict []
              end in
  let signature := match dict_lookup "signature" req_body with
                   | Some v => v
                   | None => JNull
                   end in
  verify_signature self signature data = Return true ->
  py_get data "esbBody" (JDict []) = Return arg ->
  process_feedback arg (log_event (EvProcessFeedback arg) w) = (w1, Raise e) ->
  aconsume env self (JDict req_body) process_feedback w = (w1, Raise e).
Proof.
  intros data signature Hok Harg Hfeedback.
  rewrite (aconsume_reaches_feedback self req_body process_feedback w arg Hok Harg).
  unfold bind at 1. rewrite Hfeedback. reflexivity.
Qed.

(** X24: an inbound envelope without a [signature] key makes [aconsume]
    raise [TypeError] (from the base64 decoding of [None]) instead of
    answering with the failure acknowledgment; nothing is logged and
    [process_feedback] is not called. *)
Theorem aconsume_raises_on_unsigned_envelope (self : GovEsb) (pk : EllipticCurvePublicKey)
    (req_body : list (str * json)) (process_feedback : json -> M (json * json * json))
    (w : World) :
  public_key self = Some pk ->
  dict_lookup "signature" req_body = None ->
  aconsume env self (JDict req_body) process_feedback w
  = (w, Raise (TypeError "argument should be a bytes-like object or ASCII string")).
Proof.
  intros Hpk Hsig.
  apply aconsume_raises_with_verification.
  rewrite Hsig. unfold verify_signature. rewrite Hpk. reflexivity.
Qed.

(** X25: an inbound envelope whose signature verifies over data that is not
    a mapping makes [aconsume] raise [AttributeError]: [process_feedback] is
    not called and nothing is answered. *)
Theorem aconsume_raises_on_verified_non_mapping (self : GovEsb)
    (req_body : list (str * json)) (process_feedback : json -> M (json * json * json))
    (w : World) (data : json) :
  dict_lookup "data" req_body = Some data ->
  (forall fields, data <> JDict fields) ->
  verify_signature self
    (match dict_lookup "signature" req_body with Some v => v | None => JNull end) data
  = Return true ->
  aconsume env self (JDict req_body) process_feedback w
  = (w, Raise (AttributeError "get")).
Proof.
  intros Hdata Hshape Hok.
  unfold aconsume.
  unfold bind at 1. cbn [lift py_get]. rewrite Hdata.
  unfold bind at 1. cbn [lift py_get].
  unfold bind at 1. cbn [lift]. rewrite Hok.
  unfold bind at 1. unfold bind at 1. cbn [lift].
  destruct data; try reflexivity.
  now destruct (Hshape fields).
Qed.

End AcknowledgeOutcomes.

Lemma aconsume_acknowledges_feedback_witness :
  verify_signature toy_esb (JStr bus_signature) (JDict bus_data) = Return true /\
  snd (aconsume (env_of (PostRaises TransportError) 2000) toy_esb bus_reply example_feedback
         (world_of toy_esb))
  = Return (envelope_of toy_private_key 0
              [("esbBody", JDict [("a", JInt 1)]);
               ("success", JBool true);
               ("message", JStr "ok")]).
Proof.
  split; [reflexivity|].
  exact (f_equal snd
           (aconsume_acknowledges_feedback (env_of (PostRaises TransportError) 2000) toy_esb
              toy_private_key
              [("data", JDict bus_data); ("signature", JStr bus_signature)]
              example_feedback (world_of toy_esb) _ (JDict [("a", JInt 1)])
              (JBool true) (JStr "ok") (JDict [("a", JInt 1)])
              eq_refl eq_refl eq_refl eq_refl)).
Defined.

Lemma aconsume_raises_with_feedback_witness :
  verify_signature toy_esb (JStr bus_signature) (JDict bus_data) = Return true /\
  snd (aconsume (env_of (PostRaises TransportError) 2000) toy_esb bus_reply
         (fun _ => raise (ValueError "cannot process"))
         (world_of toy_esb))
  = Raise (ValueError "cannot process").
Proof.
  split; [reflexivity|].
  exact (f_equal snd
           (aconsume_raises_with_feedback (env_of (PostRaises TransportError) 2000) toy_esb
              [("data", JDict bus_data); ("signature", JStr bus_signature)]
              (fun _ => raise (ValueError "cannot process")) (world_of toy_esb) _
              (JDict [("a", JInt 1)]) (ValueError "cannot process")
              eq_refl eq_refl eq_refl)).
Defined.

Lemma aconsume_raises_on_unsigned_envelope_witness :
  snd (aconsume (env_of (PostRaises TransportError) 2000) toy_esb
         (JDict [("data", JDict bus_data)]) example_feedback (world_of toy_esb))
  = Raise (TypeError "argument should be a bytes-like object or ASCII string").
Proof.
  exact (f_equal snd
           (aconsume_raises_on_unsigned_envelope (env_of (PostRaises TransportError) 2000)
              toy_esb toy_public_key [("data", JDict bus_data)] example_feedback
              (world_of toy_esb) eq_refl eq_refl)).
Defined.

Lemma aconsume_raises_on_verified_non_mapping_witness :
  snd (aconsume (env_of (PostRaises TransportError) 2000) toy_esb
         (JDict [("data", JList [JInt 1]);
                 ("signature",
                  JStr (match sign_payload toy_esb 7 (JList [JInt 1]) with
                        | Return s => s
                        | Raise _ => EmptyString
                        end))])
         example_feedback (world_of toy_esb))
  = Raise (AttributeError "get").
Proof.
  assert (Hshape : forall fields, JList [JInt 1] <> JDict fields) by discriminate.
  exact (f_equal snd
           (aconsume_raises_on_verified_non_mapping
              (env_of (PostRaises TransportError) 2000) toy_esb
              [("data", JList [JInt 1]);
               ("signature",
                JStr (match sign_payload toy_esb 7 (JList [JInt 1]) with
                      | Return s => s
                      | Raise _ => EmptyString
                      end))]
              example_feedback (world_of toy_esb) (JList [JInt 1])
              eq_refl Hshape eq_refl)).
Defined.

(* ------------------------------------------------------------------ *)
(** ** From [init] to the bus *)

Section EndToEnd.

Variable env : Env.
Variable lib : Cryptography.

Variables (client_id_ client_secret_ grant_type_ : option str).
Variables (private_key_ public_key_ : str).
Variables (engine_url_ token_url_ : option str).
Variable timeout_ : option Z.

(** X26: after an [init] that was given an engine URL and succeeded, a
    [consume] that the bus answers has made its request to
    [{engine_url}/request] under [Bearer] followed by the token that the
    token endpoint gave, with the timeout given to [init]; the token request
    and this one are the only requests made. *)
Theorem consume_after_init_carries_the_token (w : World) (self : GovEsb)
    (sk : EllipticCurvePrivateKey) (pk : EllipticCurvePublicKey) (u : str)
    (response : Response) (data token expires_in : json) (until : float)
    (payload : json) (api_code : str) (base : str) (answer : Response) :
  _instance w = Some self ->
  initialized self = false ->
  get_private_key_from_pem lib private_key_ = Return sk ->
  get_public_key_from_pem lib public_key_ = Return pk ->
  token_url_ = Some u ->
  http_answer env (n_posts w) = PostReturns response ->
  200 <= status_code response <= 299 ->
  json_body response = Some data ->
  py_getitem data "access_token" = Return token ->
  py_getitem data "expires_in" = Return expires_in ->
  py_add (clock env (n_reads w)) expires_in = Return until ->
  engine_url_ = Some base ->
  http_answer env (S (n_posts w)) = PostReturns answer ->
  let stored := configured client_id_ client_secret_ grant_type_ engine_url_ timeout_
                  token_url_ sk pk self in
  let ready := set_initialized
                 (set_token_expiry (until - 60)%float (set_access_token token stored)) in
  exists w1 envelope,
    init env lib client_id_ client_secret_ grant_type_ private_key_ public_key_ engine_url_
      token_url_ timeout_ w
    = (w1, Return (true, [LogInitialized])) /\
    _instance w1 = Some ready /\
    posts (trace (fst (consume env ready payload api_code w1)))
    = (posts (trace w) ++
       [EvPost (token_request stored u);
        EvPost {| url := (base ++ "/request")%string;
                  authorization := Bearer token;
                  body := JsonBody envelope;
                  req_timeout := timeout_ |}])%list.
Proof.
  intros Hself Hinit Hsk Hpk Hurl Hnet Hstatus Hjson Htok Hexpin Hadd Hbase _ stored ready.
  pose proof (init_success_world env lib client_id_ client_secret_ grant_type_ private_key_
                public_key_ engine_url_ token_url_ timeout_ w self sk pk u response data
                token expires_in until Hself Hinit Hsk Hpk Hurl Hnet Hstatus Hjson Htok
                Hexpin Hadd) as Hrun.
  fold stored in Hrun. fold ready in Hrun.
  set (w1 := refreshed stored u w true [] (Some ready)) in *.
  destruct (consume_post_exchanges env ready sk payload api_code w1 eq_refl)
    as (envelope & Hpost).
  exists w1, envelope.
  split; [exact Hrun|]. split; [reflexivity|].
  assert (Hs : silent (exchanged env (bus_request ready envelope) (drawn env w1))
                 (fst (consume env ready payload api_code w1))).
  { unfold consume, try_binding. rewrite Hpost. apply consume_after_post_silent. }
  destruct Hs as (_ & _ & _ & ->).
  unfold exchanged, drawn, draw, send, log, receive, log_event, w1, refreshed.
  cbn [fst trace].
  unfold posts. rewrite !filter_app. cbn [filter is_post].
  rewrite <- app_assoc.
  unfold bus_request, ready, stored, configured.
  cbn [engine_url access_token timeout set_initialized set_token_expiry set_access_token
       set_public_key set_private_key set_config].
  rewrite Hbase. reflexivity.
Qed.

End EndToEnd.

Lemma consume_after_init_carries_the_token_witness :
  exists w1 envelope,
    init (env_of (PostReturns (response_of 200 token_reply)) 2000) toy_cryptography
      (Some "client") (Some "secret") None "PRIVATE" "PUBLIC"
      (Some "https://esb.example") (Some "https://esb.example/token") (Some 180)
      fresh_world
    = (w1, Return (true, [LogInitialized])) /\
    option_map access_token (_instance w1) = Some (JStr "T2") /\
    posts (trace (fst (consume (env_of (PostReturns (response_of 200 token_reply)) 2000)
                         (set_initialized
                            (set_token_expiry (5600 - 60)%float
                               (set_access_token (JStr "T2")
                                  (configured (Some "client") (Some "secret") None
                                     (Some "https://esb.example") (Some 180)
                                     (Some "https://esb.example/token")
                                     toy_private_key toy_public_key GovEsb__init__))))
                         (JDict [("a", JInt 1)]) "CODE1" w1)))
    = [EvPost {| url := "https://esb.example/token";
                 authorization := Basic (Some "client") (Some "secret");
                 body := FormBody (Some "client") (Some "secret")
                           (Some "client_credentials");
                 req_timeout := Some 180 |};
       EvPost {| url := "https://esb.example/request";
                 authorization := Bearer (JStr "T2");
                 body := JsonBody envelope;
                 req_timeout := Some 180 |}].
Proof.
  destruct (consume_after_init_carries_the_token
              (env_of (PostReturns (response_of 200 token_reply)) 2000) toy_cryptography
              (Some "client") (Some "secret") None "PRIVATE" "PUBLIC"
              (Some "https://esb.example") (Some "https://esb.example/token") (Some 180)
              fresh_world GovEsb__init__ toy_private_key toy_public_key
              "https://esb.example/token"
              (response_of 200 token_reply) token_reply (JStr "T2") (JInt 3600) 5600
              (JDict [("a", JInt 1)]) "CODE1" "https://esb.example"
              (response_of 200 token_reply)
              eq_refl eq_refl eq_refl eq_refl eq_refl eq_refl
              (conj (Zle_bool_imp_le 200 200 eq_refl) (Zle_bool_imp_le 200 299 eq_refl))
              eq_refl eq_refl eq_refl eq_refl eq_refl eq_refl)
    as (w1 & envelope & Hinit & Hinst & Hposts).
  exists w1, envelope.
  split; [exact Hinit|]. split; [rewrite Hinst; reflexivity | exact Hposts].
Defined.

(* ------------------------------------------------------------------ *)
(** ** Edges of the token request and of the verification *)

(** X27: without a token URL [request_esb_token] sends nothing: the client
    refuses the URL, the refusal is logged and the method returns [False],
    the object unchanged. *)
Theorem request_esb_token_without_url_sends_nothing (env : Env) (w : World)
    (self : GovEsb) :
  _instance w = Some self ->
  token_url self = None ->
  request_esb_token env w
  = (log_event (EvLogException (FailedToGetToken (TypeError "Invalid type for url"))) w,
     Return false).
Proof.
  intros Hself Hurl.
  unfold request_esb_token, try_Exception.
  unfold bind at 1. unfold self_ at 1. rewrite Hself, Hurl.
  reflexivity.
Qed.

Lemma request_esb_token_without_url_sends_nothing_witness :
  request_esb_token (env_of (PostReturns (response_of 200 token_reply)) 2000) fresh_world
  = (log_event (EvLogException (FailedToGetToken (TypeError "Invalid type for url")))
       fresh_world,
     Return false).
Proof.
  exact (request_esb_token_without_url_sends_nothing
           (env_of (PostReturns (response_of 200 token_reply)) 2000) fresh_world
           GovEsb__init__ eq_refl eq_refl).
Defined.

(** X28: a signature that [sign_payload] returned never makes
    [verify_signature] raise, whatever the keys and whatever payload it is
    checked against: the answer is the verdict of the public key on the
    signed bytes and the canonical bytes of that payload. *)
Theorem verify_signature_of_signed (self : GovEsb) (sk : EllipticCurvePrivateKey)
    (pk : EllipticCurvePublicKey) (nonce : N) (signed checked : json) (signature : str) :
  private_key self = Some sk ->
  public_key self = Some pk ->
  sign_payload self nonce signed = Return signature ->
  verify_signature self (JStr signature) checked
  = Return (pk_verify pk (sk_sign sk nonce (utf8_encode (trim_payload signed)))
              (utf8_encode (trim_payload checked))).
Proof.
  intros Hsk Hpk Hsign.
  rewrite (sign_payload_returns self sk nonce signed Hsk) in Hsign.
  injection Hsign as <-.
  unfold verify_signature. rewrite Hpk, b64decode_text.
  cbn [rbind].
  destruct (pk_verify pk _ _); reflexivity.
Qed.

Lemma verify_signature_of_signed_witness :
  sign_payload toy_esb 7 (JDict bus_data) = Return bus_signature /\
  verify_signature toy_esb (JStr bus_signature) (JDict [("success", JBool false)])
  = Return false.
Proof.
  split; [reflexivity|].
  exact (verify_signature_of_signed toy_esb toy_private_key toy_public_key 7
           (JDict bus_data) (JDict [("success", JBool false)]) bus_signature
           eq_refl eq_refl eq_refl).
Defined.
